(** * AICamera: a shallow embedding of the Raspberry Pi camera front-ends

    The development follows the Python sources:
    - [Py]            the few Python built-ins the scripts rely on
                      ([str], [str.lower], [str.strip], [os.path.splitext]);
    - [CreateLabels]  create_labels.py;
    - [Detection]     [AIVisionGUI._process_object_detection] of
                      AIvisionProgram.py;
    - [Launch]        the command lines built by camera_pose_detection.py,
                      AI_Camera_Demo1.py and QRReader.py;
    - [Gui]           the process supervisor of AIvisionGUI.py: the GUI
                      object, the operating-system processes it spawns, its
                      helper threads and the Tk callback queue.

    Definitions come first, the theorems about them follow. *)

From Stdlib Require Import ZArith QArith Qabs Lqa List String Ascii Lia Bool.
From Stdlib Require Import DecimalString DecimalZ.
From stdpp Require Import gmap strings list fin_maps.

Open Scope string_scope.
Open Scope Z_scope.

(* ===================================================================== *)
(** * Python built-ins *)
(* ===================================================================== *)

Module Py.

(** A Python [str] is the string of its code points; the strings of this
    development are those whose code points are all below 256, one
    character of the Rocq string for each code point. *)

(** [str(n)] for a Python [int]: decimal digits, a leading [-] for
    negative numbers. *)
Definition str_of_int (n : Z) : string :=
  NilZero.string_of_int (Z.to_int n).

(** [int(s)] restricted to the images of [str]: the decimal reading of a
    string, [None] when the string is not a decimal numeral. *)
Definition int_of_str (s : string) : option Z :=
  option_map Z.of_int (NilZero.int_of_string s).

(** [' '.join(l)]. *)
Fixpoint join (sep : string) (l : list string) : string :=
  match l with
  | [] => ""
  | [x] => x
  | x :: rest => x +:+ sep +:+ join sep rest
  end.

(** One character of [str.lower()].  Below 256 the upper-case letters
    are [A]..[Z] and U+00C0..U+00DE without the multiplication sign
    U+00D7; each has its lower-case letter 32 places further. *)
Definition lower_char (c : ascii) : ascii :=
  let n := nat_of_ascii c in
  if (((65 <=? n)%nat && (n <=? 90)%nat)
      || ((192 <=? n)%nat && (n <=? 222)%nat && negb (n =? 215)%nat))%bool
  then ascii_of_nat (n + 32) else c.

Fixpoint lower (s : string) : string :=
  match s with
  | EmptyString => EmptyString
  | String c rest => String (lower_char c) (lower rest)
  end.

(** The characters [str.strip()] removes, [str.isspace] being true of
    them: space, [\t], [\n], [\v], [\f], [\r], the separators
    [\x1c]..[\x1f], the next-line character U+0085 and the no-break
    space U+00A0.  The other white space of Unicode lies above 255. *)
Definition is_space (c : ascii) : bool :=
  let n := nat_of_ascii c in
  ((n =? 32)%nat || ((9 <=? n)%nat && (n <=? 13)%nat)
   || ((28 <=? n)%nat && (n <=? 31)%nat)
   || (n =? 133)%nat || (n =? 160)%nat)%bool.

Fixpoint lstrip (s : string) : string :=
  match s with
  | EmptyString => EmptyString
  | String c rest => if is_space c then lstrip rest else s
  end.

(** [rstrip] keeps a character when it is not a space or when something
    is left after it. *)
Fixpoint rstrip (s : string) : string :=
  match s with
  | EmptyString => EmptyString
  | String c rest =>
      match rstrip rest with
      | EmptyString => if is_space c then EmptyString else String c EmptyString
      | r => String c r
      end
  end.

Definition strip (s : string) : string := rstrip (lstrip s).

(** [c in s] for a one-character [c]. *)
Fixpoint contains (c : ascii) (s : string) : bool :=
  match s with
  | EmptyString => false
  | String d rest => (Ascii.eqb d c || contains c rest)%bool
  end.

(** [s.rfind(c)] for a one-character needle: the last index of [c], or
    [-1]. *)
Fixpoint rfind_from (c : ascii) (s : string) (i : Z) (last : Z) : Z :=
  match s with
  | EmptyString => last
  | String d rest =>
      rfind_from c rest (i + 1) (if Ascii.eqb d c then i else last)
  end.

Definition rfind (c : ascii) (s : string) : Z := rfind_from c s 0 (-1).

(** The loop of [genericpath._splitext] that skips the leading dots of the
    file name: [true] when some character of [p] at an index in
    [filenameIndex, filenameIndex + n) is not a dot. *)
Fixpoint non_dot_before (p : string) (filenameIndex : nat) (n : nat) : bool :=
  match n with
  | O => false
  | S n' =>
      match String.get filenameIndex p with
      | Some c =>
          if Ascii.eqb c "."%char then non_dot_before p (S filenameIndex) n'
          else true
      | None => non_dot_before p (S filenameIndex) n'
      end
  end.

(** [os.path.splitext(p)] of posixpath ([sep = '/'], no [altsep],
    [extsep = '.']). *)
Definition splitext (p : string) : string * string :=
  let sepIndex := rfind "/"%char p in
  let dotIndex := rfind "."%char p in
  if (sepIndex <? dotIndex)
     && non_dot_before p (Z.to_nat (sepIndex + 1))
                       (Z.to_nat (dotIndex - (sepIndex + 1)))
  then (String.substring 0 (Z.to_nat dotIndex) p,
        String.substring (Z.to_nat dotIndex)
                         (String.length p - Z.to_nat dotIndex) p)
  else (p, "").

End Py.

(* ===================================================================== *)
(** * create_labels.py *)
(* ===================================================================== *)

Module CreateLabels.

Definition COCO_LABELS : list string :=
  [ "person"; "bicycle"; "car"; "motorcycle"; "airplane"; "bus"; "train"; "truck";
    "boat"; "traffic light"; "fire hydrant"; "stop sign"; "parking meter"; "bench";
    "bird"; "cat"; "dog"; "horse"; "sheep"; "cow"; "elephant"; "bear"; "zebra";
    "giraffe"; "backpack"; "umbrella"; "handbag"; "tie"; "suitcase"; "frisbee";
    "skis"; "snowboard"; "sports ball"; "kite"; "baseball bat"; "baseball glove";
    "skateboard"; "surfboard"; "tennis racket"; "bottle"; "wine glass"; "cup";
    "fork"; "knife"; "spoon"; "bowl"; "banana"; "apple"; "sandwich"; "orange";
    "broccoli"; "carrot"; "hot dog"; "pizza"; "donut"; "cake"; "chair"; "couch";
    "potted plant"; "bed"; "dining table"; "toilet"; "tv"; "laptop"; "mouse";
    "remote"; "keyboard"; "cell phone"; "microwave"; "oven"; "toaster"; "sink";
    "refrigerator"; "book"; "clock"; "vase"; "scissors"; "teddy bear"; "hair drier";
    "toothbrush" ].

Definition IMAGENET_LABELS : list string :=
  [ "tench"; "goldfish"; "great white shark"; "tiger shark"; "hammerhead shark";
    "electric ray"; "stingray"; "rooster"; "hen"; "ostrich"; "brambling";
    "goldfinch"; "house finch"; "junco"; "indigo bunting"; "American robin";
    "bulbul"; "jay"; "magpie"; "chickadee" ].

(** What the script can see and change: the files (path to contents; a
    path is bound exactly when [os.path.exists] answers [True]), the
    lines printed on standard output and the exceptions that have escaped
    from a call, oldest first.  [open_w_error path] is [Some e] when
    [open(path, 'w')] raises: [e] is the [OSError] of a directory that is
    missing or may not be written to. *)
Record world := World {
  files : gmap string string;
  stdout : list string;
  raised : list string;
  open_w_error : string -> option string
}.

Definition exists_ (path : string) (w : world) : bool :=
  bool_decide (is_Some (files w !! path)).

Definition print (line : string) (w : world) : world :=
  World (files w) (stdout w ++ [line]) (raised w) (open_w_error w).

(** An exception leaves the function: nothing that follows is run. *)
Definition raise_ (e : string) (w : world) : world :=
  World (files w) (stdout w) (raised w ++ [e]) (open_w_error w).

(** [label_file = f"{base_path}.txt"] with
    [base_path = os.path.splitext(model_path)[0]]. *)
Definition label_file_of (model_path : string) : string :=
  fst (Py.splitext model_path) +:+ ".txt".

(** What the [with open(label_file, 'w')] block writes: [f"{label}\n"]
    for each label in turn. *)
Fixpoint write_labels (labels : list string) : string :=
  match labels with
  | [] => ""
  | label :: rest => (label +:+ String "010"%char EmptyString) +:+ write_labels rest
  end.

(** [open(path, 'w')] and the writes that follow: the file is created or
    truncated and receives [contents], or the error of [open] comes out
    and no file is touched. *)
Definition open_w_write (path contents : string) (w : world) : world + string :=
  match open_w_error w path with
  | Some e => inr e
  | None =>
      inl (World (<[path := contents]> (files w)) (stdout w) (raised w)
                 (open_w_error w))
  end.

Definition create_label_file (model_path label_type : string) (w : world) : world :=
  let label_file := label_file_of model_path in
  if exists_ label_file w then
    print ("Label file already exists: " +:+ label_file) w
  else
    let chosen :=
      if String.eqb (Py.lower label_type) "coco" then Some COCO_LABELS
      else if String.eqb (Py.lower label_type) "imagenet" then Some IMAGENET_LABELS
      else None in
    match chosen with
    | None => print ("Unknown label type: " +:+ label_type) w
    | Some labels =>
        match open_w_write label_file (write_labels labels) w with
        | inl w1 =>
            print ("Created label file: " +:+ label_file +:+ " with "
                   +:+ Py.str_of_int (Z.of_nat (length labels)) +:+ " labels") w1
        | inr e => raise_ e w
        end
    end.

(** An empty disk on which [models/m.txt] cannot be opened for writing:
    the directory [models] does not exist. *)
Definition missing_directory : world :=
  World ∅ [] []
        (fun _ => Some "[Errno 2] No such file or directory: 'models/m.txt'").

(** How AIvisionProgram.py ([select_model]) reads such a file back:
    [[line.strip() for line in f.readlines()]].  [readlines] cuts the
    contents after each newline. *)
Fixpoint readlines_from (contents : string) (line : string) : list string :=
  match contents with
  | EmptyString => if String.eqb line "" then [] else [line]
  | String c rest =>
      if Ascii.eqb c "010"%char
      then (line +:+ String c EmptyString) :: readlines_from rest ""
      else readlines_from rest (line +:+ String c EmptyString)
  end.

Definition readlines (contents : string) : list string :=
  readlines_from contents "".

Definition load_labels (contents : string) : list string :=
  map Py.strip (readlines contents).

End CreateLabels.

(* ===================================================================== *)
(** * AIvisionProgram.py: [_process_object_detection] *)
(* ===================================================================== *)

Module Detection.

(** A Python or NumPy float.  Every finite IEEE value is a rational
    number, so [Fin] carries it exactly; the two infinities and NaN are
    kept apart since comparisons and [int()] treat them specially. *)
Inductive pyfloat :=
| Fin (q : Q)
| Inf (negative : bool)
| NaN.

(** The numbers the function handles: Python [int]s and floats. *)
Inductive num :=
| I (n : Z)
| F (x : pyfloat).

Inductive exn :=
| IndexError
| ValueError
| OverflowError.

Inductive outcome (A : Type) :=
| Return (a : A)
| Raise (e : exn).
Arguments Return {A} a.
Arguments Raise {A} e.

(** Sequencing: an exception ends the computation.  The instance gives
    the notation [x ← m; k]. *)
#[export] Instance outcome_bind : MBind outcome := fun A B k m =>
  match m with
  | Return a => k a
  | Raise e => Raise e
  end.

(** [a < b] on floats: exact on finite values, false as soon as one side
    is NaN. *)
Definition flt (a b : pyfloat) : bool :=
  match a, b with
  | NaN, _ | _, NaN => false
  | Fin x, Fin y => negb (Qle_bool y x)
  | Fin _, Inf negative => negb negative
  | Inf negative, Fin _ => negative
  | Inf n1, Inf n2 => n1 && negb n2
  end.

Definition to_float (a : num) : pyfloat :=
  match a with
  | I n => Fin (inject_Z n)
  | F x => x
  end.

(** [a < b] and [a > b] between numbers; an [int] compares by its exact
    value. *)
Definition lt (a b : num) : bool :=
  match a, b with
  | I m, I n => m <? n
  | _, _ => flt (to_float a) (to_float b)
  end.

Definition gt (a b : num) : bool := lt b a.

(** The two-argument built-ins [max(a, b)] and [min(a, b)]: the first
    argument is kept unless the second one is strictly better. *)
Definition max (a b : num) : num := if gt b a then b else a.
Definition min (a b : num) : num := if lt b a then b else a.

(** [int(a)]: truncation towards zero; [int(inf)] raises OverflowError and
    [int(nan)] ValueError. *)
Definition int (a : num) : outcome Z :=
  match a with
  | I n => Return n
  | F (Fin q) => Return (Z.quot (Qnum q) (Zpos (Qden q)))
  | F (Inf _) => Raise OverflowError
  | F NaN => Raise ValueError
  end.

(** [row[i]] on a one-dimensional array, for the constant indices 0..5 of
    the source. *)
Definition index (row : list pyfloat) (i : nat) : outcome pyfloat :=
  match row !! i with
  | Some x => Return x
  | None => Raise IndexError
  end.

(** [labels[i]] on a Python list: negative indices count from the end. *)
Definition getitem (labels : list string) (i : Z) : outcome string :=
  let n := Z.of_nat (length labels) in
  let j := if i <? 0 then i + n else i in
  if (0 <=? j) && (j <? n) then
    match labels !! Z.to_nat j with
    | Some s => Return s
    | None => Raise IndexError
    end
  else Raise IndexError.

Definition half : pyfloat := Fin (1 # 2).

(** One entry of the result list:
    [(label, score, (xmin, ymin, xmax, ymax))]. *)
Record detection := Detection {
  label : string;
  score : pyfloat;
  xmin : Z;
  ymin : Z;
  xmax : Z;
  ymax : Z
}.

Section ProcessObjectDetection.

(** NumPy's product of a tensor entry by a Python [int] (rounded to the
    entry's floating-point format) and the [.2f] rendering of a score are
    NumPy's and Python's; the function below works for any of them. *)
Variable np_mul : pyfloat -> Z -> pyfloat.
Variable format_2f : pyfloat -> string.

(** [self.labels]. *)
Variable labels : list string.

(** The body of the [for] loop on one row: [Return None] is the
    [continue] of a low score. *)
Definition detect_row (img_width img_height : Z) (row : list pyfloat)
  : outcome (option detection) :=
  score ← index row 4;
  if flt score half then Return None
  else
    c ← index row 5;
    class_id ← int (F c);
    label ← (if class_id <? Z.of_nat (length labels)
              then getitem labels class_id
              else Return ("Class " +:+ Py.str_of_int class_id));
    y0 ← index row 0;
    ymin ← int (max (I 1) (F (np_mul y0 img_height)));
    x0 ← index row 1;
    xmin ← int (max (I 1) (F (np_mul x0 img_width)));
    y1 ← index row 2;
    ymax ← int (min (I img_height) (F (np_mul y1 img_height)));
    x1 ← index row 3;
    xmax ← int (min (I img_width) (F (np_mul x1 img_width)));
    Return (Some (Detection label score xmin ymin xmax ymax)).

Definition detected_line (d : detection) : string :=
  "Detected: " +:+ label d +:+ " (confidence: " +:+ format_2f (score d) +:+ ")".

(** The loop over [output_data[0]], with the list built so far and the
    lines printed so far. *)
Fixpoint detect_rows (img_width img_height : Z) (rows : list (list pyfloat))
    (results : list detection) (printed : list string)
  : outcome (list detection) * list string :=
  match rows with
  | [] => (Return results, printed)
  | row :: rest =>
      match detect_row img_width img_height row with
      | Raise e => (Raise e, printed)
      | Return None => detect_rows img_width img_height rest results printed
      | Return (Some d) =>
          detect_rows img_width img_height rest
                      (results ++ [d]) (printed ++ [detected_line d])
      end
  end.

(** [_process_object_detection(self, output_data, img_width, img_height)],
    [rows] being [output_data[0]]: the returned list (or the exception
    that escapes) and the lines printed. *)
Definition _process_object_detection (rows : list (list pyfloat))
    (img_width img_height : Z) : outcome (list detection) * list string :=
  detect_rows img_width img_height rows [] [].

End ProcessObjectDetection.

(** The exact product, which is what the floating-point product is
    whenever no rounding is needed. *)
Definition exact_mul (x : pyfloat) (n : Z) : pyfloat :=
  match x with
  | Fin q => Fin (Qred (q * inject_Z n))
  | Inf negative =>
      if n =? 0 then NaN else Inf (if n <? 0 then negb negative else negative)
  | NaN => NaN
  end.

(** [a <= b] on floats. *)
Definition fle (a b : pyfloat) : bool :=
  match a, b with
  | NaN, _ | _, NaN => false
  | Fin x, Fin y => Qle_bool x y
  | Fin _, Inf negative => negb negative
  | Inf negative, Fin _ => negative
  | Inf n1, Inf n2 => n1 || negb n2
  end.

(** A score of at least 0.5: [score >= 0.5] in Python. *)
Definition at_least_half (s : pyfloat) : bool := fle half s.

(** The scores of the rows, in order: entry 4 of each row. *)
Fixpoint row_scores (rows : list (list pyfloat)) : list pyfloat :=
  match rows with
  | [] => []
  | row :: rest =>
      match row !! 4%nat with
      | Some s => s :: row_scores rest
      | None => row_scores rest
      end
  end.

(** One row whose score is NaN, as an inference that went wrong leaves
    them, for a 640x480 frame. *)
Definition nan_rows : list (list pyfloat) :=
  [[Fin (1 # 10); Fin (1 # 10); Fin (1 # 2); Fin (1 # 2); NaN; Fin 0]].

(** What a detection that comes out of the loop satisfies. *)
Definition clamped (img_width img_height : Z) (d : detection) : Prop :=
  1 <= xmin d /\ 1 <= ymin d /\ ymax d <= img_height /\ xmax d <= img_width.

(** A row of six finite entries whose class is not negative. *)
Definition plain_row (row : list pyfloat) : Prop :=
  exists y0 x0 y1 x1 s c,
    row = [Fin y0; Fin x0; Fin y1; Fin x1; Fin s; Fin c] /\ (0 <= Qnum c).

End Detection.

(* ===================================================================== *)
(** * Command lines: camera_pose_detection.py, AI_Camera_Demo1.py, QRReader.py *)
(* ===================================================================== *)

Module Launch.

(** [cmd] of [run_camera_with_pose_detection]. *)
Definition run_camera_with_pose_detection_cmd
    (duration width height framerate : Z) (model_path : string) : list string :=
  [ "rpicam-hello";
    "-t"; Py.str_of_int duration +:+ "s";
    "--post-process-file"; model_path;
    "--viewfinder-width"; Py.str_of_int width;
    "--viewfinder-height"; Py.str_of_int height;
    "--framerate"; Py.str_of_int framerate ].

(** The [IMX500Camera] object of AI_Camera_Demo1.py. *)
Record IMX500Camera := {
  model_file : string;
  cam_width : Z;
  cam_height : Z;
  cam_framerate : Z
}.

(** [cmd] of [IMX500Camera.start(timeout)]. *)
Definition IMX500Camera_start_cmd (self : IMX500Camera) (timeout : string)
  : list string :=
  [ "rpicam-hello";
    "-t"; timeout;
    "--post-process-file"; model_file self;
    "--viewfinder-width"; Py.str_of_int (cam_width self);
    "--viewfinder-height"; Py.str_of_int (cam_height self);
    "--framerate"; Py.str_of_int (cam_framerate self) ].

(** The parsed arguments of QRReader.py ([-w], [-H], [-f], all
    [type=int]). *)
Record qr_args := {
  args_width : Z;
  args_height : Z;
  args_framerate : Z
}.

(** The fields of [QRCodeReaderGUI] that reach the capture command and the
    capture loop; [temp_file] is the frame file inside the temporary
    directory the constructor creates. *)
Record QRCodeReaderGUI := {
  width : Z;
  height : Z;
  framerate : Z;
  temp_file : string
}.

(** [main] of QRReader.py up to the construction of the GUI object:
    [framerate = max(1, min(10, args.framerate))]. *)
Definition main (args : qr_args) (temp_file : string) : QRCodeReaderGUI :=
  let framerate := Z.max 1 (Z.min 10 (args_framerate args)) in
  {| width := args_width args;
     height := args_height args;
     framerate := framerate;
     temp_file := temp_file |}.

(** [cmd] of [QRCodeReaderGUI._capture_frames]. *)
Definition _capture_frames_cmd (self : QRCodeReaderGUI) : list string :=
  [ "libcamera-still";
    "--width"; Py.str_of_int (width self);
    "--height"; Py.str_of_int (height self);
    "--output"; temp_file self;
    "--immediate";
    "--nopreview";
    "--timeout"; "1" ].

(** A flag of a command line carries the string [s] itself: the flag is
    followed by [s]. *)
Definition carries_str (cmd : list string) (flag : string) (s : string) : Prop :=
  exists before rest, cmd = (before ++ flag :: s :: rest)%list.

(** A flag of a command line carries the number [n]: the flag is followed
    by [str(n)], the decimal text of [n] and no other text that would
    read as [n]. *)
Definition carries (cmd : list string) (flag : string) (n : Z) : Prop :=
  carries_str cmd flag (Py.str_of_int n).

(** The number [n] appears somewhere in the command line. *)
Definition appears (cmd : list string) (n : Z) : Prop :=
  exists value, In value cmd /\ Py.int_of_str value = Some n.

End Launch.

(* ===================================================================== *)
(** * AIvisionGUI.py: the process supervisor *)
(* ===================================================================== *)

Module Gui.

(** ** The operating system *)

(** A [subprocess.Popen] object is identified with the process it stands
    for: its index in the table of the processes spawned so far. *)
Definition pid := nat.
Bind Scope nat_scope with pid.

Inductive pstatus :=
| Alive                (* running *)
| Terminating          (* running, SIGTERM has been sent to it *)
| Killed               (* SIGKILL has been sent to it; it has not gone yet *)
| Exited (code : Z).   (* gone, with its return code *)

(** What a child has written to its standard output and nobody has read
    yet: lines of text (each one as [readline] will return it), or bytes
    that are not text in the encoding of the pipe, on which [readline]
    raises [UnicodeDecodeError]. *)
Inductive chunk :=
| Text (line : string)
| Undecodable.

(** A child process: its command line, its status, and what waits in the
    pipe of its standard output. *)
Record proc := Proc {
  p_cmd : list string;
  p_status : pstatus;
  p_stdout : list chunk
}.

(** What the supervisor cannot decide: whether a command can be spawned,
    and whether a process that was sent SIGTERM is gone before the
    two-second [wait] gives up. *)
Record osenv := {
  sys_executable : string;
  (** [Some msg]: [Popen(cmd)] raises an [OSError] whose text is [msg] *)
  spawn_error : list string -> option string;
  (** [Some code]: the process exits with [code] within the timeout of
      [wait] once it was sent SIGTERM; [None]: the [wait] times out *)
  exits_on_term : list string -> option Z
}.

(** ** The interpreter *)

(** The managed tools started with a piped standard output. *)
Inductive tool := ModelAI | QRReader.

(** The helper threads, each at a point where it can be scheduled. *)
Inductive thread :=
| CameraLauncher           (* [_run_camera_thread], about to run *)
| CameraWaiter (p : pid)   (* [_run_camera_thread], inside [self.process.wait()] *)
| OutputReader (t : tool)  (* [_read_model_ai_output] / [_read_qr_reader_output],
                              about to run *)
| OutputReading (t : tool) (p : pid)
                           (* the same, inside [readline()] on the pipe of [p] *)
| Finished.

(** The callbacks handed to [self.root.after(0, ...)]. *)
Inductive callback :=
| CameraStopped            (* [self._camera_stopped] *)
| ToolStopped (t : tool).  (* [self._model_ai_stopped] / [self._qr_reader_stopped] *)

(** Where [sys.stdout] points: the real standard output, or the
    [RedirectText] object that writes into the console widget. *)
Inductive stream := Terminal | Console.

(** The [AIVisionGUI] object (its process fields and the texts it shows),
    the interpreter around it (where [print] goes, the threads, the
    pending [after] callbacks, whether the root window was destroyed) and
    the table of child processes. *)
Record world := World {
  process : option pid;
  camera_running : bool;
  qr_reader_process : option pid;
  model_ai_process : option pid;
  status_label : string;
  model_ai_button : string;
  qr_button : string;
  start_button : string;
  console : list string;
  sys_stdout : stream;
  terminal : list string;
  threads : list thread;
  after_queue : list callback;
  destroyed : bool;
  procs : list proc
}.

Definition set_process (v : option pid) (w : world) : world :=
  {| process := v;
     camera_running := camera_running w;
     qr_reader_process := qr_reader_process w;
     model_ai_process := model_ai_process w;
     status_label := status_label w;
     model_ai_button := model_ai_button w;
     qr_button := qr_button w;
     start_button := start_button w;
     console := console w;
     sys_stdout := sys_stdout w;
     terminal := terminal w;
     threads := threads w;
     after_queue := after_queue w;
     destroyed := destroyed w;
     procs := procs w |}.

Definition set_camera_running (v : bool) (w : world) : world :=
  {| process := process w;
     camera_running := v;
     qr_reader_process := qr_reader_process w;
     model_ai_process := model_ai_process w;
     status_label := status_label w;
     model_ai_button := model_ai_button w;
     qr_button := qr_button w;
     start_button := start_button w;
     console := console w;
     sys_stdout := sys_stdout w;
     terminal := terminal w;
     threads := threads w;
     after_queue := after_queue w;
     destroyed := destroyed w;
     procs := procs w |}.

Definition set_qr_reader_process (v : option pid) (w : world) : world :=
  {| process := process w;
     camera_running := camera_running w;
     qr_reader_process := v;
     model_ai_process := model_ai_process w;
     status_label := status_label w;
     model_ai_button := model_ai_button w;
     qr_button := qr_button w;
     start_button := start_button w;
     console := console w;
     sys_stdout := sys_stdout w;
     terminal := terminal w;
     threads := threads w;
     after_queue := after_queue w;
     destroyed := destroyed w;
     procs := procs w |}.

Definition set_model_ai_process (v : option pid) (w : world) : world :=
  {| process := process w;
     camera_running := camera_running w;
     qr_reader_process := qr_reader_process w;
     model_ai_process := v;
     status_label := status_label w;
     model_ai_button := model_ai_button w;
     qr_button := qr_button w;
     start_button := start_button w;
     console := console w;
     sys_stdout := sys_stdout w;
     terminal := terminal w;
     threads := threads w;
     after_queue := after_queue w;
     destroyed := destroyed w;
     procs := procs w |}.

Definition set_status_label (v : string) (w : world) : world :=
  {| process := process w;
     camera_running := camera_running w;
     qr_reader_process := qr_reader_process w;
     model_ai_process := model_ai_process w;
     status_label := v;
     model_ai_button := model_ai_button w;
     qr_button := qr_button w;
     start_button := start_button w;
     console := console w;
     sys_stdout := sys_stdout w;
     terminal := terminal w;
     threads := threads w;
     after_queue := after_queue w;
     destroyed := destroyed w;
     procs := procs w |}.

Definition set_model_ai_button (v : string) (w : world) : world :=
  {| process := process w;
     camera_running := camera_running w;
     qr_reader_process := qr_reader_process w;
     model_ai_process := model_ai_process w;
     status_label := status_label w;
     model_ai_button := v;
     qr_button := qr_button w;
     start_button := start_button w;
     console := console w;
     sys_stdout := sys_stdout w;
     terminal := terminal w;
     threads := threads w;
     after_queue := after_queue w;
     destroyed := destroyed w;
     procs := procs w |}.

Definition set_qr_button (v : string) (w : world) : world :=
  {| process := process w;
     camera_running := camera_running w;
     qr_reader_process := qr_reader_process w;
     model_ai_process := model_ai_process w;
     status_label := status_label w;
     model_ai_button := model_ai_button w;
     qr_button := v;
     start_button := start_button w;
     console := console w;
     sys_stdout := sys_stdout w;
     terminal := terminal w;
     threads := threads w;
     after_queue := after_queue w;
     destroyed := destroyed w;
     procs := procs w |}.

Definition set_start_button (v : string) (w : world) : world :=
  {| process := process w;
     camera_running := camera_running w;
     qr_reader_process := qr_reader_process w;
     model_ai_process := model_ai_process w;
     status_label := status_label w;
     model_ai_button := model_ai_button w;
     qr_button := qr_button w;
     start_button := v;
     console := console w;
     sys_stdout := sys_stdout w;
     terminal := terminal w;
     threads := threads w;
     after_queue := after_queue w;
     destroyed := destroyed w;
     procs := procs w |}.

Definition set_console (v : list string) (w : world) : world :=
  {| process := process w;
     camera_running := camera_running w;
     qr_reader_process := qr_reader_process w;
     model_ai_process := model_ai_process w;
     status_label := status_label w;
     model_ai_button := model_ai_button w;
     qr_button := qr_button w;
     start_button := start_button w;
     console := v;
     sys_stdout := sys_stdout w;
     terminal := terminal w;
     threads := threads w;
     after_queue := after_queue w;
     destroyed := destroyed w;
     procs := procs w |}.

Definition set_sys_stdout (v : stream) (w : world) : world :=
  {| process := process w;
     camera_running := camera_running w;
     qr_reader_process := qr_reader_process w;
     model_ai_process := model_ai_process w;
     status_label := status_label w;
     model_ai_button := model_ai_button w;
     qr_button := qr_button w;
     start_button := start_button w;
     console := console w;
     sys_stdout := v;
     terminal := terminal w;
     threads := threads w;
     after_queue := after_queue w;
     destroyed := destroyed w;
     procs := procs w |}.

Definition set_terminal (v : list string) (w : world) : world :=
  {| process := process w;
     camera_running := camera_running w;
     qr_reader_process := qr_reader_process w;
     model_ai_process := model_ai_process w;
     status_label := status_label w;
     model_ai_button := model_ai_button w;
     qr_button := qr_button w;
     start_button := start_button w;
     console := console w;
     sys_stdout := sys_stdout w;
     terminal := v;
     threads := threads w;
     after_queue := after_queue w;
     destroyed := destroyed w;
     procs := procs w |}.

Definition set_threads (v : list thread) (w : world) : world :=
  {| process := process w;
     camera_running := camera_running w;
     qr_reader_process := qr_reader_process w;
     model_ai_process := model_ai_process w;
     status_label := status_label w;
     model_ai_button := model_ai_button w;
     qr_button := qr_button w;
     start_button := start_button w;
     console := console w;
     sys_stdout := sys_stdout w;
     terminal := terminal w;
     threads := v;
     after_queue := after_queue w;
     destroyed := destroyed w;
     procs := procs w |}.

Definition set_after_queue (v : list callback) (w : world) : world :=
  {| process := process w;
     camera_running := camera_running w;
     qr_reader_process := qr_reader_process w;
     model_ai_process := model_ai_process w;
     status_label := status_label w;
     model_ai_button := model_ai_button w;
     qr_button := qr_button w;
     start_button := start_button w;
     console := console w;
     sys_stdout := sys_stdout w;
     terminal := terminal w;
     threads := threads w;
     after_queue := v;
     destroyed := destroyed w;
     procs := procs w |}.

Definition set_destroyed (v : bool) (w : world) : world :=
  {| process := process w;
     camera_running := camera_running w;
     qr_reader_process := qr_reader_process w;
     model_ai_process := model_ai_process w;
     status_label := status_label w;
     model_ai_button := model_ai_button w;
     qr_button := qr_button w;
     start_button := start_button w;
     console := console w;
     sys_stdout := sys_stdout w;
     terminal := terminal w;
     threads := threads w;
     after_queue := after_queue w;
     destroyed := v;
     procs := procs w |}.

Definition set_procs (v : list proc) (w : world) : world :=
  {| process := process w;
     camera_running := camera_running w;
     qr_reader_process := qr_reader_process w;
     model_ai_process := model_ai_process w;
     status_label := status_label w;
     model_ai_button := model_ai_button w;
     qr_button := qr_button w;
     start_button := start_button w;
     console := console w;
     sys_stdout := sys_stdout w;
     terminal := terminal w;
     threads := threads w;
     after_queue := after_queue w;
     destroyed := destroyed w;
     procs := v |}.

Notation "w |> f" := (f w) (at level 45, left associativity, only parsing).

(** [AIVisionGUI.__init__]. *)
Definition init : world :=
  {| process := None;
     camera_running := false;
     qr_reader_process := None;
     model_ai_process := None;
     status_label := "Status: Ready";
     model_ai_button := "Model AI";
     qr_button := "QR Reader";
     start_button := "AI Vision";
     console := [];
     sys_stdout := Terminal;
     terminal := [];
     threads := [];
     after_queue := [];
     destroyed := false;
     procs := [] |}.

(** [print(line)]: one line to wherever [sys.stdout] points. *)
Definition print (line : string) (w : world) : world :=
  match sys_stdout w with
  | Console => set_console (console w ++ [line]) w
  | Terminal => set_terminal (terminal w ++ [line]) w
  end.

(** What has been printed on the stream [sys.stdout] points to. *)
Definition printed (w : world) : list string :=
  match sys_stdout w with
  | Console => console w
  | Terminal => terminal w
  end.

(** The three lines that empty the console widget. *)
Definition clear_console (w : world) : world := set_console [] w.

(** [threading.Thread(target=...).start()]. *)
Definition start_thread (t : thread) (w : world) : world :=
  set_threads (threads w ++ [t]) w.

(** [self.root.after(0, cb)]. *)
Definition after (cb : callback) (w : world) : world :=
  set_after_queue (after_queue w ++ [cb]) w.

(** ** Processes *)

Definition set_status (p : pid) (s : pstatus) (w : world) : world :=
  match procs w !! p with
  | Some pr => set_procs (<[p := Proc (p_cmd pr) s (p_stdout pr)]> (procs w)) w
  | None => w
  end.

Definition status_of (p : pid) (w : world) : option pstatus :=
  p_status <$> procs w !! p.

(** The process exists and has not exited. *)
Definition is_alive (p : pid) (w : world) : bool :=
  match status_of p w with
  | Some Alive | Some Terminating | Some Killed => true
  | _ => false
  end.

(** [p.poll()]: the return code once the process has exited. *)
Definition poll (p : pid) (w : world) : option Z :=
  match status_of p w with
  | Some (Exited code) => Some code
  | _ => None
  end.

(** [p.terminate()]: SIGTERM, which a process that has exited ignores. *)
Definition terminate (p : pid) (w : world) : world :=
  match status_of p w with
  | Some Alive => set_status p Terminating w
  | _ => w
  end.

(** [p.kill()]: SIGKILL is sent and the call returns; the victim is gone
    some time later, with the return code [-9]. *)
Definition kill (p : pid) (w : world) : world :=
  match status_of p w with
  | Some Alive | Some Terminating => set_status p Killed w
  | _ => w
  end.

(** What can happen: the user presses a button or closes the window, the
    Tk main loop runs the oldest pending callback, a helper thread is
    scheduled, a child writes a line of text or bytes that are no text,
    a child exits. *)
Inductive event :=
| ClickModelAI
| ClickQRReader
| ClickAIVision
| ClickClose
| RunAfter
| Schedule (i : nat)
| Writes (p : pid) (line : string)
| WritesUndecodable (p : pid)
| Exits (p : pid) (code : Z).
Arguments Schedule i%_nat.


Section Supervisor.

Variable os : osenv.

(** [subprocess.Popen(cmd, ...)]: the new process, or the text of the
    [OSError]. *)
Definition Popen (cmd : list string) (w : world) : world * (pid + string) :=
  match spawn_error os cmd with
  | Some msg => (w, inr msg)
  | None => (set_procs (procs w ++ [Proc cmd Alive []]) w, inl (length (procs w)))
  end.

(** [p.wait(timeout=2)] when nothing else happens in the meantime:
    [true] when [subprocess.TimeoutExpired] is raised.  A process that
    has exited is reaped at once; one that was sent SIGTERM exits in time
    or not, as the operating system has it; one that was sent SIGKILL is
    gone in time. *)
Definition wait_timeout (p : pid) (w : world) : world * bool :=
  match procs w !! p with
  | Some pr =>
      match p_status pr with
      | Exited _ => (w, false)
      | Terminating =>
          match exits_on_term os (p_cmd pr) with
          | Some code => (set_status p (Exited code) w, false)
          | None => (w, true)
          end
      | Killed => (set_status p (Exited (-9)) w, false)
      | Alive => (w, true)
      end
  | None => (w, false)
  end.

(** ** The camera *)

Definition camera_cmd : list string :=
  [ "rpicam-hello";
    "-t"; "0s";
    "--post-process-file"; "/usr/share/rpi-camera-assets/imx500_mobilenet_ssd.json";
    "--viewfinder-width"; "1920";
    "--viewfinder-height"; "1080";
    "--framerate"; "30" ].

(** [_camera_stopped]. *)
Definition _camera_stopped (w : world) : world :=
  w |> set_camera_running false
    |> set_start_button "AI Vision"
    |> set_status_label "Status: Ready"
    |> set_process None.

(** [stop_camera]. *)
Definition stop_camera (w : world) : world :=
  match process w with
  | Some p =>
      if camera_running w then
        w |> terminate p
          |> set_process None
          |> set_camera_running false
          |> set_start_button "AI Vision"
          |> set_status_label "Status: Stopped"
          |> print "Camera stopped by user"
      else w
  | None => w
  end.

(** ** The two piped tools

    [start_model_ai], [_read_model_ai_output], [_model_ai_stopped] and
    [stop_model_ai] are repeated word for word for the QR reader; only the
    field, the button and the texts change.  They are written once here,
    for a [tool]. *)

Definition handle (t : tool) (w : world) : option pid :=
  match t with
  | ModelAI => model_ai_process w
  | QRReader => qr_reader_process w
  end.

Definition set_handle (t : tool) (v : option pid) (w : world) : world :=
  match t with
  | ModelAI => set_model_ai_process v w
  | QRReader => set_qr_reader_process v w
  end.

Definition set_button (t : tool) (v : string) (w : world) : world :=
  match t with
  | ModelAI => set_model_ai_button v w
  | QRReader => set_qr_button v w
  end.

(** The name on the button and in front of the forwarded lines. *)
Definition short_name (t : tool) : string :=
  match t with
  | ModelAI => "Model AI"
  | QRReader => "QR Reader"
  end.

(** The name in the status line and in the messages. *)
Definition long_name (t : tool) : string :=
  match t with
  | ModelAI => "Model AI Vision"
  | QRReader => "QR Reader"
  end.

Definition script_path (t : tool) : string :=
  match t with
  | ModelAI => "/home/mbuffmire/Documents/AICamera/modelAIvisionProgram.py"
  | QRReader => "/home/mbuffmire/Documents/AICamera/QRReader.py"
  end.

Definition other (t : tool) : tool :=
  match t with
  | ModelAI => QRReader
  | QRReader => ModelAI
  end.

Definition tool_cmd (t : tool) : list string :=
  [sys_executable os; script_path t].

(** [stop_model_ai] / [stop_qr_reader] when nothing else happens while
    the main thread waits for the process: no helper thread is scheduled
    and no child writes during the [wait].  The general case is
    [stop_tool_during] below. *)
Definition stop_tool (t : tool) (w : world) : world :=
  match handle t w with
  | Some p =>
      let w1 := w |> print ("Stopping " +:+ long_name t +:+ "...")
                  |> terminate p in
      let (w2, timed_out) := wait_timeout p w1 in
      (if timed_out then kill p w2 else w2)
        |> set_handle t None
        |> set_button t (short_name t)
        |> set_status_label ("Status: " +:+ long_name t +:+ " Stopped")
  | None => w
  end.

Definition stop_model_ai : world -> world := stop_tool ModelAI.
Definition stop_qr_reader : world -> world := stop_tool QRReader.

(** [start_model_ai] / [start_qr_reader]. *)
Definition start_tool (t : tool) (w : world) : world :=
  match handle t w with
  | Some _ => w
  | None =>
      let w1 := if camera_running w then stop_camera w else w in
      let w2 := match handle (other t) w1 with
                | Some _ => stop_tool (other t) w1
                | None => w1
                end in
      let w3 := w2 |> set_status_label ("Status: Starting " +:+ long_name t +:+ "...")
                   |> set_button t ("Stop " +:+ short_name t)
                   |> clear_console
                   |> print ("Starting " +:+ long_name t +:+ " application...") in
      match Popen (tool_cmd t) w3 with
      | (w4, inl p) =>
          w4 |> set_handle t (Some p)
             |> start_thread (OutputReader t)
             |> print (long_name t +:+ " started successfully")
             |> set_status_label ("Status: " +:+ long_name t +:+ " Running")
      | (w4, inr e) =>
          w4 |> print ("Error starting " +:+ long_name t +:+ ": " +:+ e)
             |> set_status_label ("Status: Error - " +:+ e)
             |> set_button t (short_name t)
             |> set_handle t None
      end
  end.

Definition start_model_ai : world -> world := start_tool ModelAI.
Definition start_qr_reader : world -> world := start_tool QRReader.

(** The part of [start_model_ai] / [start_qr_reader] that precedes
    [Popen]: the other tasks are stopped, the texts are set, the console
    is cleared, the first line is printed. *)
Definition prepared (t : tool) (w : world) : world :=
  let w1 := if camera_running w then stop_camera w else w in
  let w2 := match handle (other t) w1 with
            | Some _ => stop_tool (other t) w1
            | None => w1
            end in
  print ("Starting " +:+ long_name t +:+ " application...")
    (clear_console
       (set_button t ("Stop " +:+ short_name t)
          (set_status_label ("Status: Starting " +:+ long_name t +:+ "...") w2))).

(** [toggle_model_ai] / [toggle_qr_reader]. *)
Definition toggle_tool (t : tool) (w : world) : world :=
  match handle t w with
  | None => start_tool t w
  | Some _ => stop_tool t w
  end.

Definition toggle_model_ai : world -> world := toggle_tool ModelAI.
Definition toggle_qr_reader : world -> world := toggle_tool QRReader.

(** The text of [{returncode}] in an f-string. *)
Definition str_of_returncode (rc : option Z) : string :=
  match rc with
  | Some code => Py.str_of_int code
  | None => "None"
  end.

(** [_model_ai_stopped] / [_qr_reader_stopped]. *)
Definition _tool_stopped (t : tool) (w : world) : world :=
  let returncode := match handle t w with
                    | Some p => poll p w
                    | None => None
                    end in
  w |> set_handle t None
    |> set_button t (short_name t)
    |> set_status_label ("Status: " +:+ long_name t +:+ " Exited (code: "
                         +:+ str_of_returncode returncode +:+ ")")
    |> print (long_name t +:+ " process ended with code: "
              +:+ str_of_returncode returncode).

Definition _model_ai_stopped : world -> world := _tool_stopped ModelAI.
Definition _qr_reader_stopped : world -> world := _tool_stopped QRReader.

(** [start_camera]. *)
Definition start_camera (w : world) : world :=
  if camera_running w then w
  else
    let w1 := match qr_reader_process w with
              | Some _ => stop_qr_reader w
              | None => w
              end in
    let w2 := match model_ai_process w1 with
              | Some _ => stop_model_ai w1
              | None => w1
              end in
    w2 |> set_camera_running true
       |> set_start_button "Stop AI Vision"
       |> set_status_label "Status: Running"
       |> clear_console
       |> start_thread CameraLauncher.

(** [toggle_camera]. *)
Definition toggle_camera (w : world) : world :=
  if camera_running w then stop_camera w else start_camera w.

(** [close_application]. *)
Definition close_application (w : world) : world :=
  let w1 := if camera_running w then stop_camera w else w in
  let w2 := match qr_reader_process w1 with
            | Some _ => stop_qr_reader w1
            | None => w1
            end in
  let w3 := match model_ai_process w2 with
            | Some _ => stop_model_ai w2
            | None => w2
            end in
  set_destroyed true w3.

(** ** The helper threads

    A thread runs from one point where it can block to the next; a step
    is [None] when the thread is blocked there (or is not that kind of
    thread). *)

Definition set_thread (i : nat) (t : thread) (w : world) : world :=
  set_threads (<[i := t]> (threads w)) w.

(** [_run_camera_thread] from its start to [self.process.wait()], or to
    its end when the launch fails. *)
Definition camera_launch (i : nat) (w : world) : world :=
  let w1 := w |> set_sys_stdout Console
              |> print "Starting AI camera with object detection..."
              |> print ("Command: " +:+ Py.join " " camera_cmd) in
  match Popen camera_cmd w1 with
  | (w2, inl p) =>
      w2 |> set_process (Some p)
         |> set_thread i (CameraWaiter p)
  | (w2, inr e) =>
      w2 |> print ("Error running camera: " +:+ e)
         |> after CameraStopped
         |> set_sys_stdout Terminal
         |> set_thread i Finished
  end.

(** [_run_camera_thread] from the return of [wait()] to its end. *)
Definition camera_waited (i : nat) (p : pid) (w : world) : option world :=
  match poll p w with
  | Some _ =>
      Some (w |> after CameraStopped
              |> set_sys_stdout Terminal
              |> set_thread i Finished)
  | None => None
  end.

(** [readline()] on the pipe of [p]: the next line, the empty string at
    end of file (the writer has exited and nothing is left), an exception
    when what comes next is no text, or nothing yet. *)
Inductive read :=
| Returns (line : string)
| Raises.

Definition readline (p : pid) (w : world) : option (world * read) :=
  match procs w !! p with
  | Some pr =>
      match p_stdout pr with
      | Text line :: rest =>
          Some (set_procs (<[p := Proc (p_cmd pr) (p_status pr) rest]> (procs w)) w,
                Returns line)
      | Undecodable :: rest =>
          Some (set_procs (<[p := Proc (p_cmd pr) (p_status pr) rest]> (procs w)) w,
                Raises)
      | [] =>
          match p_status pr with
          | Exited _ => Some (w, Returns "")
          | _ => None
          end
      end
  | None => None
  end.

(** What follows the loop of [_read_model_ai_output]. *)
Definition reader_exit (t : tool) (i : nat) (w : world) : world :=
  let w1 := match handle t w with
            | Some p =>
                match poll p w with
                | Some _ => after (ToolStopped t) w
                | None => w
                end
            | None => w
            end in
  set_thread i Finished w1.

(** The test of the [while] loop and what it leads to: the call of
    [readline] on the pipe of the process the slot holds at that moment,
    or the way out of the loop when the slot is empty. *)
Definition reader_loop (t : tool) (i : nat) (w : world) : world :=
  match handle t w with
  | Some p => set_thread i (OutputReading t p) w
  | None => reader_exit t i w
  end.

(** One turn of the loop of [_read_model_ai_output] /
    [_read_qr_reader_output], from the return of [readline] on the pipe
    of [p] to the next call of [readline], or out of the loop to the end
    of the function.  The slot is read again after [readline] has
    returned: an exception inside the [try] ([UnicodeDecodeError] from
    [readline], [AttributeError] from [None.poll()] when the slot was
    emptied in the meantime) leaves the loop through [except: break]. *)
Definition reader_turn (t : tool) (i : nat) (p : pid) (w : world) : option world :=
  match readline p w with
  | None => None
  | Some (w1, Raises) => Some (reader_exit t i w1)
  | Some (w1, Returns line) =>
      if String.eqb line "" then
        match handle t w1 with
        | Some q =>
            match poll q w1 with
            | Some _ => Some (reader_exit t i w1)
            | None => Some (reader_loop t i w1)
            end
        | None => Some (reader_exit t i w1)
        end
      else
        Some (reader_loop t i (print (short_name t +:+ ": " +:+ Py.strip line) w1))
  end.

Definition thread_step (i : nat) (w : world) : option world :=
  match threads w !! i with
  | Some CameraLauncher => Some (camera_launch i w)
  | Some (CameraWaiter p) => camera_waited i p w
  | Some (OutputReader t) => Some (reader_loop t i w)
  | Some (OutputReading t p) => reader_turn t i p w
  | Some Finished | None => None
  end.

(** ** The whole system *)

Definition run_callback (cb : callback) (w : world) : world :=
  match cb with
  | CameraStopped => _camera_stopped w
  | ToolStopped t => _tool_stopped t w
  end.

(** The main loop and the threads stop with [self.root.destroy()]; the
    children do not. *)
Definition step (e : event) (w : world) : option world :=
  match e with
  | Writes p line =>
      match procs w !! p with
      | Some pr =>
          if is_alive p w && negb (String.eqb line "") then
            Some (set_procs (<[p := Proc (p_cmd pr) (p_status pr)
                                          (p_stdout pr ++ [Text line])]> (procs w)) w)
          else None
      | None => None
      end
  | WritesUndecodable p =>
      match procs w !! p with
      | Some pr =>
          if is_alive p w then
            Some (set_procs (<[p := Proc (p_cmd pr) (p_status pr)
                                          (p_stdout pr ++ [Undecodable])]> (procs w)) w)
          else None
      | None => None
      end
  | Exits p code =>
      match status_of p w with
      | Some Alive | Some Terminating => Some (set_status p (Exited code) w)
      | Some Killed =>
          if code =? -9 then Some (set_status p (Exited code) w) else None
      | _ => None
      end
  | _ =>
      if destroyed w then None
      else
        match e with
        | ClickModelAI => Some (toggle_model_ai w)
        | ClickQRReader => Some (toggle_qr_reader w)
        | ClickAIVision => Some (toggle_camera w)
        | ClickClose => Some (close_application w)
        | RunAfter =>
            match after_queue w with
            | cb :: rest => Some (run_callback cb (set_after_queue rest w))
            | [] => None
            end
        | Schedule i => thread_step i w
        | _ => None
        end
  end.

Fixpoint run (trace : list event) (w : world) : option world :=
  match trace with
  | [] => Some w
  | e :: rest =>
      match step e w with
      | Some w' => run rest w'
      | None => None
      end
  end.



End Supervisor.

(** ** Observations *)

(** The task slots of the specification. *)
Inductive task := Camera | Tool (t : tool).

(** The slot is occupied: this is the test [start_camera] and
    [start_model_ai] begin with. *)
Definition busy (k : task) (w : world) : bool :=
  match k with
  | Camera => camera_running w
  | Tool ModelAI => bool_decide (is_Some (model_ai_process w))
  | Tool QRReader => bool_decide (is_Some (qr_reader_process w))
  end.

(** The process handle the slot holds. *)
Definition slot_handle (k : task) (w : world) : option pid :=
  match k with
  | Camera => process w
  | Tool ModelAI => model_ai_process w
  | Tool QRReader => qr_reader_process w
  end.

(** The slot holds a handle on a process that has not exited. *)
Definition holds_live (k : task) (w : world) : bool :=
  match slot_handle k w with
  | Some p => is_alive p w
  | None => false
  end.

Definition start (os : osenv) (k : task) (w : world) : world :=
  match k with
  | Camera => start_camera os w
  | Tool t => start_tool os t w
  end.

Definition stop (os : osenv) (k : task) (w : world) : world :=
  match k with
  | Camera => stop_camera w
  | Tool t => stop_tool os t w
  end.

(** The pids of the children that have not exited. *)
Definition live_pids (w : world) : list pid :=
  filter (fun p => is_alive p w = true) (seq 0 (length (procs w))).

(** A state the system can be in. *)
Definition reachable (os : osenv) (w : world) : Prop :=
  exists trace, run os trace init = Some w.

(** The life cycle of the specification, and where the code stands in it:
    the slot is [Idle] when its test says it is free, [Running]
    otherwise. *)
Inductive lifecycle := Idle | Starting | Running | Stopping | Failed.

Definition slot_state (k : task) (w : world) : lifecycle :=
  if busy k w then Running else Idle.

(** A call reported something: the status line or one of the two output
    surfaces changed. *)
Definition reported (before after : world) : Prop :=
  status_label after <> status_label before
  \/ console after <> console before
  \/ terminal after <> terminal before.

(** An operating system where every command can be spawned and every
    process obeys SIGTERM at once. *)
Definition friendly_os : osenv :=
  {| sys_executable := "/usr/bin/python3";
     spawn_error := fun _ => None;
     exits_on_term := fun _ => Some (-15) |}.

(** The same, except that [rpicam-hello] is not installed. *)
Definition os_without_rpicam : osenv :=
  {| sys_executable := "/usr/bin/python3";
     spawn_error := fun cmd =>
       match cmd with
       | "rpicam-hello" :: _ =>
           Some "[Errno 2] No such file or directory: 'rpicam-hello'"
       | _ => None
       end;
     exits_on_term := fun _ => Some (-15) |}.

(** The same as [friendly_os], except that the interpreter cannot be
    spawned and that no process reacts to SIGTERM in time. *)
Definition hostile_os : osenv :=
  {| sys_executable := "/usr/bin/python3";
     spawn_error := fun cmd =>
       match cmd with
       | "/usr/bin/python3" :: _ =>
           Some "[Errno 13] Permission denied: '/usr/bin/python3'"
       | _ => None
       end;
     exits_on_term := fun _ => None |}.

(** The process has exited, or has been sent SIGKILL and has not gone
    yet. *)
Definition put_down (p : pid) (w : world) : Prop :=
  status_of p w = Some Killed \/ exists code, status_of p w = Some (Exited code).

(** No reader thread of the tool is left. *)
Definition drained (t : tool) (w : world) : Prop :=
  forall i, threads w !! i <> Some (OutputReader t)
            /\ forall p, threads w !! i <> Some (OutputReading t p).

(** The helper threads, the pending callbacks, the number of processes
    ever spawned, the root window and the target of [print] are the same
    in both worlds. *)
Definition same_frame (w w' : world) : Prop :=
  threads w' = threads w
  /\ after_queue w' = after_queue w
  /\ length (procs w') = length (procs w)
  /\ destroyed w' = destroyed w
  /\ sys_stdout w' = sys_stdout w.

(** A line of a tool as the reader thread prints it. *)
Definition forwarded (t : tool) (line : string) : string :=
  short_name t +:+ ": " +:+ Py.strip line.


(** The same as [friendly_os], except that no process reacts to SIGTERM
    in time. *)
Definition stubborn_os : osenv :=
  {| sys_executable := "/usr/bin/python3";
     spawn_error := fun _ => None;
     exits_on_term := fun _ => None |}.

End Gui.

(* ===================================================================== *)
(** * AIvisionProgram.py: model selection and model output *)
(* ===================================================================== *)

Module Program.
Import Detection.

(** [os.path.basename(p)] of posixpath: what follows the last [/]. *)
Definition basename (p : string) : string :=
  let i := Z.to_nat (Py.rfind "/"%char p + 1) in
  String.substring i (String.length p - i) p.

(** What the script keeps of a loaded interpreter: the shapes it prints. *)
Record interpreter_details := {
  input_shape : list Z;
  output_shape : list Z
}.

(** The fields of [AIVisionGUI] that [select_model] and the processing of
    the model output use. *)
Record gui := Gui {
  model_path : option string;
  interpreter : option interpreter_details;
  labels : list string;
  model_label : string
}.

(** [AIVisionGUI.__init__]. *)
Definition init : gui :=
  {| model_path := None;
     interpreter := None;
     labels := [];
     model_label := "Model: None selected" |}.

(** [[f"Class {i}" for i in range(10)]]. *)
Definition generic_labels : list string :=
  map (fun i => "Class " +:+ Py.str_of_int (Z.of_nat i)) (seq 0 10).

(** A label survives the trip through a label file: it has no line break
    in it and [strip] leaves it as it is. *)
Definition is_line_break (c : ascii) : bool :=
  (Ascii.eqb c "010"%char || Ascii.eqb c "013"%char)%bool.

Fixpoint no_line_break (s : string) : bool :=
  match s with
  | EmptyString => true
  | String c rest => negb (is_line_break c) && no_line_break rest
  end.

Definition clean_label (l : string) : Prop :=
  no_line_break l = true /\ Py.strip l = l.

Section SelectModel.

(** The TensorFlow Lite binding found at import time, if any: given the
    model path it yields the interpreter (after [allocate_tensors] and the
    two [get_..._details]) or the text of the exception. *)
Variable tflite : option (string -> interpreter_details + string).

(** How a shape is printed by an f-string. *)
Variable show_shape : list Z -> string.

(** [select_model], [model_file] being the answer of the file dialog (the
    empty string when the dialog is cancelled).  The files are seen as
    text: the contents of a file are what reading it in text mode
    gives. *)
Definition select_model (model_file : string) (g : gui)
    (w : CreateLabels.world) : gui * CreateLabels.world :=
  if String.eqb model_file "" then (g, w)
  else
    let labels_file := fst (Py.splitext model_file) +:+ ".txt" in
    let found := CreateLabels.files w !! labels_file in
    let new_labels :=
      match found with
      | Some contents => CreateLabels.load_labels contents
      | None => generic_labels
      end in
    let w1 :=
      match found with
      | Some _ =>
          CreateLabels.print
            ("Loaded " +:+ Py.str_of_int (Z.of_nat (length new_labels))
             +:+ " labels from " +:+ labels_file) w
      | None =>
          CreateLabels.print "No labels file found. Using generic labels." w
      end in
    let g1 := {| model_path := Some model_file;
                 interpreter := interpreter g;
                 labels := new_labels;
                 model_label := "Model: " +:+ basename model_file |} in
    match tflite with
    | None =>
        (g1, CreateLabels.print
               "ERROR: TensorFlow Lite interpreter not available" w1)
    | Some load =>
        match load model_file with
        | inl details =>
            ({| model_path := model_path g1;
                interpreter := Some details;
                labels := labels g1;
                model_label := model_label g1 |},
             CreateLabels.print
               ("Output shape: " +:+ show_shape (output_shape details))
               (CreateLabels.print
                  ("Input shape: " +:+ show_shape (input_shape details))
                  (CreateLabels.print "Model loaded successfully." w1)))
        | inr e =>
            ({| model_path := model_path g1;
                interpreter := None;
                labels := labels g1;
                model_label := model_label g1 |},
             CreateLabels.print ("Error loading model: " +:+ e) w1)
        end
    end.

End SelectModel.

(** ** The output tensor *)

(** A NumPy array of floats with its shape: of rank 2, of rank 3, or of
    another rank (whose contents the script never looks at). *)
Inductive ndarray :=
| Array2 (d0 d1 : nat) (data : list (list pyfloat))
| Array3 (d0 d1 d2 : nat) (data : list (list (list pyfloat)))
| ArrayN (shape : list nat).

(** The data agree with the shape. *)
Definition well_shaped (a : ndarray) : Prop :=
  match a with
  | Array2 d0 d1 data =>
      length data = d0 /\ Forall (fun row => length row = d1) data
  | Array3 d0 d1 d2 data =>
      length data = d0
      /\ Forall (fun m => length m = d1
                          /\ Forall (fun row => length row = d2) m) data
  | ArrayN shape => length shape <> 2%nat /\ length shape <> 3%nat
  end.

(** [output_data.shape] as printed by the script. *)
Definition shape (a : ndarray) : list nat :=
  match a with
  | Array2 d0 d1 _ => [d0; d1]
  | Array3 d0 d1 d2 _ => [d0; d1; d2]
  | ArrayN s => s
  end.

(** An entry of the list the processing functions return:
    [(label, score, box)], the box being [None] for a classification. *)
Definition result : Type := string * pyfloat * option (Z * Z * Z * Z).

Definition result_of (d : detection) : result :=
  (label d, score d, Some (xmin d, ymin d, xmax d, ymax d)).

(** [np.argmax] on a vector of floats: the first index of the greatest
    entry, a NaN counting as greater than everything.  [best] is the
    greatest entry so far, at index [at]; [i] is the index of the head of
    [v]. *)
Fixpoint argmax_from (v : list pyfloat) (i : nat) (best : pyfloat) (at_ : nat)
  : nat :=
  match best with
  | NaN => at_
  | _ =>
      match v with
      | [] => at_
      | x :: rest =>
          if fle x best then argmax_from rest (S i) best at_
          else argmax_from rest (S i) x i
      end
  end.

(** [ValueError] on an empty vector. *)
Definition argmax (v : list pyfloat) : outcome nat :=
  match v with
  | [] => Raise ValueError
  | x :: rest => Return (argmax_from rest 1 x 0)
  end.

(** The entry [top] at index [k] of [v] is the first greatest entry, a
    NaN counting as greater than every number: no entry before it is a
    NaN; when [top] is a NaN that is all, and otherwise every entry
    before it is below it and every entry of [v] is at most it (so that
    [v] holds no NaN). *)
Definition first_greatest (v : list pyfloat) (k : nat) (top : pyfloat) : Prop :=
  v !! k = Some top
  /\ (forall j s, (j < k)%nat -> v !! j = Some s ->
        s <> NaN /\ (top <> NaN -> flt s top = true))
  /\ (top <> NaN -> forall s, In s v -> fle s top = true).

(** A finite float. *)
Definition finite (x : pyfloat) : Prop := exists q, x = Fin q.

(** The four products of the loop body of [_process_object_detection]
    are finite on this row: none of them overflows. *)
Definition products_finite (np_mul : pyfloat -> Z -> pyfloat)
    (img_width img_height : Z) (row : list pyfloat) : Prop :=
  forall y0 x0 y1 x1 rest,
    row = y0 :: x0 :: y1 :: x1 :: rest ->
    finite (np_mul y0 img_height) /\ finite (np_mul x0 img_width)
    /\ finite (np_mul y1 img_height) /\ finite (np_mul x1 img_width).

Section ProcessModelOutput.

Variable np_mul : pyfloat -> Z -> pyfloat.
Variable format_2f : pyfloat -> string.
Variable show_shape : list nat -> string.

(** [self.labels]. *)
Variable labels : list string.

(** [_process_classification(self, output_data)], [rows] being the rows
    of [output_data]. *)
Definition _process_classification (rows : list (list pyfloat))
  : outcome (list result) * list string :=
  match rows with
  | [] => (Raise IndexError, [])
  | row :: _ =>
      match argmax row with
      | Raise e => (Raise e, [])
      | Return top_idx =>
          match row !! top_idx with
          | None => (Raise IndexError, [])
          | Some top_score =>
              let label :=
                match labels !! top_idx with
                | Some l => l
                | None => "Class " +:+ Py.str_of_int (Z.of_nat top_idx)
                end in
              (Return [(label, top_score, None)],
               ["Detected: " +:+ label +:+ " (confidence: "
                +:+ format_2f top_score +:+ ")"])
          end
      end
  end.

(** [_process_model_output(self, output_data, img_width, img_height)]. *)
Definition _process_model_output (output_data : ndarray)
    (img_width img_height : Z) : outcome (list result) * list string :=
  match output_data with
  | Array2 _ _ rows => _process_classification rows
  | Array3 d0 d1 d2 mats =>
      if (d1 =? 4)%nat then
        match mats with
        | [] => (Raise IndexError, [])
        | rows :: _ =>
            match _process_object_detection np_mul format_2f labels rows
                                            img_width img_height with
            | (Return ds, printed) => (Return (map result_of ds), printed)
            | (Raise e, printed) => (Raise e, printed)
            end
        end
      else
        (Return [], ["Unknown model output shape: "
                     +:+ show_shape (shape output_data)])
  | ArrayN s =>
      (Return [], ["Unknown model output shape: " +:+ show_shape s])
  end.

End ProcessModelOutput.

End Program.

(* ===================================================================== *)
(** * QRReader.py: opening URLs *)
(* ===================================================================== *)

Module QR.

(** What [subprocess.Popen] can do with a browser command. *)
Inductive spawn_result :=
| Spawned
| FileNotFound                 (* raises FileNotFoundError *)
| OtherError (msg : string).   (* raises another exception *)

Inductive outcome (A : Type) :=
| Return (a : A)
| Raise (msg : string).
Arguments Return {A} a.
Arguments Raise {A} msg.

(** [data.startswith(('http://', 'https://'))]. *)
Definition is_url (data : string) : bool :=
  (String.prefix "http://" data || String.prefix "https://" data)%bool.

(** [data != self.last_url], [self.last_url] being [None] or a string. *)
Definition differs (data : string) (last : option string) : bool :=
  match last with
  | Some url => negb (String.eqb data url)
  | None => true
  end.

Section Display.

(** Python's [a / b] on two [int]s, [b] not being zero: a float. *)
Variable truediv : Z -> Z -> Detection.pyfloat.

(** The display size computed in [__init__] and in [_update_frame]:
    [min(width, 800)] and [int(display_width * height / width)], or the
    exception that comes out. *)
Definition display_size (width height : Z) : outcome (Z * Z) :=
  let display_width := Z.min width 800 in
  if width =? 0 then Raise "ZeroDivisionError"
  else
    match Detection.int (Detection.F (truediv (display_width * height) width)) with
    | Detection.Return display_height => Return (display_width, display_height)
    | Detection.Raise Detection.OverflowError => Raise "OverflowError"
    | Detection.Raise _ => Raise "ValueError"
    end.

End Display.

(** What IEEE arithmetic makes of the division of two integers below
    2^53, the first one not negative and the second one positive: the
    quotient is a finite float, it is the exact quotient when that is an
    integer, and it is off the exact quotient by at most one part in
    2^53. *)
Definition correctly_rounded (truediv : Z -> Z -> Detection.pyfloat) : Prop :=
  forall a b,
    0 <= a < 2 ^ 53 -> 0 < b < 2 ^ 53 ->
    exists q,
      truediv a b = Detection.Fin q
      /\ (forall n, a = n * b -> (q == inject_Z n)%Q)
      /\ (Qabs (q - (a # Z.to_pos b)) <= (a # Z.to_pos b) * (1 # 2 ^ 53))%Q.

(** The division without rounding. *)
Definition exact_div (a b : Z) : Detection.pyfloat :=
  Detection.Fin (Qred (a # Z.to_pos b)).

Section Reader.

(** The browsers installed, and [webbrowser.open]. *)
Variable popen : list string -> spawn_result.
Variable webbrowser_open : string -> bool.

Definition chromium_cmd (url : string) : list string :=
  ["chromium-browser"; "--app=" +:+ url; "--start-maximized"].
Definition firefox_cmd (url : string) : list string :=
  ["firefox"; "-new-tab"; url].
Definition xdg_cmd (url : string) : list string :=
  ["xdg-open"; url].

(** The call [webbrowser.open(url)] that [force_open_url(url)] falls back
    on when none of the three commands could be spawned. *)
Definition force_open_url_fallback (url : string) : list string :=
  match popen (chromium_cmd url) with
  | FileNotFound =>
      match popen (firefox_cmd url) with
      | FileNotFound =>
          match popen (xdg_cmd url) with
          | Spawned => []
          | _ => [url]
          end
      | _ => []
      end
  | _ => []
  end.

(** [force_open_url(url)]: what it returns or raises, and the commands it
    has spawned. *)
Definition force_open_url (url : string) : outcome bool * list (list string) :=
  match popen (chromium_cmd url) with
  | Spawned => (Return true, [chromium_cmd url])
  | OtherError e => (Raise e, [])
  | FileNotFound =>
      match popen (firefox_cmd url) with
      | Spawned => (Return true, [firefox_cmd url])
      | OtherError e => (Raise e, [])
      | FileNotFound =>
          match popen (xdg_cmd url) with
          | Spawned => (Return true, [xdg_cmd url])
          | _ => (Return (webbrowser_open url), [])
          end
      end
  end.

(** The fields of [QRCodeReaderGUI] that the detection of a code reads
    and writes, the requests sent to the button through [root.after], and
    three journals: the calls of [force_open_url] made for a detected
    code, with the time of the detection, every browser command spawned
    by [force_open_url], and every URL it handed to [webbrowser.open]. *)
Record reader := Reader {
  last_url : option string;
  last_detection_time : Q;
  cooldown_period : Q;
  status_var : string;
  url_var : string;
  button_requests : list bool;
  opened : list (string * Q);
  spawned : list (list string);
  browsed : list string
}.

(** [QRCodeReaderGUI.__init__]. *)
Definition init : reader :=
  {| last_url := None;
     last_detection_time := 0;
     cooldown_period := 5;
     status_var := "Scanner ready. Waiting for QR codes...";
     url_var := "None";
     button_requests := [];
     opened := [];
     spawned := [];
     browsed := [] |}.

(** The body of the [for qr in qr_codes] loop for one code, read at time
    [now]: [Some msg] when [force_open_url] raised. *)
Definition process_code (data : string) (now : Q) (r : reader)
  : reader * option string :=
  if is_url data then
    if (differs data (last_url r)
        || negb (Qle_bool (now - last_detection_time r) (cooldown_period r)))%bool
    then
      let (result, cmds) := force_open_url data in
      let r' := {| last_url := Some data;
                   last_detection_time := now;
                   cooldown_period := cooldown_period r;
                   status_var := "QR Code detected! Opening: " +:+ data;
                   url_var := data;
                   button_requests := button_requests r ++ [true];
                   opened := opened r ++ [(data, now)];
                   spawned := spawned r ++ cmds;
                   browsed := browsed r ++ force_open_url_fallback data |} in
      match result with
      | Return _ => (r', None)
      | Raise e => (r', Some e)
      end
    else (r, None)
  else
    ({| last_url := last_url r;
        last_detection_time := last_detection_time r;
        cooldown_period := cooldown_period r;
        status_var := "Detected QR code with non-URL data: " +:+ data;
        url_var := "Non-URL data: " +:+ data;
        button_requests := button_requests r ++ [false];
        opened := opened r;
        spawned := spawned r;
        browsed := browsed r |}, None).

Definition set_status_var (s : string) (r : reader) : reader :=
  {| last_url := last_url r;
     last_detection_time := last_detection_time r;
     cooldown_period := cooldown_period r;
     status_var := s;
     url_var := url_var r;
     button_requests := button_requests r;
     opened := opened r;
     spawned := spawned r;
     browsed := browsed r |}.

(** [_process_current_frame], [qr_codes] being the decoded codes of the
    frame, each with the time at which the loop reaches it: the first
    exception ends the loop and is shown in the status bar. *)
Fixpoint _process_current_frame (qr_codes : list (string * Q)) (r : reader)
  : reader :=
  match qr_codes with
  | [] => r
  | (data, now) :: rest =>
      match process_code data now r with
      | (r', None) => _process_current_frame rest r'
      | (r', Some e) => set_status_var ("Error processing frame: " +:+ e) r'
      end
  end.

(** [_open_current_url], the command of the button. *)
Definition _open_current_url (r : reader) : reader * outcome bool :=
  match last_url r with
  | Some url =>
      if (negb (String.eqb url "") && is_url url)%bool then
        let (result, cmds) := force_open_url url in
        ({| last_url := last_url r;
            last_detection_time := last_detection_time r;
            cooldown_period := cooldown_period r;
            status_var := "Opening URL: " +:+ url;
            url_var := url_var r;
            button_requests := button_requests r;
            opened := opened r;
            spawned := spawned r ++ cmds;
            browsed := browsed r ++ force_open_url_fallback url |}, result)
      else (set_status_var "No valid URL to open" r, Return false)
  | None => (set_status_var "No valid URL to open" r, Return false)
  end.

(** What happens to a reader: a frame is processed, or the button is
    pressed. *)
Inductive action :=
| Frame (qr_codes : list (string * Q))
| PressOpen.

Definition act (a : action) (r : reader) : reader :=
  match a with
  | Frame qr_codes => _process_current_frame qr_codes r
  | PressOpen => fst (_open_current_url r)
  end.

Definition run (actions : list action) (r : reader) : reader :=
  fold_left (fun r a => act a r) actions r.

End Reader.

(** In a journal of openings, two openings in a row of the same URL are
    more than [gap] seconds apart. *)
Fixpoint spaced (gap : Q) (journal : list (string * Q)) : Prop :=
  match journal with
  | (u1, t1) :: (((u2, t2) :: _) as rest) =>
      (u1 = u2 -> (gap < t2 - t1)%Q) /\ spaced gap rest
  | _ => True
  end.

(** The cooldown is five seconds; the last URL is the URL of the last
    opening in the journal, with its time; every URL in the journal,
    every browser command spawned and every URL handed to
    [webbrowser.open] is for an [http://] or [https://] URL; the openings
    are spaced. *)
Definition consistent (r : reader) : Prop :=
  cooldown_period r = 5%Q
  /\ match last_url r with
     | None => opened r = []%list
     | Some u =>
         is_url u = true
         /\ exists earlier,
             opened r = (earlier ++ [(u, last_detection_time r)])%list
     end
  /\ spaced 5 (opened r)
  /\ (forall cmd, In cmd (spawned r) ->
        exists url, is_url url = true
                    /\ (cmd = chromium_cmd url \/ cmd = firefox_cmd url
                        \/ cmd = xdg_cmd url))
  /\ (forall url, In url (browsed r) -> is_url url = true).

End QR.

(* ===================================================================== *)
(** * AIvisionGUI.py: what every step of the supervisor preserves *)
(* ===================================================================== *)

Module Supervision.
Import Gui.

#[export] Instance tool_eq_dec : EqDecision tool.
Proof. solve_decision. Defined.

(** Every handle held by a slot is a process of the table. *)
Definition valid_handles (w : world) : Prop :=
  forall k p, slot_handle k w = Some p -> (p < length (procs w))%nat.

(** The process has exited with return code [code]. *)
Definition exited (p : pid) (code : Z) (w : world) : Prop :=
  status_of p w = Some (Exited code).

(** How a world relates to a later one: the table of processes only
    grows, a process keeps its command line, a process that has exited
    keeps its return code, and a handle held by a slot either was held by
    that slot before or is a process spawned in between. *)
Definition evolves (w w' : world) : Prop :=
  (length (procs w) <= length (procs w'))%nat
  /\ (forall p pr, procs w !! p = Some pr ->
        exists pr', procs w' !! p = Some pr' /\ p_cmd pr' = p_cmd pr)
  /\ (forall p code, exited p code w -> exited p code w')
  /\ (forall k p, slot_handle k w' = Some p ->
        slot_handle k w = Some p
        \/ (length (procs w) <= p < length (procs w'))%nat).

(** The two tests that [start_camera] and [close_application] share:
    [if self.qr_reader_process: self.stop_qr_reader()] and
    [if self.model_ai_process: self.stop_model_ai()]. *)
Definition tools_stopped (os : osenv) (w : world) : world :=
  let w1 := match qr_reader_process w with
            | Some _ => stop_qr_reader os w
            | None => w
            end in
  match model_ai_process w1 with
  | Some _ => stop_model_ai os w1
  | None => w1
  end.

(** The world a trace leads to from the initial one ([init] itself when
    the trace cannot be run). *)
Definition the_run (os : osenv) (trace : list event) : world :=
  match run os trace init with
  | Some w => w
  | None => init
  end.

End Supervision.

(* ===================================================================== *)
(** * AI_Camera_Demo1.py: [IMX500Camera] *)
(* ===================================================================== *)

Module Demo.
Import Gui.

(** The [IMX500Camera] object (its parameters and [self.process]), the
    processes spawned so far and the lines printed. *)
Record state := State {
  camera : Launch.IMX500Camera;
  process : option pid;
  procs : list proc;
  printed : list string
}.

(** [IMX500Camera(model_file, width, height, framerate)]. *)
Definition new (camera : Launch.IMX500Camera) : state :=
  {| camera := camera; process := None; procs := []; printed := [] |}.

Definition print (line : string) (s : state) : state :=
  {| camera := camera s; process := process s; procs := procs s;
     printed := printed s ++ [line] |}.

Definition set_process (v : option pid) (s : state) : state :=
  {| camera := camera s; process := v; procs := procs s;
     printed := printed s |}.

Definition set_procs (ps : list proc) (s : state) : state :=
  {| camera := camera s; process := process s; procs := ps;
     printed := printed s |}.

(** How a call ends: it returns, it raises, or it never returns. *)
Inductive result :=
| Done (s : state)
| Raised (msg : string) (s : state)
| Blocked.

Definition status_of (p : pid) (s : state) : option pstatus :=
  p_status <$> procs s !! p.

(** [p.terminate()]. *)
Definition terminate (p : pid) (s : state) : state :=
  match procs s !! p with
  | Some pr =>
      match p_status pr with
      | Alive => set_procs (<[p := Proc (p_cmd pr) Terminating (p_stdout pr)]>
                              (procs s)) s
      | _ => s
      end
  | None => s
  end.

Section Camera.

(** [Some msg]: [Popen(cmd)] raises an [OSError] whose text is [msg]. *)
Variable spawn_error : list string -> option string.

(** What a process does once SIGTERM was sent to it: [Some code], it
    exits with that return code; [None], it goes on for ever. *)
Variable exits_after_term : list string -> option Z.

(** [p.wait()], without a time-out: [None] when it never returns.  A
    process that was sent no signal is taken to go on for ever. *)
Definition wait (p : pid) (s : state) : option state :=
  match procs s !! p with
  | Some pr =>
      match p_status pr with
      | Exited _ => Some s
      | Terminating =>
          match exits_after_term (p_cmd pr) with
          | Some code =>
              Some (set_procs (<[p := Proc (p_cmd pr) (Exited code) (p_stdout pr)]>
                                 (procs s)) s)
          | None => None
          end
      | Killed =>
          Some (set_procs (<[p := Proc (p_cmd pr) (Exited (-9)) (p_stdout pr)]>
                             (procs s)) s)
      | Alive => None
      end
  | None => Some s
  end.

(** [IMX500Camera.start(timeout)]. *)
Definition start (timeout : string) (s : state) : result :=
  let cmd := Launch.IMX500Camera_start_cmd (camera s) timeout in
  let s1 := print ("Starting camera with command: " +:+ Py.join " " cmd) s in
  match spawn_error cmd with
  | Some msg => Raised msg s1
  | None =>
      Done (set_process (Some (length (procs s1)))
              (set_procs (procs s1 ++ [Proc cmd Alive []]) s1))
  end.

(** [IMX500Camera.stop()]. *)
Definition stop (s : state) : result :=
  match process s with
  | Some p =>
      let s1 := terminate p (print "Stopping camera..." s) in
      match wait p s1 with
      | Some s2 => Done (print "Camera stopped." (set_process None s2))
      | None => Blocked
      end
  | None => Done s
  end.

End Camera.

(** A camera as [main] builds it, and a state in which its process runs. *)
Definition demo_camera : Launch.IMX500Camera :=
  {| Launch.model_file := "/usr/share/rpi-camera-assets/imx500_mobilenet_ssd.json";
     Launch.cam_width := 1920;
     Launch.cam_height := 1080;
     Launch.cam_framerate := 30 |}.

Definition demo_running : state :=
  {| camera := demo_camera;
     process := Some 0%nat;
     procs := [Proc (Launch.IMX500Camera_start_cmd demo_camera "0s") Alive []];
     printed := [] |}.

End Demo.


(* ===================================================================== *)
(** * Theorems *)
(* ===================================================================== *)

(** ** create_labels.py *)

Section CreateLabelsFacts.
Import CreateLabels.

Lemma exists_true (path : string) (w : world) :
  exists_ path w = true <-> is_Some (files w !! path).
Proof. unfold exists_. apply bool_decide_eq_true. Qed.

Lemma exists_false (path : string) (w : world) :
  exists_ path w = false <-> files w !! path = None.
Proof.
  unfold exists_. rewrite bool_decide_eq_false. split.
  - intros H. destruct (files w !! path) eqn:E; [|reflexivity].
    exfalso. apply H. eauto.
  - intros -> [x Hx]. discriminate.
Qed.

(** Reading back what was written gives the label lists, one label per
    line. *)
Lemma load_coco : load_labels (write_labels COCO_LABELS) = COCO_LABELS.
Proof. vm_compute. reflexivity. Qed.

Lemma load_imagenet : load_labels (write_labels IMAGENET_LABELS) = IMAGENET_LABELS.
Proof. vm_compute. reflexivity. Qed.

(** *** The label file of a model path *)

Lemma rfind_from_without (c : ascii) (s : string) (i last : Z) :
  Py.contains c s = false -> Py.rfind_from c s i last = last.
Proof.
  revert i last. induction s as [| d rest IH]; intros i last H; [reflexivity |].
  cbn in H |- *. apply orb_false_iff in H as [Hd Hrest].
  rewrite Hd. apply IH. exact Hrest.
Qed.

Lemma rfind_from_app_without (c : ascii) (a b : string) (i last : Z) :
  Py.contains c b = false ->
  Py.rfind_from c (a +:+ b) i last = Py.rfind_from c a i last.
Proof.
  intros Hb. revert i last. induction a as [| d rest IH]; intros i last; cbn.
  - apply rfind_from_without. exact Hb.
  - apply IH.
Qed.

Lemma rfind_from_last (c : ascii) (a b : string) (i last : Z) :
  Py.contains c b = false ->
  Py.rfind_from c (a +:+ String c b) i last = i + Z.of_nat (String.length a).
Proof.
  intros Hb. revert i last. induction a as [| d rest IH]; intros i last.
  - change ("" +:+ String c b) with (String c b). cbn [Py.rfind_from String.length].
    rewrite Ascii.eqb_refl, rfind_from_without by exact Hb. lia.
  - change (String d rest +:+ String c b) with (String d (rest +:+ String c b)).
    cbn [Py.rfind_from String.length]. rewrite IH. lia.
Qed.

Lemma rfind_from_bounds (c : ascii) (s : string) (i last : Z) :
  last < i ->
  last <= Py.rfind_from c s i last < i + Z.of_nat (String.length s).
Proof.
  revert i last. induction s as [| d rest IH]; intros i last H; cbn.
  - lia.
  - destruct (Ascii.eqb d c).
    + specialize (IH (i + 1) i). lia.
    + specialize (IH (i + 1) last). lia.
Qed.

Lemma string_append_assoc (a b c : string) :
  (a +:+ b) +:+ c = a +:+ (b +:+ c).
Proof.
  induction a as [| x a IH]; [reflexivity |].
  change (String x ((a +:+ b) +:+ c) = String x (a +:+ (b +:+ c))).
  f_equal. exact IH.
Qed.

Lemma get_app_length (a : string) (c : ascii) (b : string) :
  String.get (String.length a) (a +:+ String c b) = Some c.
Proof. induction a as [| d rest IH]; [reflexivity | exact IH]. Qed.

Lemma substring_app_length (a b : string) :
  String.substring 0 (String.length a) (a +:+ b) = a.
Proof.
  induction a as [| d rest IH].
  - destruct b; reflexivity.
  - change (String d rest +:+ b) with (String d (rest +:+ b)).
    cbn [String.length String.substring]. rewrite IH. reflexivity.
Qed.

Lemma non_dot_before_found (p : string) (n : nat) :
  forall start k c,
    (start <= k < start + n)%nat ->
    String.get k p = Some c -> c <> "."%char ->
    Py.non_dot_before p start n = true.
Proof.
  induction n as [| n IH]; intros start k c Hk Hget Hc; [lia |].
  cbn. destruct (String.get start p) as [d|] eqn:Hd.
  - destruct (Ascii.eqb d ".") eqn:Hdot; [| reflexivity].
    apply Ascii.eqb_eq in Hdot. subst d.
    apply (IH (S start) k c); [| exact Hget | exact Hc].
    assert (k <> start) by (intros ->; congruence). lia.
  - apply (IH (S start) k c); [| exact Hget | exact Hc].
    assert (k <> start) by (intros ->; congruence). lia.
Qed.

Lemma length_append (a b : string) :
  String.length (a +:+ b) = (String.length a + String.length b)%nat.
Proof.
  induction a as [| d rest IH]; [reflexivity |].
  change (String d rest +:+ b) with (String d (rest +:+ b)).
  cbn [String.length]. rewrite IH. reflexivity.
Qed.

(** The extension of a path is what follows its last dot, when that dot
    comes after a proper character of the file name: the label file of
    [stem.ext] is [stem.txt]. *)
Lemma label_file_of_extension (stem : string) (c : ascii) (ext : string) :
  c <> "."%char -> c <> "/"%char ->
  Py.contains "." ext = false -> Py.contains "/" ext = false ->
  label_file_of ((stem +:+ String c "") +:+ String "." ext)
  = (stem +:+ String c "") +:+ ".txt".
Proof.
  intros Hdot Hsep Hext_dot Hext_sep.
  unfold label_file_of, Py.splitext, Py.rfind.
  set (base := stem +:+ String c "").
  assert (Hd : Py.rfind_from "." (base +:+ String "." ext) 0 (-1)
               = Z.of_nat (String.length base)).
  { rewrite rfind_from_last by exact Hext_dot. lia. }
  assert (Hs : -1 <= Py.rfind_from "/" (base +:+ String "." ext) 0 (-1)
               < Z.of_nat (String.length stem)).
  { rewrite rfind_from_app_without by (cbn; exact Hext_sep).
    subst base. rewrite rfind_from_app_without.
    - pose proof (rfind_from_bounds "/" stem 0 (-1)). lia.
    - cbn. apply Ascii.eqb_neq in Hsep. rewrite Hsep. reflexivity. }
  rewrite Hd.
  set (sepIndex := Py.rfind_from "/" (base +:+ String "." ext) 0 (-1)) in *.
  assert (Hlen : String.length base = S (String.length stem)).
  { subst base. rewrite length_append. cbn. lia. }
  replace (sepIndex <? Z.of_nat (String.length base)) with true
    by (symmetry; apply Z.ltb_lt; lia).
  rewrite (non_dot_before_found _ _ _ (String.length stem) c).
  - cbn [andb fst]. rewrite Nat2Z.id, substring_app_length. reflexivity.
  - lia.
  - subst base. rewrite string_append_assoc. apply get_app_length.
  - exact Hdot.
Qed.

(** A path without a dot has no extension. *)
Lemma label_file_of_plain (p : string) :
  Py.contains "." p = false -> label_file_of p = p +:+ ".txt".
Proof.
  intros H. unfold label_file_of, Py.splitext, Py.rfind.
  rewrite (rfind_from_without "." p) by exact H.
  pose proof (rfind_from_bounds "/" p 0 (-1)).
  replace (Py.rfind_from "/" p 0 (-1) <? -1) with false
    by (symmetry; apply Z.ltb_ge; lia).
  reflexivity.
Qed.

(** C10, as the claim words it, fails: the model lies in a directory that
    does not exist (or may not be written to), [open] raises, and the
    call writes no label file although none existed and the label type
    is "coco". *)
Lemma unwritable_directory_gets_no_label_file :
  files (create_label_file "models/m.tflite" "coco" missing_directory)
    !! label_file_of "models/m.tflite" = None
  /\ files missing_directory !! label_file_of "models/m.tflite" = None
  /\ label_file_of "models/m.tflite" = "models/m.txt"
  /\ stdout (create_label_file "models/m.tflite" "coco" missing_directory) = []
  /\ raised (create_label_file "models/m.tflite" "coco" missing_directory)
     = ["[Errno 2] No such file or directory: 'models/m.txt'"].
Proof. vm_compute. repeat split. Qed.

(** C10, as the code has it.  The label file is the model path with its
    extension replaced by [.txt].  [create_label_file] never overwrites a
    file: every file that exists keeps its contents, and when the label
    file exists no file changes at all.  When it does not exist, a label
    type that reads "coco" or "imagenet" once lowered makes the function
    open the label file for writing: if that succeeds the function writes
    that file and no other, with exactly the labels of the list, one per
    line; if it fails the error of [open] escapes, nothing is written and
    nothing is printed.  Any other label type leaves the files as they
    were. *)
Theorem create_label_file_spec (model_path label_type : string) (w : world) :
  let label_file := label_file_of model_path in
  let w' := create_label_file model_path label_type w in
  ((forall stem c ext,
       model_path = (stem +:+ String c "") +:+ String "." ext ->
       c <> "."%char -> c <> "/"%char ->
       Py.contains "." ext = false -> Py.contains "/" ext = false ->
       label_file = (stem +:+ String c "") +:+ ".txt")
   /\ (Py.contains "." model_path = false -> label_file = model_path +:+ ".txt"))
  /\ (forall path contents,
      files w !! path = Some contents -> files w' !! path = Some contents)
  /\ (is_Some (files w !! label_file) -> files w' = files w /\ raised w' = raised w)
  /\ (files w !! label_file = None ->
      forall labels,
        (Py.lower label_type = "coco" /\ labels = COCO_LABELS)
        \/ (Py.lower label_type = "imagenet" /\ labels = IMAGENET_LABELS) ->
        (open_w_error w label_file = None ->
           files w' = <[label_file := write_labels labels]> (files w)
           /\ raised w' = raised w
           /\ load_labels (write_labels labels) = labels)
        /\ (forall e, open_w_error w label_file = Some e ->
              files w' = files w
              /\ raised w' = (raised w ++ [e])%list
              /\ stdout w' = stdout w))
  /\ (files w !! label_file = None ->
      Py.lower label_type <> "coco" -> Py.lower label_type <> "imagenet" ->
      files w' = files w /\ raised w' = raised w).
Proof.
  intros label_file w'. split.
  { split.
    - intros stem c ext -> Hdot Hsep He1 He2. subst label_file.
      apply label_file_of_extension; assumption.
    - apply label_file_of_plain. }
  subst w'. unfold create_label_file. fold label_file.
  destruct (exists_ label_file w) eqn:Hex.
  { apply exists_true in Hex. split; [| split; [| split]].
    - intros path contents H. exact H.
    - intros _. split; reflexivity.
    - intros Hnone. destruct Hex as [x Hx]. congruence.
    - intros Hnone. destruct Hex as [x Hx]. congruence. }
  apply exists_false in Hex.
  assert (Hwrite : forall labels,
    let r := match open_w_write label_file (write_labels labels) w with
             | inl w1 =>
                 print ("Created label file: " +:+ label_file +:+ " with "
                        +:+ Py.str_of_int (Z.of_nat (length labels)) +:+ " labels") w1
             | inr e => raise_ e w
             end in
    (forall path contents,
        files w !! path = Some contents -> files r !! path = Some contents)
    /\ (open_w_error w label_file = None ->
        files r = <[label_file := write_labels labels]> (files w)
        /\ raised r = raised w)
    /\ (forall e, open_w_error w label_file = Some e ->
        files r = files w /\ raised r = (raised w ++ [e])%list
        /\ stdout r = stdout w)).
  { intros labels r. subst r. unfold open_w_write.
    destruct (open_w_error w label_file) as [e|]; cbn.
    - split; [intros path contents H; exact H |].
      split; [discriminate |]. intros e' [= <-]. repeat split.
    - split; [| split; [intros _; split; reflexivity | discriminate]].
      intros path contents H. rewrite lookup_insert_ne; [exact H | congruence]. }
  destruct (String.eqb (Py.lower label_type) "coco") eqn:Hc.
  { apply String.eqb_eq in Hc.
    destruct (Hwrite COCO_LABELS) as (Hkeep & Hok & Herr).
    split; [exact Hkeep |]. split; [intros [x Hx]; congruence |]. split.
    - intros _ labels [[_ ->] | [Hi _]]; [| rewrite Hc in Hi; discriminate].
      split; [| exact Herr].
      intros Hopen. destruct (Hok Hopen) as [Hf Hr].
      split; [exact Hf | split; [exact Hr | apply load_coco]].
    - intros _ Hn. contradiction. }
  apply String.eqb_neq in Hc.
  destruct (String.eqb (Py.lower label_type) "imagenet") eqn:Hi.
  { apply String.eqb_eq in Hi.
    destruct (Hwrite IMAGENET_LABELS) as (Hkeep & Hok & Herr).
    split; [exact Hkeep |]. split; [intros [x Hx]; congruence |]. split.
    - intros _ labels [[Hc' _] | [_ ->]]; [contradiction |].
      split; [| exact Herr].
      intros Hopen. destruct (Hok Hopen) as [Hf Hr].
      split; [exact Hf | split; [exact Hr | apply load_imagenet]].
    - intros _ _ Hn. contradiction. }
  apply String.eqb_neq in Hi. split; [| split; [| split]].
  - intros path contents H. exact H.
  - intros _. split; reflexivity.
  - intros _ labels [[Hc' _] | [Hi' _]]; contradiction.
  - intros _ _ _. split; reflexivity.
Qed.

(** The theorem at work: an existing [m.txt] survives, a missing one is
    created for "CoCo" beside [m.tflite], and "voc" creates nothing. *)
Lemma create_label_file_spec_witness :
  let w0 := World {[ "m.txt" := "mine" ]} [] [] (fun _ => None) in
  let w1 := World ∅ [] [] (fun _ => None) in
  label_file_of "m.tflite" = "m.txt"
  /\ files (create_label_file "m.tflite" "coco" w0) = files w0
  /\ files (create_label_file "m.tflite" "CoCo" w1)
     = <[ "m.txt" := write_labels COCO_LABELS ]> (files w1)
  /\ files (create_label_file "m.tflite" "voc" w1) = files w1.
Proof.
  intros w0 w1. split; [| split; [| split]].
  - destruct (create_label_file_spec "m.tflite" "coco" w0) as ((Hpath & _) & _).
    apply (Hpath "" "m"%char "tflite"); first [reflexivity | discriminate].
  - destruct (create_label_file_spec "m.tflite" "coco" w0) as (_ & _ & Hkeep & _).
    apply Hkeep. unfold is_Some. eexists. vm_compute. reflexivity.
  - destruct (create_label_file_spec "m.tflite" "CoCo" w1) as (_ & _ & _ & Hnew & _).
    destruct (Hnew ltac:(vm_compute; reflexivity) COCO_LABELS) as (Hok & _).
    + left. split; [vm_compute; reflexivity | reflexivity].
    + apply Hok. reflexivity.
  - destruct (create_label_file_spec "m.tflite" "voc" w1) as (_ & _ & _ & _ & Hother).
    apply Hother; vm_compute; first [reflexivity | discriminate].
Defined.

End CreateLabelsFacts.

(** ** AIvisionProgram.py: object detection *)

Section DetectionFacts.
Import Detection.

Lemma at_least_half_iff (s : pyfloat) :
  at_least_half s = true <-> flt s half = false /\ s <> NaN.
Proof.
  unfold at_least_half, fle, flt, half. destruct s as [q | [] | ]; cbn.
  - rewrite negb_false_iff. split; [intros H; split; [exact H | discriminate] | tauto].
  - split; [discriminate | intros [H _]; discriminate].
  - split; [intros _; split; [reflexivity | discriminate] | reflexivity].
  - split; [discriminate | intros [_ H]; contradiction].
Qed.

(** [int(max(1, v))] is at least 1 whenever it is a number at all. *)
Lemma int_max_lower (lo : Z) (v : pyfloat) (z : Z) :
  int (max (I lo) (F v)) = Return z -> lo <= z.
Proof.
  unfold max, gt, lt. cbn [to_float].
  destruct (flt (Fin (inject_Z lo)) v) eqn:Hlt.
  - destruct v as [q | b | ]; cbn; try discriminate.
    intros [= <-]. cbn in Hlt. apply negb_true_iff in Hlt.
    unfold Qle_bool in Hlt. cbn in Hlt. apply Z.leb_gt in Hlt.
    destruct q as [n d]. cbn in *.
    apply Z.quot_le_lower_bound; lia.
  - cbn. intros [= <-]. lia.
Qed.

(** [int(min(hi, v))] is at most [hi] whenever it is a number at all. *)
Lemma int_min_upper (hi : Z) (v : pyfloat) (z : Z) :
  int (min (I hi) (F v)) = Return z -> z <= hi.
Proof.
  unfold min, lt. cbn [to_float].
  destruct (flt v (Fin (inject_Z hi))) eqn:Hlt.
  - destruct v as [q | b | ]; cbn; try discriminate.
    intros [= <-]. cbn in Hlt. apply negb_true_iff in Hlt.
    unfold Qle_bool in Hlt. cbn in Hlt. apply Z.leb_gt in Hlt.
    destruct q as [n d]. cbn in *.
    apply Z.quot_le_upper_bound; lia.
  - cbn. intros [= <-]. lia.
Qed.


Section Rows.
Variable np_mul : pyfloat -> Z -> pyfloat.
Variable format_2f : pyfloat -> string.
Variable labels : list string.
Variables img_width img_height : Z.

Ltac bind_case H x Hx :=
  match type of H with
  | context [mbind _ ?m] => destruct m as [x | ?] eqn:Hx; cbn in H; [| discriminate]
  end.

Lemma detect_row_some (row : list pyfloat) (d : detection) :
  detect_row np_mul labels img_width img_height row = Return (Some d) ->
  row !! 4%nat = Some (score d)
  /\ flt (score d) half = false
  /\ clamped img_width img_height d.
Proof.
  unfold detect_row, index. intros H.
  destruct (row !! 4%nat) as [s|] eqn:H4; cbn in H; [| discriminate].
  destruct (flt s half) eqn:Hs; [discriminate |].
  destruct (row !! 5%nat) as [c|]; cbn in H; [| discriminate].
  bind_case H class_id Hc.
  bind_case H lbl Hl.
  destruct (row !! 0%nat) as [y0|]; cbn in H; [| discriminate].
  bind_case H ymin' Hymin.
  destruct (row !! 1%nat) as [x0|]; cbn in H; [| discriminate].
  bind_case H xmin' Hxmin.
  destruct (row !! 2%nat) as [y1|]; cbn in H; [| discriminate].
  bind_case H ymax' Hymax.
  destruct (row !! 3%nat) as [x1|]; cbn in H; [| discriminate].
  bind_case H xmax' Hxmax.
  injection H as <-. cbn. unfold clamped. cbn.
  apply int_max_lower in Hymin, Hxmin.
  apply int_min_upper in Hymax, Hxmax. repeat split; assumption.
Qed.

Lemma detect_row_none (row : list pyfloat) :
  detect_row np_mul labels img_width img_height row = Return None ->
  exists s, row !! 4%nat = Some s /\ flt s half = true.
Proof.
  unfold detect_row, index. intros H.
  destruct (row !! 4%nat) as [s|] eqn:H4; cbn in H; [| discriminate].
  destruct (flt s half) eqn:Hs; [eauto |].
  exfalso.
  destruct (row !! 5%nat) as [c|]; cbn in H; [| discriminate].
  bind_case H class_id Hc.
  bind_case H lbl Hl.
  destruct (row !! 0%nat) as [y0|]; cbn in H; [| discriminate].
  bind_case H ymin' Hymin.
  destruct (row !! 1%nat) as [x0|]; cbn in H; [| discriminate].
  bind_case H xmin' Hxmin.
  destruct (row !! 2%nat) as [y1|]; cbn in H; [| discriminate].
  bind_case H ymax' Hymax.
  destruct (row !! 3%nat) as [x1|]; cbn in H; [| discriminate].
  bind_case H xmax' Hxmax.
  discriminate.
Qed.

(** The loop extends the list it was given by the rows it keeps, in
    order. *)
Lemma detect_rows_spec (rows : list (list pyfloat)) :
  forall acc printed results printed',
    detect_rows np_mul format_2f labels img_width img_height rows acc printed
    = (Return results, printed') ->
    exists kept,
      results = (acc ++ kept)%list
      /\ Forall (fun d => flt (score d) half = false
                          /\ clamped img_width img_height d) kept
      /\ map score kept
         = filter (fun s => flt s half = false) (row_scores rows).
Proof.
  induction rows as [| row rest IH]; intros acc printed results printed' H.
  - cbn in H. injection H as <- <-. exists []. rewrite app_nil_r. auto.
  - cbn [detect_rows] in H.
    destruct (detect_row np_mul labels img_width img_height row)
      as [[d|] | e] eqn:Hrow; [| | discriminate].
    + apply detect_row_some in Hrow as (Hs & Hkeep & Hbox).
      apply IH in H as (kept & -> & Hall & Hscores).
      exists (d :: kept). split; [| split].
      * rewrite <- app_assoc. reflexivity.
      * constructor; auto.
      * cbn [row_scores]. rewrite Hs. cbn [map].
        rewrite filter_cons_True by exact Hkeep.
        f_equal. exact Hscores.
    + apply detect_row_none in Hrow as (s & Hs & Hlow).
      apply IH in H as (kept & -> & Hall & Hscores).
      exists kept. split; [reflexivity | split; [exact Hall |]].
      cbn [row_scores]. rewrite Hs.
      rewrite filter_cons_False by (rewrite Hlow; discriminate).
      exact Hscores.
Qed.

End Rows.

(** C9, as the code has it.  Whatever NumPy's product and the formatter
    are, every detection [_process_object_detection] returns has a score
    for which [score < 0.5] is false, so a score of at least 0.5 unless it
    is NaN, and a box with [1 <= xmin], [1 <= ymin], [ymax <= img_height]
    and [xmax <= img_width]; the scores returned are the scores of the
    rows from which those below 0.5 were removed, in order. *)
Theorem process_object_detection_spec
    (np_mul : pyfloat -> Z -> pyfloat) (format_2f : pyfloat -> string)
    (labels : list string) (rows : list (list pyfloat))
    (img_width img_height : Z)
    (results : list detection) (printed : list string) :
  _process_object_detection np_mul format_2f labels rows img_width img_height
  = (Return results, printed) ->
  Forall (fun d =>
            (score d <> NaN -> at_least_half (score d) = true)
            /\ 1 <= xmin d /\ 1 <= ymin d
            /\ ymax d <= img_height /\ xmax d <= img_width) results
  /\ map score results
     = filter (fun s => flt s half = false) (row_scores rows).
Proof.
  unfold _process_object_detection. intros H.
  apply detect_rows_spec in H as (kept & -> & Hall & Hscores).
  cbn [app]. split; [| exact Hscores].
  eapply Forall_impl; [exact Hall |].
  intros d (Hs & Hx & Hy & Hy' & Hx'). cbn beta.
  split; [| auto].
  intros Hnan. apply at_least_half_iff. auto.
Qed.

(** The theorem on two rows of a 640x480 frame: the first one is kept
    and clamped, the second one has a score of 0.4 and is dropped. *)
Lemma process_object_detection_spec_witness :
  let rows := [ [Fin (-1 # 10); Fin (3 # 1); Fin (3 # 2); Fin (1 # 3);
                 Fin (9 # 10); Fin (7 # 1)];
                [Fin (1 # 10); Fin (1 # 10); Fin (1 # 2); Fin (1 # 2);
                 Fin (4 # 10); Fin 0] ] in
  let results := [Detection "Class 7" (Fin (9 # 10)) 1920 1 213 480] in
  Forall (fun d =>
            (score d <> NaN -> at_least_half (score d) = true)
            /\ 1 <= xmin d /\ 1 <= ymin d
            /\ ymax d <= 480 /\ xmax d <= 640) results
  /\ map score results
     = filter (fun s => flt s half = false) (row_scores rows).
Proof.
  intros rows results.
  apply (process_object_detection_spec exact_mul (fun _ => "0.90")
           ["person"] rows 640 480 results
           ["Detected: Class 7 (confidence: 0.90)"]).
  vm_compute. reflexivity.
Defined.

(** C9, as the claim words it, fails: a row whose score is NaN passes the
    test [score < 0.5] and is returned, with a score that is not at least
    0.5. *)
Lemma nan_score_is_returned :
  exists d printed,
    _process_object_detection exact_mul (fun _ => "nan") ["person"]
                              nan_rows 640 480
    = (Return [d], printed)
    /\ at_least_half (score d) = false.
Proof.
  eexists. eexists. split.
  - vm_compute. reflexivity.
  - reflexivity.
Qed.


(** The function returns (it raises nothing) on plain rows, with the
    exact product. *)
Lemma detect_row_plain (labels : list string)
    (img_width img_height : Z) (row : list pyfloat) :
  plain_row row ->
  exists r, detect_row exact_mul labels img_width img_height row = Return r.
Proof.
  intros (y0 & x0 & y1 & x1 & s & c & -> & Hc).
  unfold detect_row, index. cbn -[flt half int max min getitem Py.str_of_int Qred Qmult].
  destruct (flt (Fin s) half); [eauto |].
  cbn [int].
  assert (Hq : 0 <= Qnum c `quot` Z.pos (Qden c)) by (apply Z.quot_pos; lia).
  set (class_id := Qnum c `quot` Z.pos (Qden c)) in *.
  assert (Hl : exists l,
             (if class_id <? Z.of_nat (length labels)
              then getitem labels class_id
              else Return ("Class " +:+ Py.str_of_int class_id)) = Return l).
  { destruct (class_id <? Z.of_nat (length labels)) eqn:Hlt; [| eauto].
    apply Z.ltb_lt in Hlt. unfold getitem.
    replace (class_id <? 0) with false by (symmetry; apply Z.ltb_ge; lia).
    replace (0 <=? class_id) with true by (symmetry; apply Z.leb_le; lia).
    replace (class_id <? Z.of_nat (length labels)) with true
      by (symmetry; apply Z.ltb_lt; lia).
    cbn [andb].
    destruct (labels !! Z.to_nat class_id) eqn:E; [eauto |].
    apply lookup_ge_None in E. lia. }
  cbn [mbind outcome_bind]. destruct Hl as [l ->]. cbn [mbind outcome_bind].
  unfold max, min, gt, lt, exact_mul. cbn [to_float].
  repeat match goal with
         | |- context [flt ?a ?b] => destruct (flt a b)
         end; cbn [int mbind outcome_bind]; eauto.
Qed.

Lemma process_object_detection_returns (format_2f : pyfloat -> string)
    (labels : list string) (img_width img_height : Z)
    (rows : list (list pyfloat)) :
  Forall plain_row rows ->
  exists results printed,
    _process_object_detection exact_mul format_2f labels rows
                              img_width img_height
    = (Return results, printed).
Proof.
  unfold _process_object_detection. generalize (@nil detection) (@nil string).
  induction rows as [| row rest IH]; intros acc printed Hall.
  - cbn. eauto.
  - apply Forall_cons in Hall as [Hrow Hrest]. cbn [detect_rows].
    destruct (detect_row_plain labels img_width img_height row Hrow)
      as [r ->].
    destruct r; apply IH; exact Hrest.
Qed.

End DetectionFacts.

(** ** Command lines *)

Section LaunchFacts.
Import Launch.

(** [str] loses nothing: reading the decimal text of a number gives the
    number back. *)
Lemma int_of_str_of_int (n : Z) : Py.int_of_str (Py.str_of_int n) = Some n.
Proof.
  unfold Py.int_of_str, Py.str_of_int.
  rewrite NilZero.isi.
  - cbn. rewrite DecimalZ.of_to. reflexivity.
  - destruct n; cbn; intros [= H]; try discriminate.
    exact (DecimalPos.Unsigned.to_uint_nonnil _ H).
  - destruct n; cbn; intros [= H].
    exact (DecimalPos.Unsigned.to_uint_nonnil _ H).
Qed.

Lemma str_of_int_inj (m n : Z) : Py.str_of_int m = Py.str_of_int n -> m = n.
Proof.
  intros H. apply (f_equal Py.int_of_str) in H.
  rewrite !int_of_str_of_int in H. congruence.
Qed.

Lemma carries_at (before rest : list string) (flag : string) (n : Z) :
  carries (before ++ flag :: Py.str_of_int n :: rest) flag n.
Proof. exists before, rest. reflexivity. Qed.

(** C7, as the claim words it, fails for QRReader.py: a frame rate of 30
    given with [-f] is cut down to 10 by [main], and no argument of the
    capture command reads as 30. *)
Lemma qr_framerate_not_passed_through :
  framerate (main {| args_width := 1280; args_height := 720;
                     args_framerate := 30 |} "/tmp/qr/frame.jpg") <> 30
  /\ ~ appears (_capture_frames_cmd
                  (main {| args_width := 1280; args_height := 720;
                           args_framerate := 30 |} "/tmp/qr/frame.jpg")) 30.
Proof.
  split.
  - vm_compute. discriminate.
  - intros (value & Hin & Hread). cbn in Hin.
    repeat (destruct Hin as [<- | Hin]; [vm_compute in Hread; discriminate |]).
    contradiction.
Qed.

(** C7, as the code has it.  The pose-detection launcher and
    [IMX500Camera.start] hand every argument over as it is: each number
    as [str] gives it, right after its flag (the duration followed by
    [s]), the model path and the time-out string untouched; [str] loses
    nothing, the text reads back as the number.  QRReader.py hands the
    width and the height over in the same way, but forces the frame rate
    into 1..10 and keeps it out of the capture command: that command is
    the same for every frame rate. *)
Theorem launch_commands_spec :
  (forall n, Py.int_of_str (Py.str_of_int n) = Some n)
  /\ (forall duration width height framerate model_path,
      let cmd := run_camera_with_pose_detection_cmd
                   duration width height framerate model_path in
      carries_str cmd "-t" (Py.str_of_int duration +:+ "s")
      /\ carries_str cmd "--post-process-file" model_path
      /\ carries cmd "--viewfinder-width" width
      /\ carries cmd "--viewfinder-height" height
      /\ carries cmd "--framerate" framerate)
  /\ (forall self timeout,
      let cmd := IMX500Camera_start_cmd self timeout in
      carries_str cmd "-t" timeout
      /\ carries_str cmd "--post-process-file" (model_file self)
      /\ carries cmd "--viewfinder-width" (cam_width self)
      /\ carries cmd "--viewfinder-height" (cam_height self)
      /\ carries cmd "--framerate" (cam_framerate self))
  /\ (forall args tmp,
      let app := main args tmp in
      let cmd := _capture_frames_cmd app in
      carries cmd "--width" (args_width args)
      /\ carries cmd "--height" (args_height args)
      /\ carries_str cmd "--output" tmp
      /\ 1 <= framerate app <= 10
      /\ (framerate app = args_framerate args <-> 1 <= args_framerate args <= 10)
      /\ (forall args',
            args_width args' = args_width args ->
            args_height args' = args_height args ->
            _capture_frames_cmd (main args' tmp) = cmd)).
Proof.
  split; [exact int_of_str_of_int |]. split; [| split].
  - intros duration width height framerate model_path cmd. subst cmd.
    unfold run_camera_with_pose_detection_cmd. repeat split.
    + exists ["rpicam-hello"]. eexists. reflexivity.
    + exists ["rpicam-hello"; "-t"; Py.str_of_int duration +:+ "s"].
      eexists. reflexivity.
    + apply (carries_at ["rpicam-hello"; "-t"; Py.str_of_int duration +:+ "s";
                         "--post-process-file"; model_path]).
    + apply (carries_at ["rpicam-hello"; "-t"; Py.str_of_int duration +:+ "s";
                         "--post-process-file"; model_path;
                         "--viewfinder-width"; Py.str_of_int width]).
    + apply (carries_at ["rpicam-hello"; "-t"; Py.str_of_int duration +:+ "s";
                         "--post-process-file"; model_path;
                         "--viewfinder-width"; Py.str_of_int width;
                         "--viewfinder-height"; Py.str_of_int height]).
  - intros self timeout cmd. subst cmd.
    unfold IMX500Camera_start_cmd. repeat split.
    + exists ["rpicam-hello"]. eexists. reflexivity.
    + exists ["rpicam-hello"; "-t"; timeout]. eexists. reflexivity.
    + apply (carries_at ["rpicam-hello"; "-t"; timeout;
                         "--post-process-file"; model_file self]).
    + apply (carries_at ["rpicam-hello"; "-t"; timeout;
                         "--post-process-file"; model_file self;
                         "--viewfinder-width"; Py.str_of_int (cam_width self)]).
    + apply (carries_at ["rpicam-hello"; "-t"; timeout;
                         "--post-process-file"; model_file self;
                         "--viewfinder-width"; Py.str_of_int (cam_width self);
                         "--viewfinder-height"; Py.str_of_int (cam_height self)]).
  - intros args tmp app cmd. subst cmd app.
    unfold _capture_frames_cmd, main. cbn [width height framerate temp_file].
    split; [| split; [| split; [| split; [| split]]]].
    + apply (carries_at ["libcamera-still"]).
    + apply (carries_at ["libcamera-still"; "--width";
                         Py.str_of_int (args_width args)]).
    + exists ["libcamera-still"; "--width"; Py.str_of_int (args_width args);
              "--height"; Py.str_of_int (args_height args)].
      eexists. reflexivity.
    + lia.
    + lia.
    + intros args' Hw Hh. unfold _capture_frames_cmd, main.
      cbn [width height framerate temp_file]. rewrite Hw, Hh. reflexivity.
Qed.

(** The theorem on the defaults of camera_pose_detection.py and on a
    QR reader asked for five frames per second. *)
Lemma launch_commands_spec_witness :
  carries (run_camera_with_pose_detection_cmd
             0 1920 1080 30 "/usr/share/rpi-camera-assets/imx500_posenet.json")
          "--framerate" 30
  /\ framerate (main {| args_width := 1280; args_height := 720;
                        args_framerate := 5 |} "/tmp/qr/frame.jpg") = 5.
Proof.
  destruct launch_commands_spec as (_ & Hpose & _ & Hqr). split.
  - apply Hpose.
  - apply (Hqr {| args_width := 1280; args_height := 720;
                  args_framerate := 5 |} "/tmp/qr/frame.jpg").
    cbn. lia.
Defined.

End LaunchFacts.

(** ** AIvisionGUI.py: the supervisor on concrete runs *)

Section GuiRuns.
Import Gui.

(** C1.  The camera is started and its thread has spawned [rpicam-hello]
    (process 0); the user then starts Model AI.  [start_model_ai] calls
    [stop_camera], which sends SIGTERM and returns: the Model-AI process
    (process 1) is spawned while the camera process has not exited.  If
    the camera thread had not spawned yet, [stop_camera] does nothing at
    all, and once the thread runs both slots hold a live handle. *)
Theorem camera_not_stopped_before_model_ai_starts :
  (exists w,
      run friendly_os [ClickAIVision; Schedule 0; ClickModelAI] init = Some w
      /\ status_of 0 w = Some Terminating
      /\ status_of 1 w = Some Alive
      /\ live_pids w = [0; 1]%nat)
  /\ (exists w,
      run friendly_os [ClickAIVision; ClickModelAI; Schedule 0] init = Some w
      /\ holds_live Camera w = true
      /\ holds_live (Tool ModelAI) w = true
      /\ busy Camera w = true
      /\ busy (Tool ModelAI) w = true).
Proof.
  split; eexists; (split; [vm_compute; reflexivity |]); repeat split.
Qed.

(** C2.  [stop_camera] on a running camera: the slot is emptied, the
    process was sent SIGTERM and nothing more; it has not exited when
    [stop_camera] returns. *)
Theorem stop_camera_leaves_process_alive :
  exists w,
    run friendly_os [ClickAIVision; Schedule 0] init = Some w
    /\ holds_live Camera w = true
    /\ slot_handle Camera (stop friendly_os Camera w) = None
    /\ busy Camera (stop friendly_os Camera w) = false
    /\ status_of 0 (stop friendly_os Camera w) = Some Terminating
    /\ is_alive 0 (stop friendly_os Camera w) = true.
Proof.
  eexists. split; [vm_compute; reflexivity |]. repeat split.
Qed.

(** C8.  The window is closed while the camera runs: [close_application]
    destroys the root window while [rpicam-hello] has only been sent
    SIGTERM.  After a quick stop and restart, the late [_camera_stopped]
    of the first run empties the slot of the second, and
    [close_application] does not even signal the second process. *)
Theorem close_leaves_camera_process_running :
  (exists w,
      run friendly_os [ClickAIVision; Schedule 0; ClickClose] init = Some w
      /\ destroyed w = true
      /\ p_cmd <$> procs w !! 0%nat = Some camera_cmd
      /\ is_alive 0 w = true)
  /\ (exists w,
      run friendly_os [ClickAIVision; Schedule 0; ClickAIVision;
                       ClickAIVision; Schedule 1; Exits 0 (-15);
                       Schedule 0; RunAfter; ClickClose] init = Some w
      /\ destroyed w = true
      /\ p_cmd <$> procs w !! 1%nat = Some camera_cmd
      /\ status_of 1 w = Some Alive).
Proof.
  split; eexists; (split; [vm_compute; reflexivity |]); repeat split.
Qed.

(** C3, as the claim words it, fails: the second [start] in a row returns
    without a word, for each of the three tasks. *)
Lemma second_start_reports_nothing :
  ~ reported (start friendly_os Camera init)
             (start friendly_os Camera (start friendly_os Camera init))
  /\ ~ reported (start friendly_os (Tool ModelAI) init)
                (start friendly_os (Tool ModelAI)
                       (start friendly_os (Tool ModelAI) init))
  /\ ~ reported (start friendly_os (Tool QRReader) init)
                (start friendly_os (Tool QRReader)
                       (start friendly_os (Tool QRReader) init)).
Proof.
  repeat split; intros [H | [H | H]]; apply H; vm_compute; reflexivity.
Qed.

(** C4, as the claim words it, fails for the camera: [rpicam-hello] is
    missing, the thread has reported the error, and the slot is still
    taken; pressing the button again changes nothing.  Only the pending
    [_camera_stopped] frees the slot. *)
Lemma camera_slot_taken_after_failed_launch :
  exists w,
    run os_without_rpicam [ClickAIVision; Schedule 0] init = Some w
    /\ slot_state Camera w = Running
    /\ after_queue w = [CameraStopped]
    /\ step os_without_rpicam ClickAIVision w = Some w.
Proof.
  eexists. split; [vm_compute; reflexivity |]. repeat split.
Qed.



End GuiRuns.

(** ** AIvisionGUI.py: the supervisor in general *)

Section GuiFacts.
Import Gui.

Variable os : osenv.

(** *** Processes *)

Lemma status_of_set_status_eq (p : pid) (s : pstatus) (w : world) :
  is_Some (status_of p w) -> status_of p (set_status p s w) = Some s.
Proof.
  unfold status_of, set_status. intros [s0 H].
  destruct (procs w !! p) as [pr|] eqn:E; [| discriminate].
  cbn. rewrite list_lookup_insert_eq; [reflexivity |].
  eapply lookup_lt_Some; eauto.
Qed.

Lemma status_of_set_status_ne (p q : pid) (s : pstatus) (w : world) :
  p <> q -> status_of q (set_status p s w) = status_of q w.
Proof.
  unfold status_of, set_status. intros Hne.
  destruct (procs w !! p) as [pr|] eqn:E; [| reflexivity].
  cbn. rewrite list_lookup_insert_ne; [reflexivity | exact Hne].
Qed.

Lemma length_procs_set_status (p : pid) (s : pstatus) (w : world) :
  length (procs (set_status p s w)) = length (procs w).
Proof.
  unfold set_status. destruct (procs w !! p); [| reflexivity].
  cbn. apply length_insert.
Qed.

(** [set_status] touches the process table only. *)
Lemma set_status_frame (p : pid) (s : pstatus) (w : world) :
  exists ps, set_status p s w = set_procs ps w /\ length ps = length (procs w).
Proof.
  unfold set_status. destruct (procs w !! p).
  - eexists. split; [reflexivity | apply length_insert].
  - exists (procs w). split; [destruct w; reflexivity | reflexivity].
Qed.

Lemma terminate_frame (p : pid) (w : world) :
  exists ps, terminate p w = set_procs ps w /\ length ps = length (procs w).
Proof.
  unfold terminate. destruct (status_of p w) as [[]|];
    try apply set_status_frame;
    (exists (procs w); split; [destruct w; reflexivity | reflexivity]).
Qed.

Lemma kill_frame (p : pid) (w : world) :
  exists ps, kill p w = set_procs ps w /\ length ps = length (procs w).
Proof.
  unfold kill. destruct (status_of p w) as [[]|];
    try apply set_status_frame;
    (exists (procs w); split; [destruct w; reflexivity | reflexivity]).
Qed.

Lemma wait_timeout_frame (p : pid) (w : world) :
  exists ps, fst (wait_timeout os p w) = set_procs ps w
             /\ length ps = length (procs w).
Proof.
  unfold wait_timeout.
  destruct (procs w !! p) as [pr|]; [destruct (p_status pr) |]; cbn;
    try (exists (procs w); split; [destruct w; reflexivity | reflexivity]).
  - destruct (exits_on_term os (p_cmd pr)); cbn;
      [apply set_status_frame |
       exists (procs w); split; [destruct w; reflexivity | reflexivity]].
  - apply set_status_frame.
Qed.

(** Once [terminate], [wait(timeout=2)] and, on a time-out, [kill] have
    run, the process has exited or has been sent SIGKILL. *)
Lemma terminate_wait_kill_put_down (p : pid) (w : world) :
  is_Some (status_of p w) ->
  let w1 := terminate p w in
  let (w2, timed_out) := wait_timeout os p w1 in
  put_down p (if timed_out then kill p w2 else w2).
Proof.
  intros [s Hs]. cbn zeta.
  assert (Hterm : exists s', status_of p (terminate p w) = Some s'
                             /\ s' <> Alive).
  { unfold terminate. rewrite Hs. destruct s.
    - exists Terminating. split; [| discriminate].
      apply status_of_set_status_eq. rewrite Hs. eauto.
    - exists Terminating. split; [exact Hs | discriminate].
    - exists Killed. split; [exact Hs | discriminate].
    - exists (Exited code). split; [exact Hs | discriminate]. }
  destruct Hterm as (s' & Hs' & Hna).
  set (w1 := terminate p w) in *.
  unfold wait_timeout.
  pose proof Hs' as Hst'. unfold status_of in Hs'.
  destruct (procs w1 !! p) as [pr|] eqn:Hpr; [| discriminate].
  cbn in Hs'. injection Hs' as Hs'.
  assert (Hsome : is_Some (status_of p w1)) by (rewrite Hst'; eauto).
  unfold put_down.
  destruct (p_status pr) eqn:Hst; subst s'.
  - contradiction.
  - destruct (exits_on_term os (p_cmd pr)).
    + right. eexists. apply status_of_set_status_eq. exact Hsome.
    + left. unfold kill. rewrite Hst'.
      apply status_of_set_status_eq. exact Hsome.
  - right. eexists. apply status_of_set_status_eq. exact Hsome.
  - right. eexists. exact Hst'.
Qed.


(** *** What the stop operations leave alone *)


Lemma same_frame_refl (w : world) : same_frame w w.
Proof. repeat split. Qed.

Lemma same_frame_trans (w1 w2 w3 : world) :
  same_frame w1 w2 -> same_frame w2 w3 -> same_frame w1 w3.
Proof.
  unfold same_frame. intros (? & ? & ? & ? & ?) (? & ? & ? & ? & ?).
  repeat split; congruence.
Qed.

Lemma print_frame (line : string) (w : world) : same_frame w (print line w).
Proof. unfold print. destruct (sys_stdout w) eqn:E; repeat split; cbn; auto. Qed.

Lemma printed_print (line : string) (w : world) :
  printed (print line w) = (printed w ++ [line])%list.
Proof. unfold printed, print. destruct (sys_stdout w) eqn:E; cbn; rewrite E; reflexivity. Qed.

Lemma set_procs_frame (ps : list proc) (w : world) :
  length ps = length (procs w) -> same_frame w (set_procs ps w).
Proof. intros H. repeat split. exact H. Qed.

(** The shape of [stop_camera] when it does something. *)
Lemma stop_camera_shape (p : pid) (w : world) :
  process w = Some p -> camera_running w = true ->
  stop_camera w
  = print "Camera stopped by user"
      (set_status_label "Status: Stopped"
         (set_start_button "AI Vision"
            (set_camera_running false (set_process None (terminate p w))))).
Proof. intros Hp Hr. unfold stop_camera. rewrite Hp, Hr. reflexivity. Qed.

Lemma stop_camera_idle (w : world) :
  process w = None \/ camera_running w = false -> stop_camera w = w.
Proof.
  unfold stop_camera. intros [H | H]; rewrite H; [reflexivity |].
  destruct (process w); reflexivity.
Qed.

Lemma stop_camera_frame (w : world) : same_frame w (stop_camera w).
Proof.
  unfold stop_camera.
  destruct (process w) as [p|]; [| apply same_frame_refl].
  destruct (camera_running w); [| apply same_frame_refl].
  destruct (terminate_frame p w) as (ps & -> & Hlen).
  eapply same_frame_trans; [| apply print_frame].
  repeat split. exact Hlen.
Qed.

(** [stop_camera] sends a signal and never waits: whatever was running
    is still running when it returns. *)
Lemma stop_camera_kills_nothing (q : pid) (w : world) :
  is_alive q (stop_camera w) = is_alive q w.
Proof.
  unfold stop_camera.
  destruct (process w) as [p|]; [| reflexivity].
  destruct (camera_running w); [| reflexivity].
  assert (H : is_alive q (terminate p w) = is_alive q w).
  { unfold terminate. destruct (status_of p w) as [[]|] eqn:Hs; try reflexivity.
    unfold is_alive. destruct (decide (p = q)) as [<- | Hne].
    - rewrite status_of_set_status_eq, Hs; [reflexivity | rewrite Hs; eauto].
    - rewrite status_of_set_status_ne by exact Hne. reflexivity. }
  rewrite <- H. unfold print. cbn. destruct (sys_stdout (terminate p w)); reflexivity.
Qed.

(** The shape of [stop_model_ai] / [stop_qr_reader] when the slot holds a
    handle and nothing else happens during the [wait]: a line printed,
    the process table changed so that the process has exited or has been
    sent SIGKILL, the slot emptied, the button and the status line
    reset. *)
Lemma stop_tool_shape (t : tool) (p : pid) (w : world) :
  handle t w = Some p ->
  exists ps,
    length ps = length (procs w)
    /\ stop_tool os t w
       = set_status_label ("Status: " +:+ long_name t +:+ " Stopped")
           (set_button t (short_name t)
              (set_handle t None
                 (set_procs ps (print ("Stopping " +:+ long_name t +:+ "...") w))))
    /\ (is_Some (status_of p w) -> put_down p (set_procs ps w)).
Proof.
  intros H. unfold stop_tool. rewrite H.
  set (w0 := print ("Stopping " +:+ long_name t +:+ "...") w).
  assert (Hst0 : status_of p w0 = status_of p w).
  { subst w0. unfold print. destruct (sys_stdout w); reflexivity. }
  pose proof (terminate_wait_kill_put_down p w0) as Hdead. cbn zeta in Hdead.
  rewrite Hst0 in Hdead.
  destruct (terminate_frame p w0) as (ps1 & E1 & L1).
  pose proof (wait_timeout_frame p (terminate p w0)) as (ps2 & E2 & L2).
  destruct (wait_timeout os p (terminate p w0)) as [w2 timed_out].
  cbn [fst] in E2.
  destruct (kill_frame p w2) as (ps3 & E3 & L3).
  assert (Hlen0 : length (procs w0) = length (procs w)) by apply print_frame.
  assert (Hw3 : exists ps, length ps = length (procs w)
                           /\ (if timed_out then kill p w2 else w2) = set_procs ps w0).
  { rewrite E1 in E2. cbn in E2.
    destruct timed_out.
    - exists ps3. rewrite E3, E2. cbn. split; [| reflexivity].
      rewrite L3, E2. cbn. rewrite L2, E1. cbn. congruence.
    - exists ps2. split; [| exact E2]. rewrite L2, E1. cbn. congruence. }
  destruct Hw3 as (ps & Hlen & Hw3). rewrite Hw3 in Hdead |- *.
  exists ps. split; [exact Hlen |]. split; [reflexivity |].
  intros Hsome. exact (Hdead Hsome).
Qed.

Lemma stop_tool_idle (t : tool) (w : world) :
  handle t w = None -> stop_tool os t w = w.
Proof. intros H. unfold stop_tool. rewrite H. reflexivity. Qed.

Lemma stop_tool_frame (t : tool) (w : world) : same_frame w (stop_tool os t w).
Proof.
  destruct (handle t w) as [p|] eqn:H.
  - destruct (stop_tool_shape t p w H) as (ps & Hlen & -> & _).
    pose proof (print_frame ("Stopping " +:+ long_name t +:+ "...") w)
      as (? & ? & ? & ? & ?).
    destruct t; repeat split; cbn; first [assumption | congruence].
  - rewrite stop_tool_idle by exact H. apply same_frame_refl.
Qed.


(** *** Starting *)


Lemma prepared_frame (t : tool) (w : world) : same_frame w (prepared os t w).
Proof.
  unfold prepared.
  eapply same_frame_trans; [| apply print_frame].
  set (w1 := if camera_running w then stop_camera w else w).
  assert (H1 : same_frame w w1).
  { subst w1. destruct (camera_running w);
      [apply stop_camera_frame | apply same_frame_refl]. }
  set (w2 := match handle (other t) w1 with
             | Some _ => stop_tool os (other t) w1
             | None => w1
             end).
  assert (H2 : same_frame w w2).
  { subst w2. destruct (handle (other t) w1);
      [eapply same_frame_trans; [exact H1 | apply stop_tool_frame] | exact H1]. }
  destruct H2 as (? & ? & ? & ? & ?).
  destruct t; repeat split; cbn; assumption.
Qed.

Lemma start_tool_unfold (t : tool) (w : world) :
  handle t w = None ->
  start_tool os t w
  = match spawn_error os (tool_cmd os t) with
    | None =>
        set_status_label ("Status: " +:+ long_name t +:+ " Running")
          (print (long_name t +:+ " started successfully")
             (start_thread (OutputReader t)
                (set_handle t (Some (length (procs (prepared os t w))))
                   (set_procs (procs (prepared os t w)
                               ++ [Proc (tool_cmd os t) Alive []])
                              (prepared os t w)))))
    | Some e =>
        set_handle t None
          (set_button t (short_name t)
             (set_status_label ("Status: Error - " +:+ e)
                (print ("Error starting " +:+ long_name t +:+ ": " +:+ e)
                   (prepared os t w))))
    end.
Proof.
  intros H. unfold start_tool. rewrite H. fold (prepared os t w).
  unfold Popen. destruct (spawn_error os (tool_cmd os t)); reflexivity.
Qed.

(** A start on a taken slot returns at once. *)
Lemma start_busy (k : task) (w : world) : busy k w = true -> start os k w = w.
Proof.
  destruct k as [| []]; cbn; intros H.
  - unfold start_camera. rewrite H. reflexivity.
  - apply bool_decide_eq_true in H as [p Hp].
    unfold start_tool. cbn. rewrite Hp. reflexivity.
  - apply bool_decide_eq_true in H as [p Hp].
    unfold start_tool. cbn. rewrite Hp. reflexivity.
Qed.

Lemma busy_false_handle (t : tool) (w : world) :
  busy (Tool t) w = false -> handle t w = None.
Proof.
  destruct t; cbn; intros H; apply bool_decide_eq_false in H;
    match goal with |- ?o = None => destruct o eqn:E end;
    try reflexivity; exfalso; apply H; eauto.
Qed.

(** C3, as the code has it.  When a first [start] on a free slot has left
    the slot taken (it always does for the camera, and does for the two
    tools when their process could be spawned), a second [start] in a row
    returns without reporting anything and without changing anything.
    The two calls together have created one launcher thread and no
    process yet for the camera, one process for a tool, which is running
    and held by the slot. *)
Theorem start_twice_spec (k : task) (w : world) :
  busy k w = false ->
  busy k (start os k w) = true ->
  start os k (start os k w) = start os k w
  /\ ~ reported (start os k w) (start os k (start os k w))
  /\ match k with
     | Camera =>
         length (threads (start os k (start os k w))) = S (length (threads w))
         /\ length (procs (start os k (start os k w))) = length (procs w)
     | Tool t =>
         length (procs (start os k (start os k w))) = S (length (procs w))
         /\ holds_live k (start os k (start os k w)) = true
     end.
Proof.
  intros Hfree Hbusy.
  rewrite (start_busy k (start os k w) Hbusy).
  split; [reflexivity |]. split.
  { intros [H | [H | H]]; apply H; reflexivity. }
  destruct k as [| t].
  - cbn in Hfree |- *. unfold start_camera. rewrite Hfree.
    set (w1 := match qr_reader_process w with
               | Some _ => stop_qr_reader os w
               | None => w
               end).
    assert (H1 : same_frame w w1).
    { subst w1. destruct (qr_reader_process w);
        [apply stop_tool_frame | apply same_frame_refl]. }
    set (w2 := match model_ai_process w1 with
               | Some _ => stop_model_ai os w1
               | None => w1
               end).
    assert (H2 : same_frame w w2).
    { subst w2. destruct (model_ai_process w1);
        [eapply same_frame_trans; [exact H1 | apply stop_tool_frame] | exact H1]. }
    destruct H2 as (Hth & _ & Hlen & _). cbn.
    rewrite length_app, Hth. cbn. split; [lia | exact Hlen].
  - cbn [start] in *. apply busy_false_handle in Hfree.
    rewrite (start_tool_unfold t w Hfree) in Hbusy |- *.
    pose proof (prepared_frame t w) as (_ & _ & Hlen & _).
    destruct (spawn_error os (tool_cmd os t)) as [e|].
    + exfalso. destruct t; cbn in Hbusy; discriminate.
    + set (w3 := prepared os t w) in *.
      unfold print, start_thread.
      destruct t; cbn; destruct (sys_stdout w3); cbn;
        rewrite length_app; cbn; (split; [lia |]);
        unfold holds_live, is_alive, status_of; cbn;
        rewrite lookup_app_r, Nat.sub_diag by lia; reflexivity.
Qed.

(** C4, as the code has it, for the two tools: when the process cannot be
    spawned, [start_model_ai] / [start_qr_reader] print the error with the
    text of the exception, show it in the status line, and leave the slot
    empty; no process and no thread were created, and a new start will
    try again. *)
Lemma start_tool_launch_failure (t : tool) (w : world) (e : string) :
  handle t w = None ->
  spawn_error os (tool_cmd os t) = Some e ->
  handle t (start_tool os t w) = None
  /\ busy (Tool t) (start_tool os t w) = false
  /\ status_label (start_tool os t w) = "Status: Error - " +:+ e
  /\ (exists earlier, printed (start_tool os t w)
        = (earlier ++ ["Error starting " +:+ long_name t +:+ ": " +:+ e])%list)
  /\ length (procs (start_tool os t w)) = length (procs w)
  /\ threads (start_tool os t w) = threads w.
Proof.
  intros Hfree Herr. rewrite (start_tool_unfold t w Hfree), Herr.
  pose proof (prepared_frame t w) as (Hth & _ & Hlen & _).
  set (w3 := prepared os t w) in *.
  pose proof (print_frame ("Error starting " +:+ long_name t +:+ ": " +:+ e) w3)
    as (Hth' & _ & Hlen' & _).
  pose proof (printed_print ("Error starting " +:+ long_name t +:+ ": " +:+ e) w3)
    as Hpr.
  set (w4 := print ("Error starting " +:+ long_name t +:+ ": " +:+ e) w3) in *.
  destruct t; cbn; (repeat split; try congruence);
    exists (printed w3); exact Hpr.
Qed.

(** C4, as the code has it, for the camera: the launch is attempted by
    the thread; when it fails the thread prints the error with the text
    of the exception on the console, asks the main loop for
    [_camera_stopped] and ends.  The slot stays taken until that callback
    runs, and is free after it. *)
Lemma camera_launch_failure (i : nat) (w : world) (e : string) :
  destroyed w = false ->
  threads w !! i = Some CameraLauncher ->
  spawn_error os camera_cmd = Some e ->
  exists w',
    step os (Schedule i) w = Some w'
    /\ (exists earlier,
          console w' = (earlier ++ ["Error running camera: " +:+ e])%list)
    /\ after_queue w' = (after_queue w ++ [CameraStopped])%list
    /\ threads w' !! i = Some Finished
    /\ camera_running w' = camera_running w
    /\ length (procs w') = length (procs w).
Proof.
  intros Hd Hth Herr. unfold step. rewrite Hd. unfold thread_step. rewrite Hth.
  eexists. split; [reflexivity |].
  unfold camera_launch, Popen. rewrite Herr. cbn.
  repeat split.
  - eexists. reflexivity.
  - apply list_lookup_insert_eq. eapply lookup_lt_Some; eauto.
Qed.

Lemma camera_stopped_frees (w : world) :
  busy Camera (_camera_stopped w) = false
  /\ slot_handle Camera (_camera_stopped w) = None.
Proof. split; reflexivity. Qed.

(** C4, as the code has it.  When the process of a tool cannot be
    spawned, [start_model_ai] / [start_qr_reader] print the error with the
    text of the exception, show it in the status line and leave the slot
    empty, with no process and no thread created.  For the camera the
    launch is attempted by the thread: when it fails the thread prints the
    error on the console and asks the main loop for [_camera_stopped]; the
    slot stays taken until that callback runs and is free after it. *)
Theorem launch_failure_spec :
  (forall t w e,
      handle t w = None ->
      spawn_error os (tool_cmd os t) = Some e ->
      handle t (start_tool os t w) = None
      /\ busy (Tool t) (start_tool os t w) = false
      /\ status_label (start_tool os t w) = "Status: Error - " +:+ e
      /\ (exists earlier, printed (start_tool os t w)
            = (earlier ++ ["Error starting " +:+ long_name t +:+ ": " +:+ e])%list)
      /\ length (procs (start_tool os t w)) = length (procs w)
      /\ threads (start_tool os t w) = threads w)
  /\ (forall i w e,
      destroyed w = false ->
      threads w !! i = Some CameraLauncher ->
      spawn_error os camera_cmd = Some e ->
      exists w',
        step os (Schedule i) w = Some w'
        /\ (exists earlier,
              console w' = (earlier ++ ["Error running camera: " +:+ e])%list)
        /\ after_queue w' = (after_queue w ++ [CameraStopped])%list
        /\ threads w' !! i = Some Finished
        /\ camera_running w' = camera_running w
        /\ length (procs w') = length (procs w)
        /\ busy Camera (run_callback CameraStopped w') = false
        /\ slot_handle Camera (run_callback CameraStopped w') = None).
Proof.
  split.
  - apply start_tool_launch_failure.
  - intros i w e Hd Hth Herr.
    destruct (camera_launch_failure i w e Hd Hth Herr)
      as (w' & Hstep & Hcon & Haq & Hfin & Hrun & Hlen).
    exists w'. repeat split; assumption.
Qed.


(** *** The reader threads *)

(** [print] writes on one of the two output surfaces and nothing else. *)
Lemma print_keeps (line : string) (w : world) :
  (forall t, handle t (print line w) = handle t w)
  /\ procs (print line w) = procs w
  /\ threads (print line w) = threads w
  /\ after_queue (print line w) = after_queue w
  /\ destroyed (print line w) = destroyed w
  /\ status_label (print line w) = status_label w.
Proof.
  unfold print. destruct (sys_stdout w); repeat split; try (intros []; reflexivity).
Qed.








End GuiFacts.

(** *** The theorems at work *)

Section GuiWitnesses.
Import Gui.

(** Model AI is started twice in a row on a fresh supervisor. *)
Lemma start_twice_spec_witness :
  start friendly_os (Tool ModelAI) (start friendly_os (Tool ModelAI) init)
  = start friendly_os (Tool ModelAI) init
  /\ length (procs (start friendly_os (Tool ModelAI)
                      (start friendly_os (Tool ModelAI) init))) = 1%nat.
Proof.
  destruct (start_twice_spec friendly_os (Tool ModelAI) init)
    as (Hsame & _ & Hone & _);
    [vm_compute; reflexivity | vm_compute; reflexivity |].
  split; [exact Hsame | exact Hone].
Defined.

(** The interpreter cannot be spawned for the QR reader; [rpicam-hello]
    is missing for the camera. *)
Lemma launch_failure_spec_witness :
  status_label (start_tool hostile_os QRReader init)
  = "Status: Error - [Errno 13] Permission denied: '/usr/bin/python3'"
  /\ exists w',
      step os_without_rpicam (Schedule 0) (start_camera os_without_rpicam init)
      = Some w'
      /\ busy Camera (run_callback CameraStopped w') = false.
Proof.
  split.
  - destruct (launch_failure_spec hostile_os) as (Htool & _).
    destruct (Htool QRReader init
                "[Errno 13] Permission denied: '/usr/bin/python3'")
      as (_ & _ & Hlabel & _); [reflexivity | reflexivity |].
    exact Hlabel.
  - destruct (launch_failure_spec os_without_rpicam) as (_ & Hcam).
    destruct (Hcam 0%nat (start_camera os_without_rpicam init)
                "[Errno 2] No such file or directory: 'rpicam-hello'")
      as (w' & Hstep & _ & _ & _ & _ & _ & Hfree & _);
      [reflexivity | reflexivity | reflexivity |].
    exists w'. split; [exact Hstep | exact Hfree].
Defined.



End GuiWitnesses.

(* ===================================================================== *)
(** * Further properties of the code *)
(* ===================================================================== *)

(** ** Label files: create_labels.py and [select_model] *)

Section LabelFileFacts.
Import CreateLabels Program.

(** The files [create_label_file] leaves. *)
Lemma create_label_file_files (model_path label_type : string) (w : world) :
  files (create_label_file model_path label_type w)
  = if exists_ (label_file_of model_path) w then files w
    else
      match (if String.eqb (Py.lower label_type) "coco" then Some COCO_LABELS
             else if String.eqb (Py.lower label_type) "imagenet"
                  then Some IMAGENET_LABELS
             else None),
            open_w_error w (label_file_of model_path) with
      | Some labels, None =>
          <[label_file_of model_path := write_labels labels]> (files w)
      | _, _ => files w
      end.
Proof.
  unfold create_label_file, open_w_write.
  destruct (exists_ (label_file_of model_path) w); [reflexivity |].
  destruct (String.eqb (Py.lower label_type) "coco");
    [| destruct (String.eqb (Py.lower label_type) "imagenet")];
    destruct (open_w_error w (label_file_of model_path)); reflexivity.
Qed.

(** [create_label_file] does not change what can be opened. *)
Lemma create_label_file_open_w_error (model_path label_type : string) (w : world) :
  open_w_error (create_label_file model_path label_type w) = open_w_error w.
Proof.
  unfold create_label_file, open_w_write.
  destruct (exists_ (label_file_of model_path) w); [reflexivity |].
  destruct (String.eqb (Py.lower label_type) "coco");
    [| destruct (String.eqb (Py.lower label_type) "imagenet")];
    destruct (open_w_error w (label_file_of model_path)); reflexivity.
Qed.

Lemma exists_files (path : string) (w w' : world) :
  files w' !! path = files w !! path -> exists_ path w' = exists_ path w.
Proof. unfold exists_. intros ->. reflexivity. Qed.

(** X1.  Calling [create_label_file] a second time with the same arguments
    writes nothing: the files are those the first call left. *)
Theorem create_label_file_idempotent (model_path label_type : string)
    (w : world) :
  files (create_label_file model_path label_type
           (create_label_file model_path label_type w))
  = files (create_label_file model_path label_type w).
Proof.
  set (w1 := create_label_file model_path label_type w).
  rewrite (create_label_file_files model_path label_type w1).
  pose proof (create_label_file_files model_path label_type w) as H1.
  pose proof (create_label_file_open_w_error model_path label_type w) as H2.
  fold w1 in H1, H2. rewrite H2.
  destruct (exists_ (label_file_of model_path) w) eqn:Hex.
  - rewrite (exists_files _ w w1), Hex by (rewrite H1; reflexivity).
    reflexivity.
  - destruct (if String.eqb (Py.lower label_type) "coco" then Some COCO_LABELS
              else if String.eqb (Py.lower label_type) "imagenet"
                   then Some IMAGENET_LABELS
              else None) as [labels |];
      [destruct (open_w_error w (label_file_of model_path)) as [e |] |].
    + rewrite (exists_files _ w w1), Hex by (rewrite H1; reflexivity).
      reflexivity.
    + replace (exists_ (label_file_of model_path) w1) with true; [reflexivity |].
      symmetry. apply exists_true. rewrite H1, lookup_insert_eq. eauto.
    + rewrite (exists_files _ w w1), Hex by (rewrite H1; reflexivity).
      reflexivity.
Qed.

(** [readlines] cuts a first line without line break off the contents. *)
Lemma readlines_from_line (l : string) :
  forall acc rest,
    no_line_break l = true ->
    readlines_from (l +:+ String "010"%char rest) acc
    = (acc +:+ l +:+ String "010"%char EmptyString) :: readlines_from rest "".
Proof.
  induction l as [| c l IH]; intros acc rest Hl.
  - cbn. reflexivity.
  - cbn in Hl. apply andb_true_iff in Hl as [Hc Hl].
    unfold is_line_break in Hc. apply negb_true_iff, orb_false_iff in Hc as [Hc _].
    simpl. rewrite Hc.
    rewrite (IH _ _ Hl). f_equal.
    rewrite string_append_assoc. reflexivity.
Qed.

Lemma rstrip_newline (s : string) :
  Py.rstrip (s +:+ String "010"%char EmptyString) = Py.rstrip s.
Proof.
  induction s as [| c s IH]; [reflexivity |].
  simpl. rewrite IH. reflexivity.
Qed.

Lemma length_rstrip (s : string) : (String.length (Py.rstrip s) <= String.length s)%nat.
Proof.
  induction s as [| c s IH]; cbn; [lia |].
  destruct (Py.rstrip s); [destruct (Py.is_space c); cbn; lia | cbn in *; lia].
Qed.

Lemma length_lstrip (s : string) : (String.length (Py.lstrip s) <= String.length s)%nat.
Proof.
  induction s as [| c s IH]; cbn; [lia |].
  destruct (Py.is_space c); cbn; lia.
Qed.

(** [strip] undoes the newline that the writer appends. *)
Lemma strip_line (l : string) :
  Py.strip l = l -> Py.strip (l +:+ String "010"%char EmptyString) = l.
Proof.
  intros Hl. destruct l as [| c l]; [reflexivity |].
  assert (Hc : Py.is_space c = false).
  { destruct (Py.is_space c) eqn:E; [| reflexivity]. exfalso.
    assert (Hs : Py.strip (String c l) = Py.rstrip (Py.lstrip l)).
    { unfold Py.strip. simpl. rewrite E. reflexivity. }
    pose proof (length_rstrip (Py.lstrip l)) as H1.
    pose proof (length_lstrip l) as H2.
    rewrite <- Hs, Hl in H1. simpl in H1. lia. }
  assert (H1 : Py.lstrip (String c l) = String c l).
  { simpl. rewrite Hc. reflexivity. }
  assert (H2 : Py.lstrip (String c l +:+ String "010"%char EmptyString)
               = String c l +:+ String "010"%char EmptyString).
  { simpl. rewrite Hc. reflexivity. }
  unfold Py.strip in *. rewrite H2, rstrip_newline. rewrite H1 in Hl. exact Hl.
Qed.

(** X2.  What [create_label_file] writes, [select_model] reads back: the labels
    come out of the label file as they went in, provided none of them has
    a line break in it or white space at either end. *)
Theorem labels_round_trip (labels : list string) :
  Forall clean_label labels ->
  load_labels (write_labels labels) = labels.
Proof.
  unfold load_labels, readlines.
  induction labels as [| l rest IH]; intros Hall; [reflexivity |].
  apply Forall_cons in Hall as [[Hbreak Hstrip] Hrest].
  change (write_labels (l :: rest))
    with ((l +:+ String "010"%char EmptyString) +:+ write_labels rest).
  rewrite string_append_assoc.
  change (String "010"%char EmptyString +:+ write_labels rest)
    with (String "010"%char (write_labels rest)).
  rewrite (readlines_from_line l "" _ Hbreak).
  change ("" +:+ l +:+ String "010"%char EmptyString)
    with (l +:+ String "010"%char EmptyString).
  rewrite map_cons, (strip_line l Hstrip).
  f_equal. apply IH. exact Hrest.
Qed.

Lemma labels_round_trip_witness :
  load_labels (write_labels ["traffic light"; ""; "tv"])
  = ["traffic light"; ""; "tv"].
Proof.
  apply (labels_round_trip ["traffic light"; ""; "tv"]).
  repeat constructor.
Defined.

(** X3.  The two scripts together: after [create_label_file] on a model that
    had no label file, [select_model] on the same model loads the COCO
    labels or the ImageNet labels when the label type names them and the
    label file could be opened for writing.  It loads the ten generic
    labels when the label type is neither, and also when [open] failed:
    no label file was written then. *)
Theorem select_model_after_create_label_file
    (tflite : option (string -> interpreter_details + string))
    (show_shape : list Z -> string)
    (model_file label_type : string) (g : gui) (w : world) :
  model_file <> "" ->
  files w !! label_file_of model_file = None ->
  labels (fst (select_model tflite show_shape model_file g
                 (create_label_file model_file label_type w)))
  = match open_w_error w (label_file_of model_file) with
    | None =>
        if String.eqb (Py.lower label_type) "coco" then COCO_LABELS
        else if String.eqb (Py.lower label_type) "imagenet" then IMAGENET_LABELS
        else generic_labels
    | Some _ => generic_labels
    end.
Proof.
  intros Hne Hnone.
  apply String.eqb_neq in Hne.
  assert (Hlabels : forall w',
             labels (fst (select_model tflite show_shape model_file g w'))
             = match files w' !! label_file_of model_file with
               | Some contents => load_labels contents
               | None => generic_labels
               end).
  { intros w'. unfold select_model. rewrite Hne. unfold label_file_of.
    destruct tflite as [load |]; [destruct (load model_file) |]; reflexivity. }
  rewrite Hlabels, create_label_file_files.
  apply exists_false in Hnone. rewrite Hnone. apply exists_false in Hnone.
  destruct (open_w_error w (label_file_of model_file)) as [e |].
  - destruct (String.eqb (Py.lower label_type) "coco");
      [| destruct (String.eqb (Py.lower label_type) "imagenet")];
      rewrite Hnone; reflexivity.
  - destruct (String.eqb (Py.lower label_type) "coco");
      [| destruct (String.eqb (Py.lower label_type) "imagenet")].
    + rewrite lookup_insert_eq. apply load_coco.
    + rewrite lookup_insert_eq. apply load_imagenet.
    + rewrite Hnone. reflexivity.
Qed.

Lemma select_model_after_create_label_file_witness :
  labels (fst (select_model None (fun _ => "") "/home/pi/ssd.tflite" init
                 (create_label_file "/home/pi/ssd.tflite" "COCO"
                                    (World ∅ [] [] (fun _ => None)))))
  = COCO_LABELS.
Proof.
  apply (select_model_after_create_label_file None (fun _ => "")
           "/home/pi/ssd.tflite" "COCO" init (World ∅ [] [] (fun _ => None))).
  - discriminate.
  - reflexivity.
Defined.

End LabelFileFacts.

(** ** AIvisionProgram.py: the model output *)

Section ModelOutputFacts.
Import Detection Program.
Local Open Scope list_scope.

(** *** The order on floats *)

Lemma Qle_bool_false (x y : Q) : Qle_bool x y = false -> (y < x)%Q.
Proof.
  intros H. apply Qnot_le_lt. intros Hle.
  apply Qle_bool_iff in Hle. congruence.
Qed.

(** [x <= y] excludes [y < x]. *)
Lemma fle_not_flt (x y : pyfloat) : fle x y = true -> flt y x = false.
Proof.
  destruct x as [p | [] |], y as [q | [] |]; cbn; try congruence.
  intros ->. reflexivity.
Qed.

Lemma flt_irrefl (x : pyfloat) : flt x x = false.
Proof.
  destruct x as [q | [] |]; cbn; try reflexivity.
  apply negb_false_iff, Qle_bool_iff, Qle_refl.
Qed.

Lemma fle_refl (x : pyfloat) : x <> NaN -> fle x x = true.
Proof.
  destruct x as [q | [] |]; cbn; try congruence; intros _.
  apply Qle_bool_iff, Qle_refl.
Qed.

Lemma fle_not_nan (x y : pyfloat) : fle x y = true -> x <> NaN /\ y <> NaN.
Proof. destruct x as [p | [] |], y as [q | [] |]; cbn; split; congruence. Qed.

(** From [s <= best] and not [x <= best], [x] being a number: [s < x]. *)
Lemma below_new_best (x best s : pyfloat) :
  x <> NaN ->
  fle s best = true ->
  fle x best = false ->
  flt s x = true /\ fle s x = true.
Proof.
  intros Hx Hs Hb.
  destruct x as [p | [] |], best as [q | [] |], s as [r | [] |];
    cbn in *; try congruence; try (split; reflexivity).
  apply Qle_bool_false in Hb. apply Qle_bool_iff in Hs.
  assert (Hlt : (r < p)%Q) by (eapply Qle_lt_trans; eauto).
  split.
  - apply negb_true_iff. destruct (Qle_bool p r) eqn:E; [| reflexivity].
    apply Qle_bool_iff in E. exfalso. exact (Qlt_not_le _ _ Hlt E).
  - apply Qle_bool_iff, Qlt_le_weak. exact Hlt.
Qed.

(** *** [np.argmax] *)

Lemma argmax_from_spec (v : list pyfloat) :
  forall seen best at_,
    first_greatest seen at_ best ->
    exists top,
      first_greatest (seen ++ v) (argmax_from v (length seen) best at_) top.
Proof.
  induction v as [| x rest IH]; intros seen best at_ (Hat & Hearly & Hall).
  - exists best. rewrite app_nil_r.
    destruct best; cbn; (split; [exact Hat | split; [exact Hearly | exact Hall]]).
  - assert (Hlt : (at_ < length seen)%nat) by (eapply lookup_lt_Some; exact Hat).
    assert (Hnan : best = NaN \/ best <> NaN)
      by (destruct best; [right | right | left]; congruence).
    destruct Hnan as [-> | Hb].
    + exists NaN. cbn. split; [| split].
      * apply lookup_app_l_Some. exact Hat.
      * intros j s Hj Hs. rewrite lookup_app_l in Hs by lia.
        split; [| congruence]. exact (proj1 (Hearly j s Hj Hs)).
      * congruence.
    + assert (Hstep : argmax_from (x :: rest) (length seen) best at_
                      = if fle x best
                        then argmax_from rest (S (length seen)) best at_
                        else argmax_from rest (S (length seen)) x (length seen)).
      { destruct best; [reflexivity | reflexivity | congruence]. }
      rewrite Hstep.
      replace (seen ++ x :: rest) with ((seen ++ [x]) ++ rest)
        by (rewrite <- app_assoc; reflexivity).
      replace (S (length seen)) with (length (seen ++ [x]))
        by (rewrite length_app; cbn; lia).
      destruct (fle x best) eqn:Hx.
      * apply IH. split; [| split].
        -- apply lookup_app_l_Some. exact Hat.
        -- intros j s Hj Hs. rewrite lookup_app_l in Hs by lia.
           exact (Hearly j s Hj Hs).
        -- intros _ s Hin. apply in_app_or in Hin as [Hin | [<- | []]].
           ++ apply (Hall Hb). exact Hin.
           ++ exact Hx.
      * replace (length (seen ++ [x])) with (S (length seen))
          by (rewrite length_app; cbn; lia).
        replace (S (length seen)) with (length (seen ++ [x]))
          by (rewrite length_app; cbn; lia).
        apply IH. split; [| split].
        -- rewrite lookup_app_r, Nat.sub_diag by lia. reflexivity.
        -- intros j s Hj Hs. rewrite lookup_app_l in Hs by exact Hj.
           assert (Hsb : fle s best = true).
           { apply (Hall Hb). apply list_elem_of_In.
             eapply list_elem_of_lookup_2. exact Hs. }
           split; [exact (proj1 (fle_not_nan _ _ Hsb)) |].
           intros Hxn. exact (proj1 (below_new_best x best s Hxn Hsb Hx)).
        -- intros Hxn s Hin. apply in_app_or in Hin as [Hin | [<- | []]].
           ++ apply (below_new_best x best s Hxn); [| exact Hx].
              apply (Hall Hb). exact Hin.
           ++ apply fle_refl. exact Hxn.
Qed.

(** [np.argmax] raises on an empty vector only, and otherwise returns the
    index of the first greatest entry. *)
Lemma argmax_spec (v : list pyfloat) :
  v <> [] ->
  exists k top, argmax v = Return k /\ first_greatest v k top.
Proof.
  destruct v as [| x rest]; [congruence | intros _].
  destruct (argmax_from_spec rest [x] x 0) as (top & Htop).
  - split; [reflexivity | split].
    + intros j s Hj. lia.
    + intros Hx s [<- | []]. apply fle_refl. exact Hx.
  - exists (argmax_from rest 1 x 0), top. split; [reflexivity | exact Htop].
Qed.

(** A vector has one first greatest entry. *)
Lemma first_greatest_unique (v : list pyfloat) (k k' : nat) (top top' : pyfloat) :
  first_greatest v k top -> first_greatest v k' top' -> k = k'.
Proof.
  assert (Hlt : forall k k' top top',
             first_greatest v k top -> first_greatest v k' top' ->
             (k < k')%nat -> False).
  { clear. intros k k' top top' (Hk & _ & Hall) (Hk' & Hearly' & _) Hlt.
    destruct (Hearly' k top Hlt Hk) as [Hn Hbelow].
    assert (Hin : In top' v).
    { apply list_elem_of_In. eapply list_elem_of_lookup_2. exact Hk'. }
    pose proof (Hall Hn top' Hin) as Hle.
    pose proof (fle_not_flt _ _ Hle) as Hnot.
    rewrite (Hbelow (proj1 (fle_not_nan _ _ Hle))) in Hnot. discriminate. }
  intros H H'.
  destruct (Nat.lt_trichotomy k k') as [L | [E | L]]; [| exact E |].
  - exfalso. exact (Hlt k k' top top' H H' L).
  - exfalso. exact (Hlt k' k top' top H' H L).
Qed.

(** X4.  [_process_classification] on a tensor whose first row is not empty
    returns one entry and prints one line.  The score of the entry is the
    first greatest score of the row, as [np.argmax] finds it: the first
    NaN when the row holds one, and otherwise the first of the scores
    that no score of the row exceeds; no other index of the row answers
    that description.  The box is [None]; the label is the label at the
    index of that score, or [Class n] when the index [n] is beyond the
    labels; the line printed shows the label and the score. *)
Theorem process_classification_spec (format_2f : pyfloat -> string)
    (labels : list string) (row : list pyfloat) (rest : list (list pyfloat)) :
  row <> [] ->
  exists k top label,
    _process_classification format_2f labels (row :: rest)
    = (Return [(label, top, None)],
       ["Detected: " +:+ label +:+ " (confidence: " +:+ format_2f top +:+ ")"])
    /\ first_greatest row k top
    /\ (forall k' top', first_greatest row k' top' -> k' = k)
    /\ (forall l, labels !! k = Some l -> label = l)
    /\ (labels !! k = None -> label = "Class " +:+ Py.str_of_int (Z.of_nat k)).
Proof.
  intros Hrow. destruct (argmax_spec row Hrow) as (k & top & Harg & Hfirst).
  unfold _process_classification. rewrite Harg.
  pose proof Hfirst as (Hk & _ & _). rewrite Hk.
  exists k, top. eexists. split; [reflexivity |].
  split; [exact Hfirst |]. split; [| split].
  - intros k' top' H'. exact (first_greatest_unique row k' k top' top H' Hfirst).
  - intros l ->. reflexivity.
  - intros ->. reflexivity.
Qed.

(** A row whose first score is a NaN: the NaN wins over the 1 behind
    it. *)
Lemma process_classification_spec_witness :
  exists k top label,
    _process_classification (fun _ => "nan") ["cat"; "dog"]
      [[NaN; Fin 1; Fin (7 # 10)]]
    = (Return [(label, top, None)],
       ["Detected: " +:+ label +:+ " (confidence: " +:+ "nan" +:+ ")"])
    /\ first_greatest [NaN; Fin 1; Fin (7 # 10)] k top
    /\ (forall k' top', first_greatest [NaN; Fin 1; Fin (7 # 10)] k' top' -> k' = k)
    /\ (forall l, ["cat"; "dog"] !! k = Some l -> label = l)
    /\ (["cat"; "dog"] !! k = None
        -> label = "Class " +:+ Py.str_of_int (Z.of_nat k)).
Proof.
  apply (process_classification_spec (fun _ => "nan") ["cat"; "dog"]
           [NaN; Fin 1; Fin (7 # 10)] []).
  discriminate.
Defined.

(** *** The dispatch on the shape *)

Lemma length_row_scores (rows : list (list pyfloat)) :
  (length (row_scores rows) <= length rows)%nat.
Proof.
  induction rows as [| row rest IH]; cbn; [lia |].
  destruct (row !! 4%nat); cbn; lia.
Qed.

(** The object-detection loop returns at most one entry per row. *)
Lemma process_object_detection_length
    (np_mul : pyfloat -> Z -> pyfloat) (format_2f : pyfloat -> string)
    (labels : list string) (rows : list (list pyfloat))
    (img_width img_height : Z)
    (results : list detection) (printed : list string) :
  _process_object_detection np_mul format_2f labels rows img_width img_height
  = (Return results, printed) ->
  (length results <= length rows)%nat.
Proof.
  unfold _process_object_detection. intros H.
  apply detect_rows_spec in H as (kept & -> & _ & Hscores).
  cbn [app]. rewrite <- (length_map score), Hscores.
  etransitivity; [apply length_filter | apply length_row_scores].
Qed.

(** The loop body raises nothing on a plain row whose products are
    finite. *)
Lemma detect_row_returns (np_mul : pyfloat -> Z -> pyfloat)
    (labels : list string) (img_width img_height : Z) (row : list pyfloat) :
  plain_row row ->
  products_finite np_mul img_width img_height row ->
  exists r, detect_row np_mul labels img_width img_height row = Return r.
Proof.
  intros (y0 & x0 & y1 & x1 & s & c & -> & Hc) Hfin.
  destruct (Hfin _ _ _ _ _ eq_refl) as ([p0 E0] & [p1 E1] & [p2 E2] & [p3 E3]).
  unfold detect_row, index.
  cbn -[flt half int max min getitem Py.str_of_int].
  destruct (flt (Fin s) half); [eauto |].
  cbn [int].
  assert (Hq : 0 <= Qnum c `quot` Z.pos (Qden c)) by (apply Z.quot_pos; lia).
  set (class_id := Qnum c `quot` Z.pos (Qden c)) in *.
  assert (Hl : exists l,
             (if class_id <? Z.of_nat (length labels)
              then getitem labels class_id
              else Return ("Class " +:+ Py.str_of_int class_id)) = Return l).
  { destruct (class_id <? Z.of_nat (length labels)) eqn:Hlt; [| eauto].
    apply Z.ltb_lt in Hlt. unfold getitem.
    replace (class_id <? 0) with false by (symmetry; apply Z.ltb_ge; lia).
    replace (0 <=? class_id) with true by (symmetry; apply Z.leb_le; lia).
    replace (class_id <? Z.of_nat (length labels)) with true
      by (symmetry; apply Z.ltb_lt; lia).
    cbn [andb].
    destruct (labels !! Z.to_nat class_id) eqn:E; [eauto |].
    apply lookup_ge_None in E. lia. }
  cbn [mbind outcome_bind]. destruct Hl as [l ->]. cbn [mbind outcome_bind].
  rewrite E0, E1, E2, E3.
  unfold max, min, gt, lt. cbn [to_float].
  repeat match goal with
         | |- context [flt ?a ?b] => destruct (flt a b)
         end; cbn [int mbind outcome_bind]; eauto.
Qed.

(** X5.  [_process_object_detection] raises nothing on well-formed rows,
    whatever NumPy's product is, as long as it does not overflow: when
    every row has six finite entries and a class index that is not
    negative, and the four products of a box by the image size are
    finite, the loop returns, whatever the labels are, with at most one
    entry per row. *)
Theorem object_detection_returns_on_plain_rows
    (np_mul : pyfloat -> Z -> pyfloat)
    (format_2f : pyfloat -> string) (labels : list string)
    (img_width img_height : Z) (rows : list (list pyfloat)) :
  Forall plain_row rows ->
  Forall (products_finite np_mul img_width img_height) rows ->
  exists results printed,
    _process_object_detection np_mul format_2f labels rows
                              img_width img_height
    = (Return results, printed)
    /\ (length results <= length rows)%nat.
Proof.
  intros Hrows Hfin.
  assert (H : exists results printed,
             _process_object_detection np_mul format_2f labels rows
                                       img_width img_height
             = (Return results, printed)).
  { unfold _process_object_detection.
    generalize (@nil detection) (@nil string).
    induction rows as [| row rest IH]; intros acc printed.
    - cbn. eauto.
    - apply Forall_cons in Hrows as [Hrow Hrest].
      apply Forall_cons in Hfin as [Hf Hfrest].
      cbn [detect_rows].
      destruct (detect_row_returns np_mul labels img_width img_height row Hrow Hf)
        as [r ->].
      destruct r; apply IH; assumption. }
  destruct H as (results & printed & H).
  exists results, printed. split; [exact H |].
  eapply process_object_detection_length. exact H.
Qed.

(** One row, with a product that rounds down to a whole number. *)
Lemma object_detection_returns_on_plain_rows_witness :
  exists results printed,
    _process_object_detection
      (fun x n => match exact_mul x n with
                  | Fin q => Fin (inject_Z (Qnum q / Z.pos (Qden q)))
                  | y => y
                  end)
      (fun _ => "0.90") ["person"]
      [[Fin (1 # 10); Fin (1 # 10); Fin (1 # 2); Fin (1 # 2); Fin (9 # 10); Fin 0]]
      640 480
    = (Return results, printed)
    /\ (length results <= 1)%nat.
Proof.
  apply (object_detection_returns_on_plain_rows _ (fun _ => "0.90") ["person"]
           640 480).
  - constructor; [| constructor].
    do 6 eexists. split; [reflexivity |]. cbn. lia.
  - constructor; [| constructor].
    intros y0 x0 y1 x1 rest [= <- <- <- <- <-].
    repeat split; eexists; vm_compute; reflexivity.
Defined.

(** X6.  [_process_model_output] never returns more than four entries: a
    tensor of rank 2 gives one, a tensor of rank 3 is taken for
    detections only when its second dimension is 4, and then the loop
    runs over those four rows; every other shape gives the empty list. *)
Theorem process_model_output_at_most_four
    (np_mul : pyfloat -> Z -> pyfloat) (format_2f : pyfloat -> string)
    (show_shape : list nat -> string) (labels : list string)
    (output_data : ndarray) (img_width img_height : Z)
    (results : list result) (printed : list string) :
  well_shaped output_data ->
  _process_model_output np_mul format_2f show_shape labels output_data
                        img_width img_height
  = (Return results, printed) ->
  (length results <= 4)%nat
  /\ match output_data with
     | Array2 _ _ _ => length results = 1%nat
     | Array3 _ d1 _ _ => d1 <> 4%nat -> results = []
     | ArrayN _ => results = []
     end.
Proof.
  intros Hshape H. destruct output_data as [d0 d1 rows | d0 d1 d2 mats | s];
    cbn [_process_model_output] in H.
  - assert (Hone : length results = 1%nat).
    { unfold _process_classification in H.
      destruct rows as [| row rest]; [discriminate |].
      destruct (argmax row) as [k |]; [| discriminate].
      destruct (row !! k); [| discriminate].
      injection H as <- _. reflexivity. }
    split; [lia | exact Hone].
  - destruct (d1 =? 4)%nat eqn:Hd.
    + apply Nat.eqb_eq in Hd. subst d1.
      destruct mats as [| rows rest]; [discriminate |].
      destruct Hshape as (_ & Hmats). apply Forall_cons in Hmats as [[Hrows _] _].
      destruct (_process_object_detection np_mul format_2f labels rows
                                          img_width img_height)
        as [[ds | e] out] eqn:Hdet; [| discriminate].
      injection H as <- _. rewrite length_map.
      apply process_object_detection_length in Hdet.
      split; [lia | congruence].
    + injection H as <- _. split; [cbn; lia | reflexivity].
  - injection H as <- _. split; [cbn; lia | reflexivity].
Qed.

Lemma process_model_output_at_most_four_witness :
  (length [result_of (Detection "cat" (Fin (9 # 10)) 64 48 320 240)] <= 4)%nat.
Proof.
  apply (process_model_output_at_most_four exact_mul (fun _ => "0.90")
           (fun _ => "") ["cat"]
           (Array3 1 4 6
              [[ [Fin (1 # 10); Fin (1 # 10); Fin (1 # 2); Fin (1 # 2);
                  Fin (9 # 10); Fin 0];
                 [Fin 0; Fin 0; Fin 0; Fin 0; Fin 0; Fin 0];
                 [Fin 0; Fin 0; Fin 0; Fin 0; Fin 0; Fin 0];
                 [Fin 0; Fin 0; Fin 0; Fin 0; Fin 0; Fin 0] ]])
           640 480 _ ["Detected: cat (confidence: 0.90)"]).
  - split; [reflexivity |]. repeat constructor.
  - vm_compute. reflexivity.
Defined.

(** *** The label of a detection *)

Ltac bind_step H x Hx :=
  match type of H with
  | context [mbind _ ?m] =>
      destruct m as [x | ?] eqn:Hx; cbn in H; [| discriminate]
  end.

(** X7.  The label of a detection follows the class index as Python's list
    indexing has it: [Class n] from the number of labels on, the label at
    the index below it, and, for a negative index, the label counted from
    the end of the list. *)
Theorem detection_label_rule (np_mul : pyfloat -> Z -> pyfloat)
    (labels : list string) (img_width img_height : Z)
    (row : list pyfloat) (d : detection) :
  detect_row np_mul labels img_width img_height row = Return (Some d) ->
  exists c class_id,
    row !! 5%nat = Some c
    /\ int (F c) = Return class_id
    /\ - Z.of_nat (length labels) <= class_id
    /\ (Z.of_nat (length labels) <= class_id ->
        label d = "Class " +:+ Py.str_of_int class_id)
    /\ (0 <= class_id < Z.of_nat (length labels) ->
        labels !! Z.to_nat class_id = Some (label d))
    /\ (class_id < 0 ->
        labels !! Z.to_nat (class_id + Z.of_nat (length labels))
        = Some (label d)).
Proof.
  unfold detect_row, index. intros H.
  destruct (row !! 4%nat) as [s|] eqn:H4; cbn in H; [| discriminate].
  destruct (flt s half) eqn:Hs; [discriminate |].
  destruct (row !! 5%nat) as [c|]; cbn in H; [| discriminate].
  bind_step H class_id Hc.
  bind_step H lbl Hl.
  destruct (row !! 0%nat) as [y0|]; cbn in H; [| discriminate].
  bind_step H ymin' Hymin.
  destruct (row !! 1%nat) as [x0|]; cbn in H; [| discriminate].
  bind_step H xmin' Hxmin.
  destruct (row !! 2%nat) as [y1|]; cbn in H; [| discriminate].
  bind_step H ymax' Hymax.
  destruct (row !! 3%nat) as [x1|]; cbn in H; [| discriminate].
  bind_step H xmax' Hxmax.
  injection H as <-. cbn [label].
  exists c, class_id. split; [reflexivity |]. split; [exact Hc |].
  clear Hymin Hxmin Hymax Hxmax Hc.
  set (n := Z.of_nat (length labels)) in *.
  destruct (class_id <? n) eqn:Hlt.
  - apply Z.ltb_lt in Hlt. unfold getitem in Hl. fold n in Hl.
    destruct (class_id <? 0) eqn:Hneg.
    + apply Z.ltb_lt in Hneg.
      destruct ((0 <=? class_id + n) && (class_id + n <? n)) eqn:Hin;
        [| discriminate].
      apply andb_true_iff in Hin as [H0 _]. apply Z.leb_le in H0.
      destruct (labels !! Z.to_nat (class_id + n)) eqn:E; [| discriminate].
      injection Hl as <-.
      split; [lia |]. split; [lia |]. split; [lia |]. intros _. reflexivity.
    + apply Z.ltb_ge in Hneg.
      destruct ((0 <=? class_id) && (class_id <? n)); [| discriminate].
      destruct (labels !! Z.to_nat class_id) eqn:E; [| discriminate].
      injection Hl as <-.
      split; [lia |]. split; [lia |]. split; [intros _; reflexivity | lia].
  - apply Z.ltb_ge in Hlt. injection Hl as <-.
    split; [lia |]. split; [intros _; reflexivity |]. split; lia.
Qed.

Lemma detection_label_rule_witness :
  exists c class_id,
    [Fin (1 # 10); Fin (1 # 10); Fin (1 # 2); Fin (1 # 2); Fin (9 # 10);
     Fin (-1 # 1)] !! 5%nat = Some c
    /\ int (F c) = Return class_id
    /\ - Z.of_nat (length ["cat"; "dog"]) <= class_id
    /\ (Z.of_nat (length ["cat"; "dog"]) <= class_id ->
        "dog" = "Class " +:+ Py.str_of_int class_id)
    /\ (0 <= class_id < Z.of_nat (length ["cat"; "dog"]) ->
        ["cat"; "dog"] !! Z.to_nat class_id = Some "dog")
    /\ (class_id < 0 ->
        ["cat"; "dog"] !! Z.to_nat (class_id + Z.of_nat (length ["cat"; "dog"]))
        = Some "dog").
Proof.
  apply (detection_label_rule exact_mul ["cat"; "dog"] 640 480
           [Fin (1 # 10); Fin (1 # 10); Fin (1 # 2); Fin (1 # 2); Fin (9 # 10);
            Fin (-1 # 1)]
           (Detection "dog" (Fin (9 # 10)) 64 48 320 240)).
  vm_compute. reflexivity.
Defined.

End ModelOutputFacts.

(** ** QRReader.py *)

Section QRFacts.
Import QR.
Local Open Scope list_scope.

Variable popen : list string -> spawn_result.
Variable webbrowser_open : string -> bool.

(** X8.  [force_open_url] starts at most one browser: the first of Chromium,
    Firefox and [xdg-open] whose command can be spawned, a later one being
    tried only when every earlier one is not installed.  It returns
    [True] whenever it has started one. *)
Theorem force_open_url_spec (url : string) :
  let (result, cmds) := force_open_url popen webbrowser_open url in
  (length cmds <= 1)%nat
  /\ forall cmd, In cmd cmds ->
       result = Return true
       /\ popen cmd = Spawned
       /\ (cmd = chromium_cmd url
           \/ (cmd = firefox_cmd url
               /\ popen (chromium_cmd url) = FileNotFound)
           \/ (cmd = xdg_cmd url
               /\ popen (chromium_cmd url) = FileNotFound
               /\ popen (firefox_cmd url) = FileNotFound)).
Proof.
  unfold force_open_url.
  destruct (popen (chromium_cmd url)) eqn:H1.
  - split; [cbn; lia |]. intros cmd [<- | []].
    split; [reflexivity | split; [first [exact H1 | reflexivity] | left; reflexivity]].
  - destruct (popen (firefox_cmd url)) eqn:H2.
    + split; [cbn; lia |]. intros cmd [<- | []].
      split; [reflexivity | split; [first [exact H2 | reflexivity] |]].
      right. left. split; [reflexivity | first [exact H1 | reflexivity]].
    + destruct (popen (xdg_cmd url)) eqn:H3.
      * split; [cbn; lia |]. intros cmd [<- | []].
        split; [reflexivity | split; [first [exact H3 | reflexivity] |]].
        right. right. split; [reflexivity | split; [first [exact H1 | reflexivity] | first [exact H2 | reflexivity]]].
      * split; [cbn; lia |]. intros cmd [].
      * split; [cbn; lia |]. intros cmd [].
    + split; [cbn; lia |]. intros cmd [].
  - split; [cbn; lia |]. intros cmd [].
Qed.

(** Every command [force_open_url] spawns is one of the three browser
    commands for its URL. *)
Lemma force_open_url_cmds (url : string) (cmd : list string) :
  In cmd (snd (force_open_url popen webbrowser_open url)) ->
  cmd = chromium_cmd url \/ cmd = firefox_cmd url \/ cmd = xdg_cmd url.
Proof.
  unfold force_open_url.
  destruct (popen (chromium_cmd url));
    [| destruct (popen (firefox_cmd url));
       [| destruct (popen (xdg_cmd url)) |] |];
    cbn [snd In]; intros Hin;
    repeat match goal with H : _ \/ _ |- _ => destruct H | H : False |- _ => destruct H end;
    subst; auto.
Qed.

(** [force_open_url] hands no other string than its URL to
    [webbrowser.open]. *)
Lemma force_open_url_fallback_url (url u : string) :
  In u (force_open_url_fallback popen url) -> u = url.
Proof.
  unfold force_open_url_fallback.
  destruct (popen (chromium_cmd url));
    [| destruct (popen (firefox_cmd url));
       [| destruct (popen (xdg_cmd url)) |] |];
    cbn [In]; intros Hin;
    repeat match goal with H : _ \/ _ |- _ => destruct H | H : False |- _ => destruct H end;
    subst; auto.
Qed.

(** *** What a reader keeps true *)

Lemma spaced_snoc (gap : Q) (journal : list (string * Q))
    (u u' : string) (t t' : Q) :
  spaced gap (journal ++ [(u, t)]) ->
  (u = u' -> (gap < t' - t)%Q) ->
  spaced gap ((journal ++ [(u, t)]) ++ [(u', t')]).
Proof.
  induction journal as [| [u0 t0] rest IH]; intros Hs Hgap.
  - cbn. auto.
  - destruct rest as [| [u1 t1] rest'].
    + cbn in *. destruct Hs as [H0 _]. auto.
    + change (spaced gap ((u0, t0) :: ((u1, t1) :: rest' ++ [(u, t)])
                                        ++ [(u', t')])).
      cbn [app spaced] in Hs |- *. destruct Hs as [H0 Hs].
      split; [exact H0 |]. apply IH; assumption.
Qed.

Lemma consistent_init : consistent init.
Proof.
  repeat split; cbn; auto; intros ? [].
Qed.

Lemma process_code_consistent (data : string) (now : Q) (r : reader) :
  consistent r ->
  consistent (fst (process_code popen webbrowser_open data now r)).
Proof.
  intros (Hcool & Hlast & Hspaced & Hcmds & Hweb). unfold process_code.
  destruct (is_url data) eqn:Hurl.
  2:{ cbn. repeat split; assumption. }
  destruct (differs data (last_url r)
            || negb (Qle_bool (now - last_detection_time r) (cooldown_period r)))
    eqn:Hopen.
  2:{ cbn. repeat split; assumption. }
  pose proof (force_open_url_cmds data) as Hnew.
  destruct (force_open_url popen webbrowser_open data) as [result cmds].
  cbn [snd] in Hnew.
  assert (Hgoal : consistent
            {| last_url := Some data;
               last_detection_time := now;
               cooldown_period := cooldown_period r;
               status_var := "QR Code detected! Opening: " +:+ data;
               url_var := data;
               button_requests := button_requests r ++ [true];
               opened := opened r ++ [(data, now)];
               spawned := spawned r ++ cmds;
               browsed := browsed r ++ force_open_url_fallback popen data |}).
  { split; [exact Hcool |]. split; [| split; [| split]].
    - cbn. split; [exact Hurl |]. exists (opened r). reflexivity.
    - cbn [opened].
      destruct (last_url r) as [u |] eqn:Hu.
      + destruct Hlast as (_ & earlier & Hearlier).
        rewrite Hearlier in Hspaced |- *.
        apply spaced_snoc; [exact Hspaced |].
        intros ->. unfold differs in Hopen. rewrite String.eqb_refl in Hopen.
        cbn in Hopen. apply negb_true_iff in Hopen.
        rewrite Hcool in Hopen. apply Qle_bool_false in Hopen. exact Hopen.
      + rewrite Hlast. cbn. exact I.
    - cbn [spawned]. intros cmd Hin. apply in_app_or in Hin as [Hin | Hin].
      + apply Hcmds. exact Hin.
      + exists data. split; [exact Hurl | apply Hnew; exact Hin].
    - cbn [browsed]. intros u Hin. apply in_app_or in Hin as [Hin | Hin].
      + apply Hweb. exact Hin.
      + apply force_open_url_fallback_url in Hin. subst u. exact Hurl. }
  destruct result; exact Hgoal.
Qed.

Lemma set_status_var_consistent (s : string) (r : reader) :
  consistent r -> consistent (set_status_var s r).
Proof. intros H. exact H. Qed.

Lemma process_current_frame_consistent (qr_codes : list (string * Q)) :
  forall r, consistent r ->
            consistent (_process_current_frame popen webbrowser_open qr_codes r).
Proof.
  induction qr_codes as [| [data now] rest IH]; intros r Hr; [exact Hr |].
  cbn [_process_current_frame].
  pose proof (process_code_consistent data now r Hr) as H.
  destruct (process_code popen webbrowser_open data now r) as [r' [e |]];
    cbn [fst] in H.
  - apply set_status_var_consistent. exact H.
  - apply IH. exact H.
Qed.

Lemma open_current_url_consistent (r : reader) :
  consistent r ->
  consistent (fst (_open_current_url popen webbrowser_open r)).
Proof.
  intros Hr. unfold _open_current_url.
  destruct (last_url r) as [url |] eqn:Hu; [| exact Hr].
  destruct (negb (String.eqb url "") && is_url url) eqn:Hok; [| exact Hr].
  apply andb_true_iff in Hok as [_ Hurl].
  pose proof (force_open_url_cmds url) as Hnew.
  destruct (force_open_url popen webbrowser_open url) as [result cmds].
  cbn [snd fst] in *.
  destruct Hr as (Hcool & Hlast & Hspaced & Hcmds & Hweb).
  split; [exact Hcool |]. split; [| split; [exact Hspaced | split]].
  - cbn. rewrite Hu in *. exact Hlast.
  - cbn [spawned]. intros cmd Hin. apply in_app_or in Hin as [Hin | Hin].
    + apply Hcmds. exact Hin.
    + exists url. split; [exact Hurl | apply Hnew; exact Hin].
  - cbn [browsed]. intros u Hin. apply in_app_or in Hin as [Hin | Hin].
    + apply Hweb. exact Hin.
    + apply force_open_url_fallback_url in Hin. subst u. exact Hurl.
Qed.

Lemma run_consistent (actions : list action) :
  forall r, consistent r -> consistent (run popen webbrowser_open actions r).
Proof.
  unfold run. induction actions as [| a rest IH]; intros r Hr; [exact Hr |].
  cbn [fold_left]. apply IH. destruct a as [qr_codes |]; cbn [act].
  - apply process_current_frame_consistent. exact Hr.
  - apply open_current_url_consistent. exact Hr.
Qed.

(** X9.  Whatever frames are processed and however often the button is
    pressed, the reader never opens the same URL for two detections in a
    row less than five seconds apart: in the journal of the openings made
    for detected codes, two consecutive openings of one URL are more than
    five seconds apart. *)
Theorem detections_are_debounced (actions : list action) :
  spaced 5 (opened (run popen webbrowser_open actions init)).
Proof. apply (run_consistent actions init consistent_init). Qed.

(** X10.  Whatever frames are processed and however often the button is
    pressed, a browser is only ever started on data that begins with
    [http://] or [https://]: every browser command that [force_open_url]
    has spawned is one of its three commands for such a URL, and every
    string it has handed to [webbrowser.open] is such a URL. *)
Theorem only_urls_are_opened (actions : list action) :
  (forall cmd,
      In cmd (spawned (run popen webbrowser_open actions init)) ->
      exists url,
        is_url url = true
        /\ (cmd = chromium_cmd url \/ cmd = firefox_cmd url \/ cmd = xdg_cmd url))
  /\ (forall url,
        In url (browsed (run popen webbrowser_open actions init)) ->
        is_url url = true).
Proof.
  destruct (run_consistent actions init consistent_init) as (_ & _ & _ & H).
  exact H.
Qed.

(** X11.  Whatever frames are processed and however often the button is
    pressed, the URL the button would open is the one of the last opening
    made for a detected code, and there is none exactly when no code was
    ever opened. *)
Theorem last_url_is_last_opening (actions : list action) :
  match last_url (run popen webbrowser_open actions init) with
  | None => opened (run popen webbrowser_open actions init) = []
  | Some u =>
      is_url u = true
      /\ exists earlier,
          opened (run popen webbrowser_open actions init)
          = earlier ++ [(u, last_detection_time
                              (run popen webbrowser_open actions init))]
  end.
Proof. apply (run_consistent actions init consistent_init). Qed.

End QRFacts.

Section QRWitnesses.
Import QR.

(** *** The size of the display *)

(** The integer part of a rational that lies between [n] and [n + 1]. *)
Lemma int_between (q : Q) (n : Z) :
  0 <= n -> (inject_Z n <= q)%Q -> (q < inject_Z (n + 1))%Q ->
  Detection.int (Detection.F (Detection.Fin q)) = Detection.Return n.
Proof.
  intros Hn Hlow Hhigh. cbn [Detection.int]. f_equal.
  unfold Qle, Qlt in *. cbn in Hlow, Hhigh.
  rewrite Z.quot_div_nonneg by nia.
  symmetry. apply Z.div_unique with (r := Qnum q - n * Z.pos (Qden q)); nia.
Qed.

(** X12.  The display size.  A zero width is a [ZeroDivisionError].  For
    sizes below 2^53, on which the division of the two integers is
    correctly rounded, and a positive width: the display is never wider
    than 800 nor than the camera image, it keeps the aspect ratio up to
    the truncation of the height, and it is the camera size itself when
    the width is at most 800. *)
Theorem display_size_spec (truediv : Z -> Z -> Detection.pyfloat)
    (width height : Z) :
  (width = 0 -> display_size truediv width height = Raise "ZeroDivisionError")
  /\ (correctly_rounded truediv ->
      0 < width < 2 ^ 53 -> 0 <= height -> Z.min width 800 * height < 2 ^ 53 ->
      exists dw dh,
        display_size truediv width height = Return (dw, dh)
        /\ dw <= 800 /\ 0 < dw <= width
        /\ 0 <= dh <= height
        /\ dh * width <= dw * height < (dh + 1) * width
        /\ (width <= 800 -> dw = width /\ dh = height)).
Proof.
  unfold display_size. split.
  - intros ->. reflexivity.
  - intros Hdiv Hw Hh Hsize.
    replace (width =? 0) with false by (symmetry; apply Z.eqb_neq; lia).
    set (dw := Z.min width 800) in *.
    assert (Hdw : 0 < dw <= width /\ dw <= 800) by (subst dw; lia).
    set (a := dw * height) in *.
    assert (Ha : 0 <= a) by (subst a; nia).
    set (n := a / width).
    pose proof (Z.mul_div_le a width ltac:(lia)) as Hlow.
    pose proof (Z.mul_succ_div_gt a width ltac:(lia)) as Hhigh.
    fold n in Hlow, Hhigh.
    assert (Hnn : 0 <= n) by (subst n; apply Z.div_pos; lia).
    destruct (Hdiv a width ltac:(lia) ltac:(lia)) as (q & -> & Hexact & Herr).
    set (pb := Z.to_pos width) in *.
    assert (Hpb : Z.pos pb = width) by (subst pb; apply Z2Pos.id; lia).
    assert (Hint : Detection.int (Detection.F (Detection.Fin q))
                   = Detection.Return n).
    { apply int_between; [exact Hnn | |].
      - destruct (Z.eq_dec a (n * width)) as [E | E].
        + rewrite (Hexact n E). apply Qle_refl.
        + assert (F1 : ((a # pb) * (1 # 2 ^ 53) <= 1 # pb)%Q).
          { unfold Qle, Qmult. cbn. nia. }
          assert (F2 : (inject_Z n + (1 # pb) <= a # pb)%Q).
          { unfold Qle, Qplus, inject_Z. cbn. rewrite Hpb. nia. }
          apply Qabs_Qle_condition in Herr as [Herr _].
          revert F1 F2 Herr.
          generalize ((a # pb) * (1 # 2 ^ 53))%Q (a # pb) (1 # pb) (inject_Z n).
          intros e x u m F1 F2 Herr. lra.
      - assert (F1 : ((a # pb) * (1 # 2 ^ 53) < 1 # pb)%Q).
        { unfold Qlt, Qmult. cbn. nia. }
        assert (F3 : ((a # pb) + (1 # pb) <= inject_Z n + 1)%Q).
        { unfold Qle, Qplus, inject_Z. cbn. rewrite Hpb. nia. }
        apply Qabs_Qle_condition in Herr as [_ Herr].
        rewrite inject_Z_plus. change (inject_Z 1) with 1%Q.
        revert F1 F3 Herr.
        generalize ((a # pb) * (1 # 2 ^ 53))%Q (a # pb) (1 # pb) (inject_Z n).
        intros e x u m F1 F3 Herr. lra. }
    rewrite Hint. exists dw, n. split; [reflexivity |].
    assert (Hle : n <= height).
    { subst n a. apply Z.div_le_upper_bound; [lia | nia]. }
    assert (Hsmall : width <= 800 -> dw = width /\ n = height).
    { intros Hs. assert (Hdwe : dw = width) by (subst dw; lia).
      split; [exact Hdwe |]. subst n a. rewrite Hdwe, Z.mul_comm.
      apply Z.div_mul. lia. }
    split; [lia |]. split; [lia |]. split; [lia |]. split; [subst a; lia |].
    exact Hsmall.
Qed.

(** The division without rounding is correctly rounded. *)
Lemma exact_div_correctly_rounded : correctly_rounded exact_div.
Proof.
  intros a b Ha Hb. exists (Qred (a # Z.to_pos b)). split; [reflexivity |].
  split.
  - intros n E. rewrite Qred_correct. unfold Qeq, inject_Z. cbn.
    rewrite Z2Pos.id by lia. lia.
  - rewrite Qred_correct. apply Qabs_Qle_condition.
    assert (H : (0 <= (a # Z.to_pos b) * (1 # 2 ^ 53))%Q).
    { unfold Qle, Qmult. cbn. nia. }
    revert H. generalize ((a # Z.to_pos b) * (1 # 2 ^ 53))%Q (a # Z.to_pos b).
    intros e x H. split; lra.
Qed.

Lemma display_size_spec_witness :
  exists dw dh,
    display_size exact_div 1280 720 = Return (dw, dh)
    /\ dw <= 800 /\ 0 < dw <= 1280
    /\ 0 <= dh <= 720
    /\ dh * 1280 <= dw * 720 < (dh + 1) * 1280
    /\ (1280 <= 800 -> dw = 1280 /\ dh = 720).
Proof.
  destruct (display_size_spec exact_div 1280 720) as (_ & H).
  apply H; [exact exact_div_correctly_rounded | lia | lia | vm_compute; reflexivity].
Defined.

End QRWitnesses.

(** ** AIvisionGUI.py: what every step preserves *)

Section SupervisionFacts.
Import Gui Supervision.
Local Open Scope list_scope.

Variable os : osenv.

Lemma evolves_refl (w : world) : evolves w w.
Proof.
  split; [lia |]. split; [eauto |]. split; [auto |]. auto.
Qed.

Lemma evolves_trans (w1 w2 w3 : world) :
  evolves w1 w2 -> evolves w2 w3 -> evolves w1 w3.
Proof.
  intros (L1 & C1 & E1 & H1) (L2 & C2 & E2 & H2).
  split; [lia |]. split; [| split].
  - intros p pr Hp. destruct (C1 p pr Hp) as (pr' & Hp' & Hc').
    destruct (C2 p pr' Hp') as (pr'' & Hp'' & Hc''). exists pr''.
    split; [exact Hp'' | congruence].
  - auto.
  - intros k p Hk. destruct (H2 k p Hk) as [Hold | Hnew].
    + destruct (H1 k p Hold) as [Hold' | Hnew']; [left; exact Hold' | right; lia].
    + right. lia.
Qed.

(** A change of fields other than the slots and the table. *)
Lemma evolves_same (w w' : world) :
  procs w' = procs w ->
  (forall k, slot_handle k w' = slot_handle k w) ->
  evolves w w'.
Proof.
  intros Hp Hh. unfold evolves, exited, status_of. rewrite Hp.
  split; [lia |]. split; [eauto |]. split; [auto |].
  intros k p Hk. left. rewrite <- Hh. exact Hk.
Qed.

(** A slot is emptied. *)
Lemma evolves_drop (w w' : world) :
  procs w' = procs w ->
  (forall k p, slot_handle k w' = Some p -> slot_handle k w = Some p) ->
  evolves w w'.
Proof.
  intros Hp Hh. unfold evolves, exited, status_of. rewrite Hp.
  split; [lia |]. split; [eauto |]. split; [auto |].
  intros k p Hk. left. apply Hh. exact Hk.
Qed.

Lemma evolves_print (line : string) (w : world) : evolves w (print line w).
Proof.
  apply evolves_same; unfold print; destruct (sys_stdout w);
    try reflexivity; intros [| []]; reflexivity.
Qed.

(** The status of a process that has not exited changes. *)
Lemma evolves_set_status (p : pid) (s : pstatus) (w : world) :
  (forall code, ~ exited p code w) -> evolves w (set_status p s w).
Proof.
  intros Hlive. unfold set_status.
  destruct (procs w !! p) as [pr0 |] eqn:Hp0; [| apply evolves_refl].
  unfold evolves, exited, status_of. cbn [procs set_procs].
  rewrite length_insert. split; [lia |]. split; [| split].
  - intros q pr Hq. destruct (decide (p = q)) as [<- | Hne].
    + rewrite list_lookup_insert_eq by (eapply lookup_lt_Some; eauto).
      eexists. split; [reflexivity |]. cbn.
      pose proof (eq_trans (eq_sym Hp0) Hq) as E. injection E as <-. reflexivity.
    + rewrite list_lookup_insert_ne by exact Hne. eauto.
  - intros q code Hq. destruct (decide (p = q)) as [<- | Hne].
    + exfalso. apply (Hlive code). exact Hq.
    + rewrite list_lookup_insert_ne by exact Hne. exact Hq.
  - intros k q Hk. left. destruct k as [| []]; exact Hk.
Qed.

Lemma evolves_terminate (p : pid) (w : world) : evolves w (terminate p w).
Proof.
  unfold terminate. destruct (status_of p w) as [[] |] eqn:Hs;
    try apply evolves_refl.
  apply evolves_set_status. intros code H. unfold exited in H. congruence.
Qed.

Lemma evolves_kill (p : pid) (w : world) : evolves w (kill p w).
Proof.
  unfold kill. destruct (status_of p w) as [[] |] eqn:Hs;
    try apply evolves_refl;
    apply evolves_set_status; intros code H; unfold exited in H; congruence.
Qed.

Lemma evolves_wait_timeout (p : pid) (w : world) :
  evolves w (fst (wait_timeout os p w)).
Proof.
  unfold wait_timeout. destruct (procs w !! p) as [pr |] eqn:Hp;
    [| apply evolves_refl].
  destruct (p_status pr) eqn:Hs; try apply evolves_refl.
  - destruct (exits_on_term os (p_cmd pr)); [| apply evolves_refl].
    apply evolves_set_status. intros code H.
    unfold exited, status_of in H. rewrite Hp in H. cbn in H. congruence.
  - apply evolves_set_status. intros code H.
    unfold exited, status_of in H. rewrite Hp in H. cbn in H. congruence.
Qed.

Lemma evolves_stop_camera (w : world) : evolves w (stop_camera w).
Proof.
  unfold stop_camera. destruct (process w) as [p |] eqn:Hp;
    [| apply evolves_refl].
  destruct (camera_running w); [| apply evolves_refl].
  eapply evolves_trans; [apply (evolves_terminate p) |].
  eapply evolves_trans; [| apply evolves_print].
  apply evolves_drop; [reflexivity |].
  intros [| []] q Hq; cbn in Hq |- *; [discriminate | exact Hq | exact Hq].
Qed.

Lemma evolves_stop_tool (t : tool) (w : world) : evolves w (stop_tool os t w).
Proof.
  unfold stop_tool. destruct (handle t w) as [p |] eqn:Hp;
    [| apply evolves_refl].
  set (w1 := terminate p (print ("Stopping " +:+ long_name t +:+ "...") w)).
  assert (H1 : evolves w w1).
  { eapply evolves_trans; [apply evolves_print | apply evolves_terminate]. }
  pose proof (evolves_wait_timeout p w1) as H2.
  destruct (wait_timeout os p w1) as [w2 timed_out]. cbn [fst] in H2.
  set (w3 := if timed_out then kill p w2 else w2).
  assert (H3 : evolves w w3).
  { eapply evolves_trans; [exact H1 |]. eapply evolves_trans; [exact H2 |].
    subst w3. destruct timed_out; [apply evolves_kill | apply evolves_refl]. }
  eapply evolves_trans; [exact H3 |].
  apply evolves_drop; [destruct t; reflexivity |].
  intros [| []] q Hq; destruct t; cbn in Hq |- *;
    first [discriminate | exact Hq].
Qed.

(** A process is spawned and its handle put into a slot (or nowhere). *)
Lemma evolves_spawn (cmd : list string) (w w' : world) :
  procs w' = procs w ++ [Proc cmd Alive []] ->
  (forall k p, slot_handle k w' = Some p ->
               slot_handle k w = Some p \/ p = length (procs w)) ->
  evolves w w'.
Proof.
  intros Hp Hh. unfold evolves, exited, status_of. rewrite Hp, length_app.
  cbn [length]. split; [lia |]. split; [| split].
  - intros q pr Hq. exists pr. split; [| reflexivity].
    apply lookup_app_l_Some. exact Hq.
  - intros q code Hq.
    destruct (procs w !! q) as [pr |] eqn:E; [| discriminate].
    rewrite (lookup_app_l_Some _ _ _ _ E). exact Hq.
  - intros k q Hk. destruct (Hh k q Hk) as [Hold | ->]; [left; exact Hold |].
    right. lia.
Qed.

Lemma evolves_prepared (t : tool) (w : world) : evolves w (prepared os t w).
Proof.
  unfold prepared.
  set (w1 := if camera_running w then stop_camera w else w).
  assert (H1 : evolves w w1).
  { subst w1. destruct (camera_running w);
      [apply evolves_stop_camera | apply evolves_refl]. }
  set (w2 := match handle (other t) w1 with
             | Some _ => stop_tool os (other t) w1
             | None => w1
             end).
  assert (H2 : evolves w w2).
  { eapply evolves_trans; [exact H1 |]. subst w2.
    destruct (handle (other t) w1);
      [apply evolves_stop_tool | apply evolves_refl]. }
  eapply evolves_trans; [exact H2 |].
  eapply evolves_trans; [| apply evolves_print].
  apply evolves_same; [destruct t; reflexivity |].
  intros [| []]; destruct t; reflexivity.
Qed.

Lemma evolves_start_tool (t : tool) (w : world) : evolves w (start_tool os t w).
Proof.
  destruct (handle t w) as [p |] eqn:Hh.
  { unfold start_tool. rewrite Hh. apply evolves_refl. }
  rewrite (start_tool_unfold os t w Hh).
  eapply evolves_trans; [apply evolves_prepared |].
  set (w3 := prepared os t w).
  destruct (spawn_error os (tool_cmd os t)) as [e |].
  - eapply evolves_trans;
      [apply (evolves_print ("Error starting " +:+ long_name t +:+ ": " +:+ e)) |].
    apply evolves_drop; [destruct t; reflexivity |].
    intros [| []] q Hq; destruct t; cbn in Hq |- *;
      first [discriminate | exact Hq].
  - apply (evolves_spawn (tool_cmd os t)).
    + unfold print, start_thread. destruct t; cbn;
        destruct (sys_stdout w3); reflexivity.
    + intros k q Hq. unfold print, start_thread in Hq.
      destruct t, k as [| []]; cbn in Hq; destruct (sys_stdout w3);
        cbn in Hq;
        first [left; exact Hq | right; injection Hq as <-; reflexivity].
Qed.

Lemma evolves_start_camera (w : world) : evolves w (start_camera os w).
Proof.
  unfold start_camera. destruct (camera_running w); [apply evolves_refl |].
  set (w1 := match qr_reader_process w with
             | Some _ => stop_qr_reader os w
             | None => w
             end).
  assert (H1 : evolves w w1).
  { subst w1. destruct (qr_reader_process w);
      [apply evolves_stop_tool | apply evolves_refl]. }
  set (w2 := match model_ai_process w1 with
             | Some _ => stop_model_ai os w1
             | None => w1
             end).
  assert (H2 : evolves w w2).
  { eapply evolves_trans; [exact H1 |]. subst w2.
    destruct (model_ai_process w1);
      [apply evolves_stop_tool | apply evolves_refl]. }
  eapply evolves_trans; [exact H2 |].
  apply evolves_same; [reflexivity | intros [| []]; reflexivity].
Qed.

Lemma evolves_close_application (w : world) :
  evolves w (close_application os w).
Proof.
  unfold close_application.
  set (w1 := if camera_running w then stop_camera w else w).
  assert (H1 : evolves w w1).
  { subst w1. destruct (camera_running w);
      [apply evolves_stop_camera | apply evolves_refl]. }
  set (w2 := match qr_reader_process w1 with
             | Some _ => stop_qr_reader os w1
             | None => w1
             end).
  assert (H2 : evolves w w2).
  { eapply evolves_trans; [exact H1 |]. subst w2.
    destruct (qr_reader_process w1);
      [apply evolves_stop_tool | apply evolves_refl]. }
  set (w3 := match model_ai_process w2 with
             | Some _ => stop_model_ai os w2
             | None => w2
             end).
  assert (H3 : evolves w w3).
  { eapply evolves_trans; [exact H2 |]. subst w3.
    destruct (model_ai_process w2);
      [apply evolves_stop_tool | apply evolves_refl]. }
  eapply evolves_trans; [exact H3 |].
  apply evolves_same; [reflexivity | intros [| []]; reflexivity].
Qed.

Lemma evolves_run_callback (cb : callback) (w : world) :
  evolves w (run_callback cb w).
Proof.
  destruct cb as [| t]; cbn [run_callback].
  - apply evolves_drop; [reflexivity |].
    intros [| []] q Hq; cbn in Hq |- *; first [discriminate | exact Hq].
  - unfold _tool_stopped. eapply evolves_trans; [| apply evolves_print].
    apply evolves_drop; [destruct t; reflexivity |].
    intros [| []] q Hq; destruct t; cbn in Hq |- *;
      first [discriminate | exact Hq].
Qed.

Lemma evolves_camera_launch (i : nat) (w : world) :
  evolves w (camera_launch os i w).
Proof.
  unfold camera_launch, Popen.
  set (w1 := print ("Command: " +:+ Py.join " " camera_cmd)
               (print "Starting AI camera with object detection..."
                  (set_sys_stdout Console w))).
  assert (H1 : evolves w w1).
  { subst w1. eapply evolves_trans; [| apply evolves_print].
    eapply evolves_trans; [| apply evolves_print].
    apply evolves_same; [reflexivity | intros [| []]; reflexivity]. }
  eapply evolves_trans; [exact H1 |].
  destruct (spawn_error os camera_cmd) as [e |].
  - eapply evolves_trans;
      [apply (evolves_print ("Error running camera: " +:+ e)) |].
    apply evolves_same; [reflexivity | intros [| []]; reflexivity].
  - apply (evolves_spawn camera_cmd); [reflexivity |].
    intros [| []] q Hq; cbn in Hq;
      first [left; exact Hq | right; injection Hq as <-; reflexivity].
Qed.

(** The pipe of a process changes. *)
Lemma evolves_set_stdout (p : pid) (pr : proc) (out : list chunk) (w : world) :
  procs w !! p = Some pr ->
  evolves w (set_procs (<[p := Proc (p_cmd pr) (p_status pr) out]> (procs w)) w).
Proof.
  intros Hp. unfold evolves, exited, status_of. cbn [procs set_procs].
  rewrite length_insert. split; [lia |]. split; [| split].
  - intros q pr0 Hq. destruct (decide (p = q)) as [<- | Hne].
    + rewrite list_lookup_insert_eq by (eapply lookup_lt_Some; eauto).
      eexists. split; [reflexivity |]. cbn.
      pose proof (eq_trans (eq_sym Hp) Hq) as E. injection E as <-.
      reflexivity.
    + rewrite list_lookup_insert_ne by exact Hne. eauto.
  - intros q code Hq. destruct (decide (p = q)) as [<- | Hne].
    + rewrite list_lookup_insert_eq by (eapply lookup_lt_Some; eauto).
      unfold pid in *. rewrite Hp in Hq. exact Hq.
    + rewrite list_lookup_insert_ne by exact Hne. exact Hq.
  - intros k q Hk. left. destruct k as [| []]; exact Hk.
Qed.

Lemma evolves_reader_exit (t : tool) (i : nat) (w : world) :
  evolves w (reader_exit t i w).
Proof.
  unfold reader_exit.
  destruct (handle t w) as [p |]; [destruct (poll p w) |];
    (apply evolves_same; [reflexivity | intros [| []]; reflexivity]).
Qed.

Lemma evolves_reader_loop (t : tool) (i : nat) (w : world) :
  evolves w (reader_loop t i w).
Proof.
  unfold reader_loop. destruct (handle t w) as [p |];
    [| apply evolves_reader_exit].
  apply evolves_same; [reflexivity | intros [| []]; reflexivity].
Qed.

Lemma evolves_readline (p : pid) (w w1 : world) (r : read) :
  readline p w = Some (w1, r) -> evolves w w1.
Proof.
  unfold readline. destruct (procs w !! p) as [pr |] eqn:Hp; [| discriminate].
  destruct (p_stdout pr) as [| [line |] rest].
  - destruct (p_status pr); try discriminate. intros [= <- _]. apply evolves_refl.
  - intros [= <- _]. apply evolves_set_stdout. exact Hp.
  - intros [= <- _]. apply evolves_set_stdout. exact Hp.
Qed.

Lemma evolves_reader_turn (t : tool) (i : nat) (p : pid) (w w' : world) :
  reader_turn t i p w = Some w' -> evolves w w'.
Proof.
  unfold reader_turn.
  destruct (readline p w) as [[w1 [line |]] |] eqn:Hread; [| | discriminate];
    apply evolves_readline in Hread.
  - destruct (String.eqb line "").
    + destruct (handle t w1) as [q |]; [destruct (poll q w1) |];
        intros [= <-];
        (eapply evolves_trans; [exact Hread |]);
        first [apply evolves_reader_exit | apply evolves_reader_loop].
    + intros [= <-]. eapply evolves_trans; [exact Hread |].
      eapply evolves_trans; [apply evolves_print | apply evolves_reader_loop].
  - intros [= <-]. eapply evolves_trans; [exact Hread | apply evolves_reader_exit].
Qed.

Lemma evolves_thread_step (i : nat) (w w' : world) :
  thread_step os i w = Some w' -> evolves w w'.
Proof.
  unfold thread_step.
  destruct (threads w !! i) as [[| p | t | t p |] |]; try discriminate.
  - intros [= <-]. apply evolves_camera_launch.
  - unfold camera_waited. destruct (poll p w); [| discriminate].
    intros [= <-]. apply evolves_same; [reflexivity | intros [| []]; reflexivity].
  - intros [= <-]. apply evolves_reader_loop.
  - apply evolves_reader_turn.
Qed.

(** Every step of the system leads to a later world. *)
Lemma step_evolves (e : event) (w w' : world) :
  step os e w = Some w' -> evolves w w'.
Proof.
  destruct e as [| | | | | i | p line | p | p code]; cbn [step];
    try (destruct (destroyed w); [discriminate |]).
  - intros [= <-]. unfold toggle_model_ai, toggle_tool.
    destruct (handle ModelAI w); [apply evolves_stop_tool | apply evolves_start_tool].
  - intros [= <-]. unfold toggle_qr_reader, toggle_tool.
    destruct (handle QRReader w); [apply evolves_stop_tool | apply evolves_start_tool].
  - intros [= <-]. unfold toggle_camera.
    destruct (camera_running w); [apply evolves_stop_camera | apply evolves_start_camera].
  - intros [= <-]. apply evolves_close_application.
  - destruct (after_queue w) as [| cb rest]; [discriminate |].
    intros [= <-]. eapply evolves_trans; [| apply evolves_run_callback].
    apply evolves_same; [reflexivity | intros [| []]; reflexivity].
  - apply evolves_thread_step.
  - destruct (procs w !! p) as [pr |] eqn:Hp; [| discriminate].
    destruct (is_alive p w && negb (String.eqb line "")); [| discriminate].
    intros [= <-]. apply evolves_set_stdout. exact Hp.
  - destruct (procs w !! p) as [pr |] eqn:Hp; [| discriminate].
    destruct (is_alive p w); [| discriminate].
    intros [= <-]. apply evolves_set_stdout. exact Hp.
  - destruct (status_of p w) as [[| | | c0] |] eqn:Hs; try discriminate;
      [| | destruct (code =? -9); [| discriminate]];
      intros [= <-]; apply evolves_set_status;
      intros c H; unfold exited in H; congruence.
Qed.

Lemma run_evolves (trace : list event) :
  forall w w', run os trace w = Some w' -> evolves w w'.
Proof.
  induction trace as [| e rest IH]; intros w w' H; cbn [run] in H.
  - injection H as <-. apply evolves_refl.
  - destruct (step os e w) as [w1 |] eqn:Hstep; [| discriminate].
    eapply evolves_trans; [eapply step_evolves; exact Hstep | apply IH; exact H].
Qed.

(** X13.  A return code is final: once a process has exited, no event
    whatever, neither a signal sent by a stop nor anything else, changes
    its status or its return code. *)
Theorem exit_is_final (trace : list event) (w w' : world) (p : pid) (code : Z) :
  run os trace w = Some w' ->
  poll p w = Some code ->
  poll p w' = Some code.
Proof.
  intros Hrun Hpoll. apply run_evolves in Hrun as (_ & _ & Hex & _).
  assert (H : exited p code w).
  { unfold exited. unfold poll in Hpoll.
    destruct (status_of p w) as [[] |]; congruence. }
  apply Hex in H. unfold poll. rewrite H. reflexivity.
Qed.

(** X15.  In every state the system can reach, each handle held by a slot is a
    process of the table. *)
Theorem handles_are_valid (w : world) :
  reachable os w -> valid_handles w.
Proof.
  intros [trace Hrun]. apply run_evolves in Hrun as (Hlen & _ & _ & Hh).
  intros k p Hk. destruct (Hh k p Hk) as [Hold | Hnew]; [| lia].
  destruct k as [| []]; discriminate.
Qed.

End SupervisionFacts.

(** ** AIvisionGUI.py: how the operations compose *)

Section CompositionFacts.
Import Gui Supervision.
Local Open Scope list_scope.

Variable os : osenv.

(** The handle of a tool through the setters of other fields. *)
Lemma handle_set_status_label (t : tool) (s : string) (w : world) :
  handle t (set_status_label s w) = handle t w.
Proof. destruct t; reflexivity. Qed.

Lemma handle_set_button (t t' : tool) (s : string) (w : world) :
  handle t (set_button t' s w) = handle t w.
Proof. destruct t, t'; reflexivity. Qed.

Lemma handle_clear_console (t : tool) (w : world) :
  handle t (clear_console w) = handle t w.
Proof. destruct t; reflexivity. Qed.

Lemma handle_start_thread (t : tool) (th : thread) (w : world) :
  handle t (start_thread th w) = handle t w.
Proof. destruct t; reflexivity. Qed.

Lemma handle_set_procs (t : tool) (ps : list proc) (w : world) :
  handle t (set_procs ps w) = handle t w.
Proof. destruct t; reflexivity. Qed.

Lemma handle_set_handle_other (t : tool) (v : option pid) (w : world) :
  handle (other t) (set_handle t v w) = handle (other t) w.
Proof. destruct t; reflexivity. Qed.

Lemma handle_print (t : tool) (line : string) (w : world) :
  handle t (print line w) = handle t w.
Proof. apply print_keeps. Qed.

(** [stop_camera] leaves the handles of the two tools alone. *)
Lemma handle_stop_camera (t : tool) (w : world) :
  handle t (stop_camera w) = handle t w.
Proof.
  unfold stop_camera. destruct (process w) as [p |]; [| reflexivity].
  destruct (camera_running w); [| reflexivity].
  destruct (terminate_frame p w) as (ps & -> & _).
  unfold print. cbn. destruct (sys_stdout w); destruct t; reflexivity.
Qed.

(** [stop_model_ai] / [stop_qr_reader] empty their own slot and leave the
    other one alone. *)
Lemma handle_stop_tool (t t' : tool) (w : world) :
  handle t' (stop_tool os t w) = if decide (t = t') then None else handle t' w.
Proof.
  destruct (handle t w) as [p |] eqn:Hh.
  - destruct (stop_tool_shape os t p w Hh) as (ps & _ & -> & _).
    unfold print. destruct (sys_stdout w); destruct t, t'; reflexivity.
  - rewrite (stop_tool_idle os t w Hh).
    destruct (decide (t = t')) as [<- | _]; [exact Hh | reflexivity].
Qed.

(** *** Processes that were put down *)

Lemma put_down_status (q : pid) (w w' : world) :
  status_of q w' = status_of q w -> put_down q w -> put_down q w'.
Proof. unfold put_down. intros ->. auto. Qed.

Lemma put_down_set_status (p q : pid) (s : pstatus) (w : world) :
  put_down q w ->
  (p = q -> s = Killed \/ exists code, s = Exited code) ->
  put_down q (set_status p s w).
Proof.
  intros Hq Hs. destruct (decide (p = q)) as [<- | Hne].
  - unfold put_down.
    rewrite status_of_set_status_eq
      by (destruct Hq as [H | [c H]]; rewrite H; eauto).
    destruct (Hs eq_refl) as [-> | [c ->]]; eauto.
  - eapply put_down_status; [| exact Hq].
    apply status_of_set_status_ne. exact Hne.
Qed.

Lemma put_down_not (q : pid) (s : pstatus) (w : world) :
  put_down q w -> status_of q w = Some s -> s <> Alive /\ s <> Terminating.
Proof.
  intros [H | [c H]] Hs; rewrite H in Hs; injection Hs as <-;
    split; discriminate.
Qed.

Lemma put_down_terminate (p q : pid) (w : world) :
  put_down q w -> put_down q (terminate p w).
Proof.
  intros Hq. unfold terminate.
  destruct (status_of p w) as [[] |] eqn:Hs; try exact Hq.
  apply put_down_set_status; [exact Hq |]. intros <-.
  destruct (put_down_not p Alive w Hq Hs) as [H _]. congruence.
Qed.

Lemma put_down_kill (p q : pid) (w : world) :
  put_down q w -> put_down q (kill p w).
Proof.
  intros Hq. unfold kill.
  destruct (status_of p w) as [[] |] eqn:Hs; try exact Hq;
    (apply put_down_set_status; [exact Hq |]; intros _; left; reflexivity).
Qed.

Lemma put_down_wait_timeout (p q : pid) (w : world) :
  put_down q w -> put_down q (fst (wait_timeout os p w)).
Proof.
  intros Hq. unfold wait_timeout.
  destruct (procs w !! p) as [pr |]; [| exact Hq].
  destruct (p_status pr); try exact Hq.
  - destruct (exits_on_term os (p_cmd pr)); [| exact Hq].
    apply put_down_set_status; [exact Hq | eauto].
  - apply put_down_set_status; [exact Hq | eauto].
Qed.

(** The stop of a tool leaves the processes that were put down as they
    are, or lets them go. *)
Lemma put_down_stop_tool (t : tool) (q : pid) (w : world) :
  put_down q w -> put_down q (stop_tool os t w).
Proof.
  intros Hq. unfold stop_tool. destruct (handle t w) as [p |]; [| exact Hq].
  set (w0 := print ("Stopping " +:+ long_name t +:+ "...") w).
  assert (H0 : put_down q w0).
  { eapply put_down_status; [| exact Hq].
    subst w0. unfold print. destruct (sys_stdout w); reflexivity. }
  pose proof (put_down_wait_timeout p q _ (put_down_terminate p q w0 H0)) as H2.
  destruct (wait_timeout os p (terminate p w0)) as [w2 timed_out].
  cbn [fst] in H2.
  assert (H3 : put_down q (if timed_out then kill p w2 else w2)).
  { destruct timed_out; [apply put_down_kill |]; exact H2. }
  eapply put_down_status; [| exact H3]. destruct t; reflexivity.
Qed.

(** After [stop_model_ai] / [stop_qr_reader], the process the slot held
    has exited or has been sent SIGKILL. *)
Lemma stop_tool_put_down (t : tool) (p : pid) (w : world) :
  handle t w = Some p ->
  (p < length (procs w))%nat ->
  put_down p (stop_tool os t w).
Proof.
  intros Hh Hp. destruct (stop_tool_shape os t p w Hh) as (ps & Hlen & Heq & Hdown).
  eapply put_down_status; [| apply Hdown].
  - rewrite Heq. unfold print. destruct (sys_stdout w); destruct t; reflexivity.
  - unfold status_of. destruct (procs w !! p) as [pr |] eqn:E; [cbn; eauto |].
    apply lookup_ge_None in E. lia.
Qed.

(** A process that runs when its tool is stopped: it has exited with its
    own return code when it reacts to SIGTERM in time; otherwise it has
    been sent SIGKILL. *)
Lemma stop_tool_running (t : tool) (p : pid) (cmd : list string)
    (out : list chunk) (w : world) :
  handle t w = Some p ->
  procs w !! p = Some (Proc cmd Alive out) ->
  status_of p (stop_tool os t w)
  = Some (match exits_on_term os cmd with
          | Some code => Exited code
          | None => Killed
          end).
Proof.
  intros Hh Hp. unfold stop_tool. rewrite Hh.
  set (w0 := print ("Stopping " +:+ long_name t +:+ "...") w).
  assert (Hp0 : procs w0 !! p = Some (Proc cmd Alive out)).
  { subst w0. unfold print. destruct (sys_stdout w); exact Hp. }
  assert (Hlt : (p < length (procs w0))%nat) by (eapply lookup_lt_Some; eauto).
  assert (Ht : terminate p w0
               = set_procs (<[p := Proc cmd Terminating out]> (procs w0)) w0).
  { unfold terminate, status_of, set_status. rewrite Hp0. reflexivity. }
  rewrite Ht. unfold wait_timeout. cbn [procs set_procs].
  rewrite list_lookup_insert_eq by exact Hlt. cbn [p_status p_cmd].
  destruct (exits_on_term os cmd) as [code |].
  - transitivity (status_of p (set_status p (Exited code)
                      (set_procs (<[p := Proc cmd Terminating out]> (procs w0)) w0))).
    { destruct t; reflexivity. }
    apply status_of_set_status_eq. unfold status_of. cbn.
    rewrite list_lookup_insert_eq by exact Hlt. cbn. eauto.
  - transitivity (status_of p (kill p
                      (set_procs (<[p := Proc cmd Terminating out]> (procs w0)) w0))).
    { destruct t; reflexivity. }
    unfold kill.
    assert (Hs : status_of p (set_procs (<[p := Proc cmd Terminating out]>
                                           (procs w0)) w0) = Some Terminating).
    { unfold status_of. cbn. rewrite list_lookup_insert_eq by exact Hlt.
      reflexivity. }
    rewrite Hs. apply status_of_set_status_eq. rewrite Hs. eauto.
Qed.

(** The table of processes when [start_model_ai] / [start_qr_reader]
    comes to [Popen]. *)
Lemma procs_prepared (t : tool) (w : world) :
  procs (prepared os t w)
  = procs (let w1 := if camera_running w then stop_camera w else w in
           match handle (other t) w1 with
           | Some _ => stop_tool os (other t) w1
           | None => w1
           end).
Proof.
  unfold prepared. cbn zeta.
  match goal with
  | |- procs (print ?l ?x) = _ =>
      pose proof (print_keeps l x) as (_ & Kp & _); rewrite Kp
  end.
  destruct t; reflexivity.
Qed.

(** From [Popen] on, [start_model_ai] / [start_qr_reader] touch no
    process that exists. *)
Lemma status_of_start_tool (t : tool) (q : pid) (w : world) :
  handle t w = None ->
  (q < length (procs (prepared os t w)))%nat ->
  status_of q (start_tool os t w) = status_of q (prepared os t w).
Proof.
  intros Hh Hq. rewrite (start_tool_unfold os t w Hh).
  set (w3 := prepared os t w) in *.
  destruct (spawn_error os (tool_cmd os t)) as [e |].
  - unfold status_of, print. destruct (sys_stdout w3); destruct t; reflexivity.
  - unfold status_of, print, start_thread.
    transitivity (p_status <$> (procs w3 ++ [Proc (tool_cmd os t) Alive []]) !! q).
    { destruct t; cbn; destruct (sys_stdout w3); reflexivity. }
    rewrite lookup_app_l by exact Hq. reflexivity.
Qed.

(** The part of [start_model_ai] / [start_qr_reader] from [Popen] on. *)
Lemma evolves_from_prepared (t : tool) (w : world) :
  handle t w = None -> evolves (prepared os t w) (start_tool os t w).
Proof.
  intros Hh. rewrite (start_tool_unfold os t w Hh).
  set (w3 := prepared os t w).
  destruct (spawn_error os (tool_cmd os t)) as [e |].
  - eapply evolves_trans;
      [apply (evolves_print ("Error starting " +:+ long_name t +:+ ": " +:+ e)) |].
    apply evolves_drop; [destruct t; reflexivity |].
    intros [| []] q Hq; destruct t; cbn in Hq |- *;
      first [discriminate | exact Hq].
  - apply (evolves_spawn (tool_cmd os t)).
    + unfold print, start_thread. destruct t; cbn;
        destruct (sys_stdout w3); reflexivity.
    + intros k q Hq. unfold print, start_thread in Hq.
      destruct t, k as [| []]; cbn in Hq; destruct (sys_stdout w3);
        cbn in Hq;
        first [left; exact Hq | right; injection Hq as <-; reflexivity].
Qed.


(** X17.  Starting Model AI while the QR reader holds a process, or the
    QR reader while Model AI holds one, stops the other tool first: when
    the start comes to [Popen], and still when it returns, the slot of
    the other tool is empty and the process it held has exited or has
    been sent SIGKILL. *)
Theorem start_tool_stops_other_tool (t : tool) (q : pid) (w : world) :
  handle t w = None ->
  handle (other t) w = Some q ->
  (q < length (procs w))%nat ->
  handle (other t) (prepared os t w) = None
  /\ put_down q (prepared os t w)
  /\ handle (other t) (start_tool os t w) = None
  /\ put_down q (start_tool os t w).
Proof.
  intros Hfree Hother Hq.
  set (w1 := if camera_running w then stop_camera w else w).
  assert (H1 : handle (other t) w1 = Some q).
  { subst w1. destruct (camera_running w);
      [rewrite handle_stop_camera |]; exact Hother. }
  assert (L1 : length (procs w1) = length (procs w)).
  { subst w1. destruct (camera_running w); [apply stop_camera_frame | reflexivity]. }
  pose proof (stop_tool_put_down (other t) q w1 H1 ltac:(lia)) as Hdown.
  pose proof (procs_prepared t w) as Hprocs. cbn zeta in Hprocs.
  fold w1 in Hprocs. rewrite H1 in Hprocs.
  assert (Hlen : (q < length (procs (prepared os t w)))%nat).
  { rewrite Hprocs.
    pose proof (stop_tool_frame os (other t) w1) as (_ & _ & L & _). lia. }
  assert (Hnone : handle (other t) (prepared os t w) = None).
  { unfold prepared. fold w1. rewrite H1.
    rewrite handle_print, handle_clear_console, handle_set_button,
      handle_set_status_label, handle_stop_tool.
    destruct (decide (other t = other t)); [reflexivity | congruence]. }
  split; [exact Hnone |]. split; [| split].
  - eapply put_down_status; [| exact Hdown].
    unfold status_of. rewrite Hprocs. reflexivity.
  - rewrite (start_tool_unfold os t w Hfree).
    destruct (spawn_error os (tool_cmd os t)) as [e |].
    + rewrite handle_set_handle_other, handle_set_button,
        handle_set_status_label, handle_print.
      exact Hnone.
    + rewrite handle_set_status_label, handle_print, handle_start_thread,
        handle_set_handle_other, handle_set_procs.
      exact Hnone.
  - eapply put_down_status; [| exact Hdown].
    rewrite (status_of_start_tool t q w Hfree Hlen).
    unfold status_of. rewrite Hprocs. reflexivity.
Qed.

(** X18.  A reader thread whose slot was emptied while it was inside
    [readline] (by a stop, or by the callback of an exit) and has not
    been taken again: once [readline] returns, the thread forwards at
    most the one line it was given and ends; it asks the main loop for no
    callback and leaves the slots as they are. *)
Theorem reader_of_emptied_slot_ends (t : tool) (i : nat) (p : pid)
    (w w' : world) :
  destroyed w = false ->
  handle t w = None ->
  threads w !! i = Some (OutputReading t p) ->
  step os (Schedule i) w = Some w' ->
  threads w' !! i = Some Finished
  /\ after_queue w' = after_queue w
  /\ (printed w' = printed w
      \/ exists line, printed w' = printed w ++ [forwarded t line])
  /\ (forall t', handle t' w' = handle t' w).
Proof.
  intros Hd Hh Hth. unfold step. rewrite Hd. unfold thread_step. rewrite Hth.
  assert (Hlt : (i < length (threads w))%nat) by (eapply lookup_lt_Some; eauto).
  assert (Hexit : forall w1,
             handle t w1 = None ->
             reader_exit t i w1 = set_thread i Finished w1).
  { intros w1 H1. unfold reader_exit. rewrite H1. reflexivity. }
  unfold reader_turn, readline.
  destruct (procs w !! p) as [pr |]; [| discriminate].
  destruct (p_stdout pr) as [| [line |] rest].
  - destruct (p_status pr); try discriminate. cbn. rewrite Hh, Hexit by exact Hh.
    intros [= <-]. cbn. split; [apply list_lookup_insert_eq; exact Hlt |].
    split; [reflexivity |]. split; [left; reflexivity |].
    intros []; reflexivity.
  - set (w1 := set_procs _ w).
    assert (H1 : handle t w1 = None) by (destruct t; exact Hh).
    destruct (String.eqb line "").
    + rewrite H1, Hexit by exact H1. intros [= <-]. cbn.
      split; [apply list_lookup_insert_eq; exact Hlt |].
      split; [reflexivity |]. split; [left; reflexivity |].
      intros []; reflexivity.
    + pose proof (print_keeps (short_name t +:+ ": " +:+ Py.strip line) w1)
        as (Kh & _ & Kt & Ka & _).
      pose proof (printed_print (short_name t +:+ ": " +:+ Py.strip line) w1)
        as Kp.
      set (w2 := print (short_name t +:+ ": " +:+ Py.strip line) w1) in *.
      assert (H2 : handle t w2 = None) by (rewrite Kh; exact H1).
      unfold reader_loop. rewrite H2, Hexit by exact H2. intros [= <-].
      split; [cbn; rewrite Kt; apply list_lookup_insert_eq; exact Hlt |].
      split; [cbn; rewrite Ka; reflexivity |].
      split; [right; exists line; exact Kp |].
      intros t'. transitivity (handle t' w2); [destruct t'; reflexivity |].
      rewrite Kh. destruct t'; reflexivity.
  - set (w1 := set_procs _ w).
    assert (H1 : handle t w1 = None) by (destruct t; exact Hh).
    rewrite Hexit by exact H1. intros [= <-]. cbn.
    split; [apply list_lookup_insert_eq; exact Hlt |].
    split; [reflexivity |]. split; [left; reflexivity |].
    intros []; reflexivity.
Qed.

(** X19.  Pressing the button of a tool twice in a row, from a free slot
    and with a process that can be spawned, starts the tool and stops it
    again: one process was created; it has exited with its own return
    code when it reacts to SIGTERM within the [wait], and has been sent
    SIGKILL otherwise; the slot is free, and the status line says
    "Stopped". *)
Theorem toggle_tool_twice (t : tool) (w : world) :
  handle t w = None ->
  spawn_error os (tool_cmd os t) = None ->
  handle t (toggle_tool os t (toggle_tool os t w)) = None
  /\ length (procs (toggle_tool os t (toggle_tool os t w)))
     = S (length (procs w))
  /\ status_of (length (procs w)) (toggle_tool os t (toggle_tool os t w))
     = Some (match exits_on_term os (tool_cmd os t) with
             | Some code => Exited code
             | None => Killed
             end)
  /\ status_label (toggle_tool os t (toggle_tool os t w))
     = "Status: " +:+ long_name t +:+ " Stopped".
Proof.
  intros Hfree Hspawn.
  assert (H1 : toggle_tool os t w = start_tool os t w).
  { unfold toggle_tool. rewrite Hfree. reflexivity. }
  rewrite H1.
  pose proof (prepared_frame os t w) as (_ & _ & Lp & _).
  assert (Hh : handle t (start_tool os t w) = Some (length (procs w))
               /\ length (procs (start_tool os t w)) = S (length (procs w))
               /\ procs (start_tool os t w) !! length (procs w)
                  = Some (Proc (tool_cmd os t) Alive [])).
  { rewrite (start_tool_unfold os t w Hfree), Hspawn.
    set (w3 := prepared os t w) in *. unfold print, start_thread.
    destruct t; cbn; destruct (sys_stdout w3); cbn;
      rewrite length_app, Lp; cbn;
      (split; [reflexivity | split; [lia |]]);
      rewrite <- Lp, lookup_app_r, Nat.sub_diag by lia; reflexivity. }
  destruct Hh as (Hh & Hlen & Hproc).
  set (w1 := start_tool os t w) in *.
  assert (H2 : toggle_tool os t w1 = stop_tool os t w1).
  { unfold toggle_tool. rewrite Hh. reflexivity. }
  rewrite H2.
  pose proof (stop_tool_frame os t w1) as (_ & _ & Ls & _).
  pose proof (handle_stop_tool t t w1) as Hnone.
  destruct (decide (t = t)); [| congruence].
  split; [exact Hnone |]. split; [lia |].
  split; [exact (stop_tool_running t _ _ _ w1 Hh Hproc) |].
  destruct (stop_tool_shape os t (length (procs w)) w1 Hh) as (ps & _ & -> & _).
  destruct t; reflexivity.
Qed.

(** *** The camera, step by step *)

Lemma camera_click_starts (w : world) :
  destroyed w = false ->
  camera_running w = false ->
  exists w1,
    step os ClickAIVision w = Some w1
    /\ destroyed w1 = false
    /\ threads w1 = threads w ++ [CameraLauncher]
    /\ after_queue w1 = after_queue w
    /\ length (procs w1) = length (procs w).
Proof.
  intros Hd Hrun. unfold step. rewrite Hd. unfold toggle_camera. rewrite Hrun.
  eexists. split; [reflexivity |].
  unfold start_camera. rewrite Hrun.
  set (w1 := match qr_reader_process w with
             | Some _ => stop_qr_reader os w
             | None => w
             end).
  assert (H1 : same_frame w w1).
  { subst w1. destruct (qr_reader_process w);
      [apply stop_tool_frame | apply same_frame_refl]. }
  set (w2 := match model_ai_process w1 with
             | Some _ => stop_model_ai os w1
             | None => w1
             end).
  assert (H2 : same_frame w w2).
  { subst w2. destruct (model_ai_process w1);
      [eapply same_frame_trans; [exact H1 | apply stop_tool_frame] | exact H1]. }
  destruct H2 as (Fth & Faq & Flen & Fd & _).
  cbn [destroyed threads after_queue procs start_thread clear_console
       set_console set_threads set_status_label set_start_button
       set_camera_running].
  rewrite Fth, Fd. auto.
Qed.

Lemma camera_thread_launches (i : nat) (w : world) :
  destroyed w = false ->
  threads w !! i = Some CameraLauncher ->
  spawn_error os camera_cmd = None ->
  exists w2,
    step os (Schedule i) w = Some w2
    /\ destroyed w2 = false
    /\ threads w2 !! i = Some (CameraWaiter (length (procs w)))
    /\ after_queue w2 = after_queue w
    /\ procs w2 = procs w ++ [Proc camera_cmd Alive []]
    /\ process w2 = Some (length (procs w)).
Proof.
  intros Hd Hth Hspawn. unfold step. rewrite Hd. unfold thread_step. rewrite Hth.
  eexists. split; [reflexivity |].
  unfold camera_launch, Popen. rewrite Hspawn. unfold print.
  cbn [sys_stdout set_sys_stdout set_console console].
  cbn [destroyed threads after_queue procs process set_thread set_threads
       set_process set_procs set_console].
  split; [exact Hd |]. split; [| auto].
  apply list_lookup_insert_eq. eapply lookup_lt_Some. exact Hth.
Qed.

Lemma process_exits (p : pid) (code : Z) (cmd : list string)
    (out : list chunk) (w : world) :
  procs w !! p = Some (Proc cmd Alive out) ->
  exists w3,
    step os (Exits p code) w = Some w3
    /\ destroyed w3 = destroyed w
    /\ threads w3 = threads w
    /\ after_queue w3 = after_queue w
    /\ process w3 = process w
    /\ poll p w3 = Some code.
Proof.
  intros Hp. unfold step, status_of. rewrite Hp.
  cbn [fmap option_fmap option_map p_status].
  eexists. split; [reflexivity |].
  unfold set_status. rewrite Hp.
  cbn [destroyed threads after_queue process set_procs].
  repeat split.
  unfold poll, status_of. cbn [procs set_procs].
  rewrite list_lookup_insert_eq by (eapply lookup_lt_Some; exact Hp).
  reflexivity.
Qed.

Lemma camera_thread_notices (i : nat) (p : pid) (code : Z) (w : world) :
  destroyed w = false ->
  threads w !! i = Some (CameraWaiter p) ->
  poll p w = Some code ->
  exists w4,
    step os (Schedule i) w = Some w4
    /\ destroyed w4 = false
    /\ after_queue w4 = after_queue w ++ [CameraStopped]
    /\ sys_stdout w4 = Terminal
    /\ poll p w4 = Some code.
Proof.
  intros Hd Hth Hpoll. unfold step. rewrite Hd. unfold thread_step. rewrite Hth.
  unfold camera_waited. rewrite Hpoll.
  eexists. split; [reflexivity |]. repeat split; assumption.
Qed.

Lemma camera_callback_runs (rest : list callback) (w : world) :
  destroyed w = false ->
  after_queue w = CameraStopped :: rest ->
  exists w5,
    step os RunAfter w = Some w5
    /\ camera_running w5 = false
    /\ process w5 = None
    /\ start_button w5 = "AI Vision"
    /\ status_label w5 = "Status: Ready"
    /\ sys_stdout w5 = sys_stdout w
    /\ after_queue w5 = rest
    /\ procs w5 = procs w.
Proof.
  intros Hd Haq. unfold step. rewrite Hd, Haq.
  eexists. split; [reflexivity |]. repeat split.
Qed.

(** X20.  The camera from start to exit.  The camera is started on a supervisor
    whose camera slot is free and whose callback queue is empty, and
    [rpicam-hello] can be spawned; the launcher thread runs, the process
    exits with any return code, the thread notices it, and the main loop
    runs the callback.  The slot is then free again: no handle,
    [camera_running] false, the button and the status line reset, and
    [print] back on the terminal. *)
Theorem camera_run_to_exit (w : world) (code : Z) :
  destroyed w = false ->
  camera_running w = false ->
  after_queue w = [] ->
  spawn_error os camera_cmd = None ->
  exists w',
    run os [ClickAIVision; Schedule (length (threads w));
            Exits (length (procs w)) code; Schedule (length (threads w));
            RunAfter] w = Some w'
    /\ camera_running w' = false
    /\ process w' = None
    /\ start_button w' = "AI Vision"
    /\ status_label w' = "Status: Ready"
    /\ sys_stdout w' = Terminal
    /\ after_queue w' = []
    /\ poll (length (procs w)) w' = Some code.
Proof.
  intros Hd Hrun Haq Hspawn.
  destruct (camera_click_starts w Hd Hrun) as (w1 & S1 & D1 & T1 & A1 & L1).
  destruct (camera_thread_launches (length (threads w)) w1 D1) as
    (w2 & S2 & D2 & T2 & A2 & P2 & _); [| exact Hspawn |].
  { rewrite T1, lookup_app_r, Nat.sub_diag by lia. reflexivity. }
  destruct (process_exits (length (procs w)) code camera_cmd [] w2) as
    (w3 & S3 & D3 & T3 & A3 & _ & C3).
  { rewrite P2, <- L1, lookup_app_r, Nat.sub_diag by lia. reflexivity. }
  destruct (camera_thread_notices (length (threads w)) (length (procs w))
              code w3) as (w4 & S4 & D4 & A4 & O4 & C4);
    [congruence | rewrite T3, T2, L1; reflexivity | exact C3 |].
  destruct (camera_callback_runs [] w4 D4) as
    (w5 & S5 & R5 & H5 & B5 & L5 & O5 & A5 & P5).
  { rewrite A4, A3, A2, A1, Haq. reflexivity. }
  exists w5. split.
  - cbn [run]. rewrite S1, S2, S3, S4, S5. reflexivity.
  - repeat split; try assumption; [congruence |].
    unfold poll, status_of in *. rewrite P5. exact C4.
Qed.

(** *** Starting the camera and closing the window *)

Lemma tools_stopped_spec (w : world) :
  (forall t, handle t (tools_stopped os w) = None)
  /\ same_frame w (tools_stopped os w)
  /\ evolves w (tools_stopped os w)
  /\ (forall t q, handle t w = Some q -> (q < length (procs w))%nat ->
        put_down q (tools_stopped os w)).
Proof.
  unfold tools_stopped.
  set (w1 := match qr_reader_process w with
             | Some _ => stop_qr_reader os w
             | None => w
             end).
  assert (Hq1 : handle QRReader w1 = None).
  { subst w1. destruct (qr_reader_process w) eqn:E; [| exact E].
    unfold stop_qr_reader. rewrite handle_stop_tool.
    destruct (decide (QRReader = QRReader)); [reflexivity | congruence]. }
  assert (Hm1 : handle ModelAI w1 = handle ModelAI w).
  { subst w1. destruct (qr_reader_process w); [| reflexivity].
    unfold stop_qr_reader. rewrite handle_stop_tool.
    destruct (decide (QRReader = ModelAI)); [discriminate | reflexivity]. }
  assert (F1 : same_frame w w1).
  { subst w1. destruct (qr_reader_process w);
      [apply stop_tool_frame | apply same_frame_refl]. }
  assert (E1 : evolves w w1).
  { subst w1. destruct (qr_reader_process w);
      [apply evolves_stop_tool | apply evolves_refl]. }
  set (w2 := match model_ai_process w1 with
             | Some _ => stop_model_ai os w1
             | None => w1
             end).
  assert (F12 : same_frame w1 w2).
  { subst w2. destruct (model_ai_process w1);
      [apply stop_tool_frame | apply same_frame_refl]. }
  assert (E12 : evolves w1 w2).
  { subst w2. destruct (model_ai_process w1);
      [apply evolves_stop_tool | apply evolves_refl]. }
  split; [| split; [| split]].
  - intros [].
    + subst w2. destruct (model_ai_process w1) eqn:E; [| exact E].
      unfold stop_model_ai. rewrite handle_stop_tool.
      destruct (decide (ModelAI = ModelAI)); [reflexivity | congruence].
    + subst w2. destruct (model_ai_process w1); [| exact Hq1].
      unfold stop_model_ai. rewrite handle_stop_tool.
      destruct (decide (ModelAI = QRReader)); [discriminate | exact Hq1].
  - eapply same_frame_trans; eassumption.
  - eapply evolves_trans; eassumption.
  - intros [] q Hq Hlen.
    + rewrite <- Hm1 in Hq. subst w2. cbn [handle] in Hq. rewrite Hq.
      apply (stop_tool_put_down ModelAI q w1 Hq).
      destruct F1 as (_ & _ & L & _). lia.
    + assert (Hex : put_down q w1).
      { subst w1. cbn [handle] in Hq. rewrite Hq.
        apply (stop_tool_put_down QRReader q w Hq Hlen). }
      subst w2. destruct (model_ai_process w1); [| exact Hex].
      apply put_down_stop_tool. exact Hex.
Qed.

(** X21.  Starting the camera stops Model AI and the QR reader: when
    [start_camera] returns from a free camera slot, the slot of each
    tool is empty and the process it held has exited or has been sent
    SIGKILL. *)
Theorem start_camera_stops_tools (t : tool) (q : pid) (w : world) :
  camera_running w = false ->
  handle t w = Some q ->
  (q < length (procs w))%nat ->
  handle t (start_camera os w) = None
  /\ put_down q (start_camera os w).
Proof.
  intros Hrun Hq Hlen.
  destruct (tools_stopped_spec w) as (Hnone & _ & _ & Hex).
  pose proof (Hex t q Hq Hlen) as Hdown.
  assert (Heq : start_camera os w
                = start_thread CameraLauncher
                    (clear_console
                       (set_status_label "Status: Running"
                          (set_start_button "Stop AI Vision"
                             (set_camera_running true (tools_stopped os w)))))).
  { unfold start_camera. rewrite Hrun. reflexivity. }
  rewrite Heq. split.
  - rewrite <- (Hnone t). destruct t; reflexivity.
  - eapply put_down_status; [| exact Hdown]. reflexivity.
Qed.

(** X22.  Closing the window stops Model AI and the QR reader: when
    [close_application] has destroyed the root window, the slot of each
    tool is empty and the process it held has exited or has been sent
    SIGKILL. *)
Theorem close_application_stops_tools (t : tool) (q : pid) (w : world) :
  handle t w = Some q ->
  (q < length (procs w))%nat ->
  destroyed (close_application os w) = true
  /\ handle t (close_application os w) = None
  /\ put_down q (close_application os w).
Proof.
  intros Hq Hlen.
  set (w1 := if camera_running w then stop_camera w else w).
  assert (H1 : handle t w1 = Some q).
  { subst w1. destruct (camera_running w);
      [rewrite handle_stop_camera |]; exact Hq. }
  assert (L1 : length (procs w1) = length (procs w)).
  { subst w1. destruct (camera_running w); [apply stop_camera_frame | reflexivity]. }
  destruct (tools_stopped_spec w1) as (Hnone & _ & _ & Hex).
  pose proof (Hex t q H1 ltac:(lia)) as Hdown.
  assert (Heq : close_application os w = set_destroyed true (tools_stopped os w1)).
  { reflexivity. }
  rewrite Heq.
  split; [reflexivity |]. split.
  - rewrite <- (Hnone t). destruct t; reflexivity.
  - eapply put_down_status; [| exact Hdown]. reflexivity.
Qed.

End CompositionFacts.

(* ===================================================================== *)
(** * Stopping a tool while the threads and the children run *)
(* ===================================================================== *)

Section StopFacts.
Import Gui Supervision.

Variable os : osenv.



















End StopFacts.

Section StopWitnesses.
Import Gui Supervision.


End StopWitnesses.

(** ** The theorems above at work *)

Section FurtherWitnesses.
Import Gui Supervision.

(** Model AI exits with code 3; the supervisor is then used further. *)
Lemma exit_is_final_witness :
  poll 0 (the_run friendly_os [ClickModelAI; Exits 0 3;
                               ClickModelAI; ClickQRReader; ClickClose])
  = Some 3.
Proof.
  apply (exit_is_final friendly_os
           [ClickModelAI; ClickQRReader; ClickClose]
           (the_run friendly_os [ClickModelAI; Exits 0 3])).
  - vm_compute. reflexivity.
  - vm_compute. reflexivity.
Defined.

Lemma handles_are_valid_witness :
  valid_handles (the_run friendly_os [ClickAIVision; Schedule 0; ClickQRReader]).
Proof.
  apply (handles_are_valid friendly_os).
  exists [ClickAIVision; Schedule 0; ClickQRReader]. vm_compute. reflexivity.
Defined.

Lemma start_tool_stops_other_tool_witness :
  handle QRReader
         (prepared stubborn_os ModelAI (the_run stubborn_os [ClickQRReader]))
  = None
  /\ put_down 0 (prepared stubborn_os ModelAI
                          (the_run stubborn_os [ClickQRReader]))
  /\ handle QRReader
            (start_tool stubborn_os ModelAI (the_run stubborn_os [ClickQRReader]))
     = None
  /\ put_down 0 (start_tool stubborn_os ModelAI
                            (the_run stubborn_os [ClickQRReader])).
Proof.
  apply (start_tool_stops_other_tool stubborn_os ModelAI 0
           (the_run stubborn_os [ClickQRReader])).
  - vm_compute. reflexivity.
  - vm_compute. reflexivity.
  - vm_compute. lia.
Defined.

(** Model AI has written a line that its reader has not taken yet when it
    is stopped; the reader then runs. *)
Lemma reader_of_emptied_slot_ends_witness :
  exists w',
    step friendly_os (Schedule 0)
         (the_run friendly_os [ClickModelAI; Schedule 0; Writes 0 "late";
                               ClickModelAI])
    = Some w'
    /\ threads w' !! 0%nat = Some Finished
    /\ after_queue w' = []
    /\ handle ModelAI w' = None.
Proof.
  assert (Hstep : exists w',
             step friendly_os (Schedule 0)
                  (the_run friendly_os [ClickModelAI; Schedule 0; Writes 0 "late";
                               ClickModelAI])
             = Some w') by (vm_compute; eauto).
  destruct Hstep as [w' Hstep]. exists w'. split; [exact Hstep |].
  destruct (reader_of_emptied_slot_ends friendly_os ModelAI 0 0
              (the_run friendly_os [ClickModelAI; Schedule 0; Writes 0 "late";
                               ClickModelAI]) w')
    as (Hfin & Haq & _ & Hh);
    [vm_compute; reflexivity | vm_compute; reflexivity
     | vm_compute; reflexivity | exact Hstep |].
  split; [exact Hfin |]. split; [rewrite Haq | rewrite Hh]; vm_compute; reflexivity.
Defined.

Lemma toggle_tool_twice_witness :
  handle QRReader
         (toggle_tool friendly_os QRReader (toggle_tool friendly_os QRReader init))
  = None
  /\ length (procs (toggle_tool friendly_os QRReader
                                (toggle_tool friendly_os QRReader init)))
     = S (length (procs init))
  /\ status_of (length (procs init))
               (toggle_tool friendly_os QRReader
                            (toggle_tool friendly_os QRReader init))
     = Some (Exited (-15))
  /\ status_label (toggle_tool friendly_os QRReader
                               (toggle_tool friendly_os QRReader init))
     = "Status: " +:+ long_name QRReader +:+ " Stopped".
Proof.
  apply (toggle_tool_twice friendly_os QRReader init).
  - reflexivity.
  - reflexivity.
Defined.

Lemma camera_run_to_exit_witness :
  exists w',
    run friendly_os [ClickAIVision; Schedule (length (threads init));
                     Exits (length (procs init)) 0;
                     Schedule (length (threads init)); RunAfter] init
    = Some w'
    /\ camera_running w' = false
    /\ process w' = None
    /\ start_button w' = "AI Vision"
    /\ status_label w' = "Status: Ready"
    /\ sys_stdout w' = Terminal
    /\ after_queue w' = []
    /\ poll (length (procs init)) w' = Some 0.
Proof.
  apply (camera_run_to_exit friendly_os init 0); reflexivity.
Defined.

Lemma start_camera_stops_tools_witness :
  handle ModelAI (start_camera stubborn_os (the_run stubborn_os [ClickModelAI]))
  = None
  /\ put_down 0 (start_camera stubborn_os (the_run stubborn_os [ClickModelAI])).
Proof.
  apply (start_camera_stops_tools stubborn_os ModelAI 0
           (the_run stubborn_os [ClickModelAI])).
  - vm_compute. reflexivity.
  - vm_compute. reflexivity.
  - vm_compute. lia.
Defined.

Lemma close_application_stops_tools_witness :
  destroyed (close_application friendly_os (the_run friendly_os [ClickQRReader]))
  = true
  /\ handle QRReader
            (close_application friendly_os (the_run friendly_os [ClickQRReader]))
     = None
  /\ put_down 0 (close_application friendly_os
                                   (the_run friendly_os [ClickQRReader])).
Proof.
  apply (close_application_stops_tools friendly_os QRReader 0
           (the_run friendly_os [ClickQRReader])).
  - vm_compute. reflexivity.
  - vm_compute. lia.
Defined.

End FurtherWitnesses.

(** ** AI_Camera_Demo1.py *)

Section DemoFacts.
Import Gui Demo.
Local Open Scope list_scope.

Variable spawn_error : list string -> option string.
Variable exits_after_term : list string -> option Z.

(** X23.  [IMX500Camera.stop] never returns while the camera process runs: when
    it returns, the object holds no process any more, the process it held
    has exited, and the table of processes has kept its size.  A second
    [stop] then changes nothing. *)
Theorem imx500_stop_spec (s s' : state) :
  stop exits_after_term s = Done s' ->
  process s' = None
  /\ length (procs s') = length (procs s)
  /\ (forall p, process s = Some p -> (p < length (procs s))%nat ->
        exists code, status_of p s' = Some (Exited code))
  /\ stop exits_after_term s' = Done s'.
Proof.
  unfold stop. destruct (process s) as [p |] eqn:Hp.
  2:{ intros [= <-]. rewrite Hp. repeat split. intros p H. discriminate. }
  set (s0 := print "Stopping camera..." s).
  assert (Hterm : length (procs (terminate p s0)) = length (procs s)
                  /\ forall pr, procs s !! p = Some pr ->
                       exists pr', procs (terminate p s0) !! p = Some pr'
                                   /\ p_status pr' <> Alive).
  { unfold terminate. cbn [procs s0 print].
    destruct (procs s !! p) as [pr |] eqn:E.
    - destruct (p_status pr) eqn:Hst; cbn [procs set_procs print].
      + rewrite length_insert. split; [reflexivity |].
        intros pr0 _. eexists. split;
          [apply list_lookup_insert_eq; eapply lookup_lt_Some; exact E |].
        discriminate.
      + split; [reflexivity |]. intros pr0 [= <-]. exists pr.
        split; [exact E | congruence].
      + split; [reflexivity |]. intros pr0 [= <-]. exists pr.
        split; [exact E | congruence].
      + split; [reflexivity |]. intros pr0 [= <-]. exists pr.
        split; [exact E | congruence].
    - split; [reflexivity |]. intros pr0 H. discriminate. }
  destruct Hterm as (Hlen & Hterm).
  set (s1 := terminate p s0) in *.
  unfold wait. destruct (procs s1 !! p) as [pr1 |] eqn:E1.
  - destruct (p_status pr1) eqn:Hst1; try discriminate.
    + destruct (exits_after_term (p_cmd pr1)) as [code |]; [| discriminate].
      intros [= <-]. cbn. rewrite length_insert.
      split; [reflexivity |]. split; [exact Hlen |]. split; [| reflexivity].
      intros q [= <-] _. exists code. unfold status_of. cbn.
      rewrite list_lookup_insert_eq by (eapply lookup_lt_Some; exact E1).
      reflexivity.
    + intros [= <-]. cbn. rewrite length_insert.
      split; [reflexivity |]. split; [exact Hlen |]. split; [| reflexivity].
      intros q [= <-] _. exists (-9). unfold status_of. cbn.
      rewrite list_lookup_insert_eq by (eapply lookup_lt_Some; exact E1).
      reflexivity.
    + intros [= <-]. cbn.
      split; [reflexivity |]. split; [exact Hlen |]. split; [| reflexivity].
      intros q [= <-] _. exists code. unfold status_of. cbn.
      rewrite E1. cbn. rewrite Hst1. reflexivity.
  - intros [= <-]. cbn.
    split; [reflexivity |]. split; [exact Hlen |]. split; [| reflexivity].
    intros q [= <-] Hq. exfalso.
    apply lookup_ge_None in E1. lia.
Qed.

(** X24.  [start] then [stop]: when the camera command can be spawned and the
    process obeys SIGTERM, the two calls return, one process was created,
    it has exited with the code it chose, and the object holds no process.
    When the process ignores SIGTERM, [stop] never returns. *)
Theorem imx500_start_stop (timeout : string) (s : state) :
  spawn_error (Launch.IMX500Camera_start_cmd (camera s) timeout) = None ->
  exists s1,
    start spawn_error timeout s = Done s1
    /\ process s1 = Some (length (procs s))
    /\ status_of (length (procs s)) s1 = Some Alive
    /\ match exits_after_term
               (Launch.IMX500Camera_start_cmd (camera s) timeout) with
       | Some code =>
           exists s2,
             stop exits_after_term s1 = Done s2
             /\ process s2 = None
             /\ length (procs s2) = S (length (procs s))
             /\ status_of (length (procs s)) s2 = Some (Exited code)
       | None => stop exits_after_term s1 = Blocked
       end.
Proof.
  intros Hspawn. unfold start. rewrite Hspawn.
  set (cmd := Launch.IMX500Camera_start_cmd (camera s) timeout).
  eexists. split; [reflexivity |].
  unfold stop, terminate, wait, status_of, set_process, set_procs, print.
  cbn [process procs camera printed].
  assert (Hnew : (procs s ++ [Proc cmd Alive []]) !! length (procs s)
                 = Some (Proc cmd Alive [])).
  { rewrite lookup_app_r, Nat.sub_diag by lia. reflexivity. }
  split; [reflexivity |].
  unfold pid in *.
  rewrite Hnew. cbn [p_status p_cmd p_stdout fmap option_fmap option_map].
  split; [reflexivity |].
  cbn [process procs camera printed].
  rewrite list_lookup_insert_eq by (rewrite length_app; cbn; lia).
  cbn [p_status p_cmd p_stdout].
  destruct (exits_after_term cmd) as [code |]; [| reflexivity].
  eexists. split; [reflexivity |].
  cbn [process procs camera printed].
  split; [reflexivity |]. split.
  - rewrite !length_insert, length_app. cbn. lia.
  - rewrite list_lookup_insert_eq
      by (rewrite length_insert, length_app; cbn; lia).
    reflexivity.
Qed.

End DemoFacts.

Section DemoWitnesses.
Import Gui Demo.

Lemma imx500_stop_spec_witness :
  exists s',
    stop (fun _ => Some (-15)) demo_running = Done s'
    /\ process s' = None
    /\ exists code, status_of 0 s' = Some (Exited code).
Proof.
  eexists. split; [vm_compute; reflexivity |].
  match goal with
  | |- process ?s' = None /\ _ =>
      destruct (imx500_stop_spec (fun _ => Some (-15)) demo_running s')
        as (Hnone & _ & Hexit & _); [vm_compute; reflexivity |]
  end.
  split; [exact Hnone |]. apply Hexit; [reflexivity | vm_compute; lia].
Defined.

Lemma imx500_start_stop_witness :
  exists s1,
    start (fun _ => None) "0s" (new demo_camera) = Done s1
    /\ process s1 = Some 0%nat.
Proof.
  destruct (imx500_start_stop (fun _ => None) (fun _ => Some (-15)) "0s"
              (new demo_camera)) as (s1 & Hstart & Hproc & _);
    [reflexivity |].
  exists s1. split; [exact Hstart | exact Hproc].
Defined.

End DemoWitnesses.
